(** * enb_acs_states: the TR-069 provisioning states of the eNodeB ACS

    A shallow embedding of
    [lte/gateway/python/magma/enodebd/state_machines/enb_acs_states.py].

    Every state class of the file becomes a module holding its [read_msg]
    and [get_msg]; the handlers run in a small state-and-exception monad over
    the machine (the state instance [self] and the ACS context it points
    to), so that what a handler has already mutated when it raises is part
    of the model. *)

From Stdlib Require Import ZArith DecimalString.
From stdpp Require Import base tactics option list strings gmap.

Local Open Scope Z_scope.
Local Open Scope string_scope.

(** ** Python values and exceptions *)

(** The dynamically typed values that flow through parameter stores and
    TR-069 payloads ([Any] in the source's annotations). *)
Inductive value : Type :=
| VNone
| VBool (b : bool)
| VInt (z : Z)
| VStr (s : string).

#[global] Instance value_eq_dec : EqDecision value.
Proof. solve_decision. Defined.

(** The exceptions the handlers can raise: the two of
    [magma.enodebd.exceptions] and the built-in ones that unguarded
    subscripts and conversions produce. *)
Inductive exn : Type :=
| Tr069Error (text : string)
| ConfigurationError (text : string)
| KeyError (key : string)
| IndexError
| TypeError
| ValueError
| OverflowError.

#[global] Instance exn_eq_dec : EqDecision exn.
Proof. solve_decision. Defined.

(** [x is True] and [x is False]: identity with the two bool singletons. *)
Definition is_True (v : value) : bool :=
  match v with VBool true => true | _ => false end.

Definition is_False (v : value) : bool :=
  match v with VBool false => true | _ => false end.

(** ['%d' % n] and [str(n)] on an int: the decimal numeral. *)
Definition str_Z (z : Z) : string := NilZero.string_of_int (Z.to_int z).

(** [str(v)]. *)
Definition py_str (v : value) : string :=
  match v with
  | VNone => "None"
  | VBool true => "True"
  | VBool false => "False"
  | VInt z => str_Z z
  | VStr s => s
  end.

(** What the formatting operator [template % n] gives on a [str] template
    and an int: the formatted string, a [TypeError] (the template has no
    place for the argument, [not all arguments converted], or wants more
    arguments or a mapping), a [ValueError] (a malformed template such as
    ['%'], an unsupported format character) or an [OverflowError] (['%c']
    of a number that is no code point). *)
Inductive formatted : Type :=
| Formatted (s : string)
| FormatTypeError
| FormatValueError
| FormatOverflowError.

(** Built-ins of the interpreter whose full definition is outside the
    program: [int(s)] on a [str] ([None] stands for its [ValueError]) and
    the formatting operator [template % n]. *)
Class PyBuiltins : Type := {
  int_of_str : string → option Z;
  str_mod : string → Z → formatted;
}.

(** ** TR-069 messages ([magma.enodebd.tr069.models]) *)

Record anySimpleType : Type := {
  type_ : string;
  Data : value;
}.

Record ParameterValueStruct : Type := {
  Name : string;
  Value : anySimpleType;
}.

Record EventStruct : Type := {
  EventCode : string;
  CommandKey : string;
}.

Record DeviceIdStruct : Type := {
  Manufacturer : string;
  OUI : string;
  ProductClass : string;
  SerialNumber : string;
}.

Record SetParameterValuesFault : Type := {
  ParameterName : string;
  FaultCode : string;
  FaultString : string;
}.

(** The message variants the file reads or produces.  [isinstance(m, C)]
    and [type(m) == C] agree on them: no variant subclasses another. *)
Inductive Message : Type :=
| Inform (DeviceId : DeviceIdStruct) (Event : list EventStruct)
         (ParameterList : list ParameterValueStruct)
| InformResponse (MaxEnvelopes : Z)
| GetParameterValues (arrayType : string) (ParameterNames : list string)
| GetParameterValuesResponse (ParameterList : list ParameterValueStruct)
| SetParameterValues (arrayType : string)
                     (ParameterList : list ParameterValueStruct)
| SetParameterValuesResponse (Status : Z)
| AddObject (ObjectName : string)
| AddObjectResponse (InstanceNumber : Z) (Status : Z)
| DeleteObject (ObjectName : string)
| DeleteObjectResponse (Status : Z)
| Reboot (CommandKey : string)
| RebootResponse
| Fault (FaultCode : string) (FaultString : string)
        (SetParameterValuesFault : option (list SetParameterValuesFault))
| DummyInput.

(** ** Results of the handlers *)

Record AcsMsgAndTransition : Type := mkAcsMsgAndTransition {
  msg : Message;
  msg_next_state : option string;
}.

Record AcsReadMsgResult : Type := mkAcsReadMsgResult {
  msg_handled : bool;
  next_state : option string;
}.

(** ** Python dicts with insertion order

    A dict whose iteration order the code can observe is a list of items
    with pairwise distinct keys. *)
Fixpoint dict_get {V : Type} (d : list (string * V)) (k : string)
  : option V :=
  match d with
  | [] => None
  | (k', v) :: d' => if decide (k' = k) then Some v else dict_get d' k
  end.

Definition dict_keys {V : Type} (d : list (string * V)) : list string :=
  d.*1.

(** ** The device and desired configuration stores *)

Module EnodebConfiguration.

(** Modelled from the spec: the class [EnodebConfiguration]
    ([magma.enodebd.device_config]) is not part of this file.  The store
    is a mapping from parameter name to native value plus, for every
    object instance it contains, a mapping from sub-parameter name to
    native value. *)
Record t : Type := mk {
  param_to_value : gmap string value;
  numbered_objects : gmap string (gmap string value);
}.

Definition empty : t := mk ∅ ∅.

Definition has_parameter (cfg : t) (name : string) : bool :=
  bool_decide (is_Some (param_to_value cfg !! name)).

Definition get_parameter (cfg : t) (name : string) : option value :=
  param_to_value cfg !! name.

Definition set_parameter (cfg : t) (name : string) (v : value) : t :=
  mk (<[name := v]> (param_to_value cfg)) (numbered_objects cfg).

Definition add_object (cfg : t) (obj_name : string) : t :=
  mk (param_to_value cfg)
     (<[obj_name := default ∅ (numbered_objects cfg !! obj_name)]>
        (numbered_objects cfg)).

(** The argument is an instance attribute of the calling state that is
    [None] until the state has sent its request; [None] names no object. *)
Definition delete_object (cfg : t) (obj_name : option string) : t :=
  match obj_name with
  | Some o => mk (param_to_value cfg) (delete o (numbered_objects cfg))
  | None => cfg
  end.

Definition set_parameter_for_object
    (cfg : t) (name : string) (v : value) (obj_name : string) : t :=
  mk (param_to_value cfg)
     (<[obj_name :=
          <[name := v]> (default ∅ (numbered_objects cfg !! obj_name))]>
        (numbered_objects cfg)).

Definition get_parameter_for_object
    (cfg : t) (name : string) (obj_name : string) : option value :=
  numbered_objects cfg !! obj_name ≫= λ ps, ps !! name.

End EnodebConfiguration.

(** ** The data model facade *)

Module DataModel.

Record TrParam : Type := {
  path : string;
  type : string;
}.

(** Modelled from the spec: the class [DataModel]
    ([magma.enodebd.data_models]) is not part of this file.  Its
    mutable part is the presence flag of every parameter: known present,
    known absent, or unknown (no entry).  The key is an [option] because
    [CheckOptionalParamsState] can pass its attribute [optional_param]
    while it is still [None]. *)
Record t : Type := mk {
  presence_by_param : gmap (option string) bool;
}.

Definition is_parameter_present (dm : t) (name : string) : bool :=
  default false (presence_by_param dm !! Some name).

Definition set_parameter_presence
    (dm : t) (name : option string) (is_present : bool) : t :=
  mk (<[name := is_present]> (presence_by_param dm)).

(** The immutable part of a data model: parameter metadata, the two value
    transforms and the sub-parameter names of every numbered object. *)
Class Schema : Type := {
  get_parameter : string → TrParam;
  transform_for_magma : string → value → value;
  transform_for_enb : string → value → value;
  get_numbered_param_names : gmap string (list string);
}.

End DataModel.

(** ** Parameter names and reconciliation helpers *)

Module ParameterName.

(** The constants of [magma.enodebd.data_models.data_model_parameters]
    that this file mentions; their text is declared outside it. *)
Class Names : Type := {
  OP_STATE : string;
  RF_TX_STATUS : string;
  GPS_STATUS : string;
  PTP_STATUS : string;
  MME_STATUS : string;
  GPS_LAT : string;
  GPS_LONG : string;
  NUM_PLMNS : string;
  PLMN_N : string;
}.

End ParameterName.

Abbreviation config := EnodebConfiguration.t.
Abbreviation data_model := DataModel.t.

(** Modelled from the spec: the helpers of [acs_state_utils] and
    [configuration_init] are imported by this file, not defined in it.
    They are pure (no side effect on the stores), so each one is a function
    of the stores it is given.  A dict result is the list of its items.
    [process_inform_message] also receives the machine's device name, and
    [build_desired_config] its operator configuration (mconfig, service
    configuration and postprocessor), which no handler changes. *)
Class AcsStateUtils : Type := {
  process_inform_message : Message → data_model → config → config;
  get_all_objects_to_delete : option config → config → list string;
  get_all_objects_to_add : option config → config → list string;
  parse_get_parameter_values_response :
    data_model → Message → list (string * value);
  get_object_params_to_get :
    option config → config → data_model → list string;
  get_all_param_values_to_set :
    option config → config → data_model → bool → list (string * value);
  get_param_values_to_set :
    option config → config → data_model → list (string * value);
  get_obj_param_values_to_set :
    option config → config → data_model →
    list (string * list (string * value));
  get_params_to_get : config → data_model → list string;
  get_optional_param_to_check : data_model → option string;
  build_desired_config : config → data_model → config;
}.

(** ** The state machine context and the state instances *)

(** Calls into the process-wide sinks and into the desired-configuration
    builder, recorded in the order the handlers make them. *)
Inductive call : Type :=
| clear_stats
| update_status_metrics
| build_desired_config_call.

#[global] Instance call_eq_dec : EqDecision call.
Proof. solve_decision. Defined.

(** What a handler reaches through [self.acs]. *)
Record Acs : Type := mkAcs {
  device_cfg : config;
  desired_cfg : option config;
  acs_data_model : data_model;
  calls : list call;
}.

(** One constructor per state class, with the attributes [__init__] sets:
    the transition targets and the per-visit data of the four classes that
    keep some.  The timer attributes are touched by [enter] and [exit]
    only. *)
Inductive state : Type :=
| DisconnectedState (done_transition : string)
| UnexpectedInformState (done_transition : string)
| BaicellsDisconnectedState (done_transition : string)
| BaicellsRemWaitState (done_transition : string)
| WaitEmptyMessageState (done_transition : string)
| CheckOptionalParamsState (done_transition : string)
                           (optional_param : option string)
| SendGetTransientParametersState (done_transition : string)
| WaitGetTransientParametersState
    (done_transition get_obj_params_transition rm_obj_transition
     add_obj_transition set_transition skip_transition : string)
| GetParametersState (done_transition : string)
| WaitGetParametersState (done_transition : string)
| GetObjectParametersState (done_transition : string)
| WaitGetObjectParametersState
    (rm_obj_transition add_obj_transition set_params_transition
     skip_transition : string)
| DeleteObjectsState (deleted_param : option string)
                     (add_obj_transition skip_transition : string)
| AddObjectsState (done_transition : string) (added_param : option string)
| SetParameterValuesState (done_transition : string)
| SetParameterValuesNotAdminState (done_transition : string)
| WaitSetParameterValuesState (done_transition : string)
| SendRebootState (done_transition : string)
| WaitRebootResponseState (done_transition : string)
| WaitInformMRebootState (done_transition timeout_transition : string)
                         (received_inform : bool)
| WaitRebootDelayState (done_transition : string)
| ErrorState.

(** [self.__class__.__name__]. *)
Definition class_name (s : state) : string :=
  match s with
  | DisconnectedState _ => "DisconnectedState"
  | UnexpectedInformState _ => "UnexpectedInformState"
  | BaicellsDisconnectedState _ => "BaicellsDisconnectedState"
  | BaicellsRemWaitState _ => "BaicellsRemWaitState"
  | WaitEmptyMessageState _ => "WaitEmptyMessageState"
  | CheckOptionalParamsState _ _ => "CheckOptionalParamsState"
  | SendGetTransientParametersState _ => "SendGetTransientParametersState"
  | WaitGetTransientParametersState _ _ _ _ _ _ =>
      "WaitGetTransientParametersState"
  | GetParametersState _ => "GetParametersState"
  | WaitGetParametersState _ => "WaitGetParametersState"
  | GetObjectParametersState _ => "GetObjectParametersState"
  | WaitGetObjectParametersState _ _ _ _ => "WaitGetObjectParametersState"
  | DeleteObjectsState _ _ _ => "DeleteObjectsState"
  | AddObjectsState _ _ => "AddObjectsState"
  | SetParameterValuesState _ => "SetParameterValuesState"
  | SetParameterValuesNotAdminState _ => "SetParameterValuesNotAdminState"
  | WaitSetParameterValuesState _ => "WaitSetParameterValuesState"
  | SendRebootState _ => "SendRebootState"
  | WaitRebootResponseState _ => "WaitRebootResponseState"
  | WaitInformMRebootState _ _ _ => "WaitInformMRebootState"
  | WaitRebootDelayState _ => "WaitRebootDelayState"
  | ErrorState => "ErrorState"
  end.

(** The mutable world of one handler call. *)
Record Machine : Type := mkMachine {
  self : state;
  acs : Acs;
}.

(** ** The handler monad: state passing with exceptions

    A raised exception leaves the machine as the handler had made it up to
    that point. *)
Inductive Res (A : Type) : Type :=
| Ok (a : A)
| Raise (e : exn).
Arguments Ok {A} a.
Arguments Raise {A} e.

Definition M (A : Type) : Type := Machine → Res A * Machine.

#[global] Instance M_ret : MRet M := λ A a σ, (Ok a, σ).

#[global] Instance M_bind : MBind M := λ A B f c σ,
  match c σ with
  | (Ok a, σ') => f a σ'
  | (Raise e, σ') => (Raise e, σ')
  end.

Definition raise {A : Type} (e : exn) : M A := λ σ, (Raise e, σ).

Definition get_acs : M Acs := λ σ, (Ok (acs σ), σ).

Definition set_self (s : state) : M unit :=
  λ σ, (Ok (), mkMachine s (acs σ)).

Definition set_device_cfg (cfg : config) : M unit :=
  λ σ, (Ok (), mkMachine (self σ)
                 (mkAcs cfg (desired_cfg (acs σ)) (acs_data_model (acs σ))
                        (calls (acs σ)))).

Definition set_desired_cfg (cfg : config) : M unit :=
  λ σ, (Ok (), mkMachine (self σ)
                 (mkAcs (device_cfg (acs σ)) (Some cfg)
                        (acs_data_model (acs σ)) (calls (acs σ)))).

Definition set_data_model (dm : data_model) : M unit :=
  λ σ, (Ok (), mkMachine (self σ)
                 (mkAcs (device_cfg (acs σ)) (desired_cfg (acs σ)) dm
                        (calls (acs σ)))).

Definition record_call (c : call) : M unit :=
  λ σ, (Ok (), mkMachine (self σ)
                 (mkAcs (device_cfg (acs σ)) (desired_cfg (acs σ))
                        (acs_data_model (acs σ)) (calls (acs σ) ++ [c]))).

(** [d[k]] on a mapping: the value, or [KeyError]. *)
Definition subscript {A : Type} (o : option A) (k : string) : M A :=
  match o with
  | Some a => mret a
  | None => raise (KeyError k)
  end.

(** [for x in xs: body(x)]. *)
Fixpoint for_each {A : Type} (xs : list A) (body : A → M unit) : M unit :=
  match xs with
  | [] => mret ()
  | x :: xs' => body x ;; for_each xs' body
  end.

Definition update_device_cfg (f : config → config) : M unit :=
  a ← get_acs; set_device_cfg (f (device_cfg a)).

Definition update_data_model (f : data_model → data_model) : M unit :=
  a ← get_acs; set_data_model (f (acs_data_model a)).

(** [int(v)]. *)
Definition py_int `{PyBuiltins} (v : value) : M Z :=
  match v with
  | VNone => raise TypeError
  | VBool b => mret (if b then 1 else 0)
  | VInt z => mret z
  | VStr s =>
      match int_of_str s with
      | Some z => mret z
      | None => raise ValueError
      end
  end.

(** [template % n]. *)
Definition py_mod `{PyBuiltins} (template : string) (n : Z) : M string :=
  match str_mod template n with
  | Formatted s => mret s
  | FormatTypeError => raise TypeError
  | FormatValueError => raise ValueError
  | FormatOverflowError => raise OverflowError
  end.

(** [len(xs) > 0]. *)
Definition nonempty {A : Type} (xs : list A) : bool :=
  bool_decide (0 < Z.of_nat (length xs)).

(** ** The state classes *)

Module EnodebAcsState.

(** The defaults a state inherits when it does not override a handler. *)
Definition read_msg (s : state) (message : Message) : M AcsReadMsgResult :=
  raise (ConfigurationError
           (class_name s
            +:+ " should implement read_msg() if it "
            +:+ "needs to handle message reading")).

Definition get_msg (s : state) : M AcsMsgAndTransition :=
  raise (ConfigurationError
           (class_name s
            +:+ " should implement get_msg() if it "
            +:+ "needs to produce messages")).

End EnodebAcsState.

Module DisconnectedState.
Section handlers.
Context `{AcsStateUtils}.

Definition read_msg (message : Message) : M AcsReadMsgResult :=
  match message with
  | Inform _ _ _ =>
      a ← get_acs;
      set_device_cfg
        (process_inform_message message (acs_data_model a) (device_cfg a));;
      mret (mkAcsReadMsgResult true None)
  | _ => mret (mkAcsReadMsgResult false None)
  end.

Definition get_msg (done_transition : string) : M AcsMsgAndTransition :=
  mret (mkAcsMsgAndTransition (InformResponse 1) (Some done_transition)).

End handlers.
End DisconnectedState.

Module UnexpectedInformState.
Section handlers.
Context `{AcsStateUtils}.

Definition read_msg (message : Message) : M AcsReadMsgResult :=
  match message with
  | Inform _ _ _ =>
      a ← get_acs;
      set_device_cfg
        (process_inform_message message (acs_data_model a) (device_cfg a));;
      mret (mkAcsReadMsgResult true None)
  | _ => mret (mkAcsReadMsgResult false None)
  end.

Definition get_msg (done_transition : string) : M AcsMsgAndTransition :=
  mret (mkAcsMsgAndTransition (InformResponse 1) (Some done_transition)).

End handlers.
End UnexpectedInformState.

Module BaicellsDisconnectedState.
Section handlers.
Context `{AcsStateUtils}.

Definition read_msg (message : Message) : M AcsReadMsgResult :=
  match message with
  | Inform _ _ _ =>
      a ← get_acs;
      set_device_cfg
        (process_inform_message message (acs_data_model a) (device_cfg a));;
      mret (mkAcsReadMsgResult true None)
  | _ => mret (mkAcsReadMsgResult false None)
  end.

Definition get_msg (done_transition : string) : M AcsMsgAndTransition :=
  mret (mkAcsMsgAndTransition (InformResponse 1) (Some done_transition)).

End handlers.
End BaicellsDisconnectedState.

Module BaicellsRemWaitState.

Definition CONFIG_DELAY_AFTER_BOOT : Z := 600.

Definition get_msg : M AcsMsgAndTransition :=
  mret (mkAcsMsgAndTransition DummyInput None).

Definition read_msg (message : Message) : M AcsReadMsgResult :=
  mret (mkAcsReadMsgResult true None).

End BaicellsRemWaitState.

Module WaitEmptyMessageState.

Definition read_msg (done_transition : string) (message : Message)
  : M AcsReadMsgResult :=
  match message with
  | DummyInput => mret (mkAcsReadMsgResult true (Some done_transition))
  | _ => mret (mkAcsReadMsgResult false None)
  end.

End WaitEmptyMessageState.

Module CheckOptionalParamsState.
Section handlers.
Context `{DataModel.Schema, AcsStateUtils}.

Definition get_msg (done_transition : string) : M AcsMsgAndTransition :=
  a ← get_acs;
  let optional_param := get_optional_param_to_check (acs_data_model a) in
  set_self (CheckOptionalParamsState done_transition optional_param);;
  match optional_param with
  | None => raise (Tr069Error "Invalid State")
  | Some name =>
      let path := DataModel.path (DataModel.get_parameter name) in
      mret (mkAcsMsgAndTransition
              (GetParameterValues "xsd:string[1]" [path]) None)
  end.

(** The statements after the [if]/[elif]/[else] on the message type. *)
Definition after_response (done_transition : string) : M AcsReadMsgResult :=
  a ← get_acs;
  match get_optional_param_to_check (acs_data_model a) with
  | Some _ => mret (mkAcsReadMsgResult true None)
  | None => mret (mkAcsReadMsgResult true (Some done_transition))
  end.

Definition read_msg (done_transition : string)
    (optional_param : option string) (message : Message)
  : M AcsReadMsgResult :=
  match message with
  | Fault _ _ _ =>
      update_data_model
        (λ dm, DataModel.set_parameter_presence dm optional_param false);;
      after_response done_transition
  | GetParameterValuesResponse _ =>
      a ← get_acs;
      let name_to_val :=
        parse_get_parameter_values_response (acs_data_model a) message in
      for_each name_to_val (λ '(name, val),
        update_data_model
          (λ dm, DataModel.set_parameter_presence dm optional_param true);;
        let magma_val := DataModel.transform_for_magma name val in
        update_device_cfg
          (λ cfg, EnodebConfiguration.set_parameter cfg name magma_val));;
      after_response done_transition
  | _ => mret (mkAcsReadMsgResult false None)
  end.

End handlers.
End CheckOptionalParamsState.

Module SendGetTransientParametersState.
Section handlers.
Context `{ParameterName.Names, DataModel.Schema}.

Definition PARAMETERS : list string :=
  [ ParameterName.OP_STATE;
    ParameterName.RF_TX_STATUS;
    ParameterName.GPS_STATUS;
    ParameterName.PTP_STATUS;
    ParameterName.MME_STATUS;
    ParameterName.GPS_LAT;
    ParameterName.GPS_LONG ].

Definition read_msg (message : Message) : M AcsReadMsgResult :=
  match message with
  | DummyInput => mret (mkAcsReadMsgResult true None)
  | _ => mret (mkAcsReadMsgResult false None)
  end.

(** The request's list after the loop: one path, in order, for every
    name of [PARAMETERS] the data model marks present. *)
Fixpoint requested_paths (dm : data_model) (names : list string)
  : list string :=
  match names with
  | [] => []
  | name :: rest =>
      if DataModel.is_parameter_present dm name
      then DataModel.path (DataModel.get_parameter name)
             :: requested_paths dm rest
      else requested_paths dm rest
  end.

Definition get_msg (done_transition : string) : M AcsMsgAndTransition :=
  a ← get_acs;
  let arrayType :=
    "xsd:string[" +:+ str_Z (Z.of_nat (length PARAMETERS)) +:+ "]" in
  mret (mkAcsMsgAndTransition
          (GetParameterValues arrayType
             (requested_paths (acs_data_model a) PARAMETERS))
          (Some done_transition)).

End handlers.
End SendGetTransientParametersState.

Module WaitGetTransientParametersState.
Section handlers.
Context `{ParameterName.Names, DataModel.Schema, AcsStateUtils}.

Definition get_next_state
    (done_transition get_obj_params_transition rm_obj_transition
     add_obj_transition skip_transition : string) : M string :=
  a ← get_acs;
  let should_get_params :=
    nonempty (get_params_to_get (device_cfg a) (acs_data_model a)) in
  if should_get_params then mret done_transition
  else
    let should_get_obj_params :=
      nonempty (get_object_params_to_get (desired_cfg a) (device_cfg a)
                  (acs_data_model a)) in
    if should_get_obj_params then mret get_obj_params_transition
    else if nonempty (get_all_objects_to_delete (desired_cfg a)
                        (device_cfg a))
    then mret rm_obj_transition
    else if nonempty (get_all_objects_to_add (desired_cfg a)
                        (device_cfg a))
    then mret add_obj_transition
    else mret skip_transition.

Definition read_msg
    (done_transition get_obj_params_transition rm_obj_transition
     add_obj_transition skip_transition : string) (message : Message)
  : M AcsReadMsgResult :=
  match message with
  | GetParameterValuesResponse _ =>
      a ← get_acs;
      let name_to_val :=
        parse_get_parameter_values_response (acs_data_model a) message in
      prev_rf_tx ←
        (if EnodebConfiguration.has_parameter (device_cfg a)
              ParameterName.RF_TX_STATUS
         then subscript
                (EnodebConfiguration.get_parameter (device_cfg a)
                   ParameterName.RF_TX_STATUS)
                ParameterName.RF_TX_STATUS
         else mret (VBool false));
      next_rf_tx ←
        subscript (dict_get name_to_val ParameterName.RF_TX_STATUS)
          ParameterName.RF_TX_STATUS;
      (if is_True prev_rf_tx && is_False next_rf_tx
       then record_call clear_stats
       else mret ());;
      for_each (dict_keys name_to_val) (λ name,
        val ← subscript (dict_get name_to_val name) name;
        let magma_val := DataModel.transform_for_magma name val in
        update_device_cfg
          (λ cfg, EnodebConfiguration.set_parameter cfg name magma_val));;
      record_call update_status_metrics;;
      next ← get_next_state done_transition get_obj_params_transition
               rm_obj_transition add_obj_transition skip_transition;
      mret (mkAcsReadMsgResult true (Some next))
  | _ => mret (mkAcsReadMsgResult false None)
  end.

End handlers.
End WaitGetTransientParametersState.

Module GetParametersState.
Section handlers.
Context `{DataModel.Schema, AcsStateUtils}.

Definition read_msg (message : Message) : M AcsReadMsgResult :=
  match message with
  | DummyInput => mret (mkAcsReadMsgResult true None)
  | _ => mret (mkAcsReadMsgResult false None)
  end.

Definition get_msg (done_transition : string) : M AcsMsgAndTransition :=
  a ← get_acs;
  let names := get_params_to_get (device_cfg a) (acs_data_model a) in
  let arrayType :=
    "xsd:string[" +:+ str_Z (Z.of_nat (length names)) +:+ "]" in
  mret (mkAcsMsgAndTransition
          (GetParameterValues arrayType
             ((λ name, DataModel.path (DataModel.get_parameter name))
                <$> names))
          (Some done_transition)).

End handlers.
End GetParametersState.

Module WaitGetParametersState.
Section handlers.
Context `{DataModel.Schema, AcsStateUtils}.

Definition read_msg (done_transition : string) (message : Message)
  : M AcsReadMsgResult :=
  match message with
  | GetParameterValuesResponse _ =>
      a ← get_acs;
      let name_to_val :=
        parse_get_parameter_values_response (acs_data_model a) message in
      for_each name_to_val (λ '(name, val),
        let magma_val := DataModel.transform_for_magma name val in
        update_device_cfg
          (λ cfg, EnodebConfiguration.set_parameter cfg name magma_val));;
      mret (mkAcsReadMsgResult true (Some done_transition))
  | _ => mret (mkAcsReadMsgResult false None)
  end.

End handlers.
End WaitGetParametersState.

Module GetObjectParametersState.
Section handlers.
Context `{DataModel.Schema, AcsStateUtils}.

Definition get_msg (done_transition : string) : M AcsMsgAndTransition :=
  a ← get_acs;
  let names :=
    get_object_params_to_get (desired_cfg a) (device_cfg a)
      (acs_data_model a) in
  let arrayType :=
    "xsd:string[" +:+ str_Z (Z.of_nat (length names)) +:+ "]" in
  mret (mkAcsMsgAndTransition
          (GetParameterValues arrayType
             ((λ name, DataModel.path (DataModel.get_parameter name))
                <$> names))
          (Some done_transition)).

End handlers.
End GetObjectParametersState.

Module WaitGetObjectParametersState.
Section handlers.
Context `{PyBuiltins, ParameterName.Names, DataModel.Schema, AcsStateUtils}.

(** [path_to_val] after the first loop: a later struct of the same name
    overwrites an earlier one. *)
Definition path_to_val (structs : list ParameterValueStruct)
  : gmap string value :=
  foldl (λ m pvs, <[Name pvs := Data (Value pvs)]> m) ∅ structs.

(** [if self.acs.desired_cfg is None: ...] *)
Definition build_desired_config_if_none : M unit :=
  a ← get_acs;
  match desired_cfg a with
  | None =>
      record_call build_desired_config_call;;
      set_desired_cfg
        (build_desired_config (device_cfg a) (acs_data_model a))
  | Some _ => mret ()
  end.

Definition read_msg
    (rm_obj_transition add_obj_transition set_params_transition
     skip_transition : string) (message : Message) : M AcsReadMsgResult :=
  match message with
  | GetParameterValuesResponse structs =>
      let path_to_val := path_to_val structs in
      a ← get_acs;
      num_plmns_val ←
        subscript
          (EnodebConfiguration.get_parameter (device_cfg a)
             ParameterName.NUM_PLMNS)
          ParameterName.NUM_PLMNS;
      num_plmns ← py_int num_plmns_val;
      for_each (seqZ 1 num_plmns) (λ i,
        obj_name ← py_mod ParameterName.PLMN_N i;
        let obj_to_params := DataModel.get_numbered_param_names in
        param_name_list ← subscript (obj_to_params !! obj_name) obj_name;
        for_each param_name_list (λ name,
          let path := DataModel.path (DataModel.get_parameter name) in
          value ← subscript (path_to_val !! path) path;
          let magma_val := DataModel.transform_for_magma name value in
          update_device_cfg
            (λ cfg, EnodebConfiguration.set_parameter_for_object
                      cfg name magma_val obj_name)));;
      build_desired_config_if_none;;
      a ← get_acs;
      if nonempty (get_all_objects_to_delete (desired_cfg a) (device_cfg a))
      then mret (mkAcsReadMsgResult true (Some rm_obj_transition))
      else if nonempty (get_all_objects_to_add (desired_cfg a)
                          (device_cfg a))
      then mret (mkAcsReadMsgResult true (Some add_obj_transition))
      else if nonempty (get_all_param_values_to_set (desired_cfg a)
                          (device_cfg a) (acs_data_model a) false)
      then mret (mkAcsReadMsgResult true (Some set_params_transition))
      else mret (mkAcsReadMsgResult true (Some skip_transition))
  | _ => mret (mkAcsReadMsgResult false None)
  end.

End handlers.
End WaitGetObjectParametersState.

Module DeleteObjectsState.
Section handlers.
Context `{DataModel.Schema, AcsStateUtils}.

Definition get_msg (add_obj_transition skip_transition : string)
  : M AcsMsgAndTransition :=
  a ← get_acs;
  match get_all_objects_to_delete (desired_cfg a) (device_cfg a) with
  | [] => raise IndexError
  | deleted_param :: _ =>
      set_self (DeleteObjectsState (Some deleted_param)
                  add_obj_transition skip_transition);;
      mret (mkAcsMsgAndTransition
              (DeleteObject
                 (DataModel.path (DataModel.get_parameter deleted_param)))
              None)
  end.

(** The statements after the [if]/[elif]/[else] on the message type. *)
Definition after_response (deleted_param : option string)
    (add_obj_transition skip_transition : string) : M AcsReadMsgResult :=
  update_device_cfg
    (λ cfg, EnodebConfiguration.delete_object cfg deleted_param);;
  a ← get_acs;
  let obj_list_to_delete :=
    get_all_objects_to_delete (desired_cfg a) (device_cfg a) in
  if nonempty obj_list_to_delete
  then mret (mkAcsReadMsgResult true None)
  else if bool_decide
            (length (get_all_objects_to_add (desired_cfg a) (device_cfg a))
             = 0%nat)
  then mret (mkAcsReadMsgResult true (Some skip_transition))
  else mret (mkAcsReadMsgResult true (Some add_obj_transition)).

Definition read_msg (deleted_param : option string)
    (add_obj_transition skip_transition : string) (message : Message)
  : M AcsReadMsgResult :=
  match message with
  | DeleteObjectResponse Status =>
      if bool_decide (Status ≠ 0)
      then raise (Tr069Error
                    ("Received DeleteObjectResponse with Status="
                     +:+ str_Z Status))
      else after_response deleted_param add_obj_transition skip_transition
  | Fault _ FaultString _ =>
      raise (Tr069Error
               ("Received Fault in response to DeleteObject (faultstring = "
                +:+ FaultString +:+ ")"))
  | _ => mret (mkAcsReadMsgResult false None)
  end.

End handlers.
End DeleteObjectsState.

Module AddObjectsState.
Section handlers.
Context `{PyBuiltins, DataModel.Schema, AcsStateUtils}.

Definition get_msg (done_transition : string) : M AcsMsgAndTransition :=
  a ← get_acs;
  match get_all_objects_to_add (desired_cfg a) (device_cfg a) with
  | [] => raise IndexError
  | added_param :: _ =>
      set_self (AddObjectsState done_transition (Some added_param));;
      mret (mkAcsMsgAndTransition
              (AddObject
                 (DataModel.path (DataModel.get_parameter added_param)))
              None)
  end.

(** The statements after the [if]/[elif]/[else] on the message type;
    [None % n] is a [TypeError]. *)
Definition after_response (done_transition : string)
    (added_param : option string) (instance_n : Z) : M AcsReadMsgResult :=
  obj_name ←
    match added_param with
    | Some template => py_mod template instance_n
    | None => raise TypeError
    end;
  update_device_cfg (λ cfg, EnodebConfiguration.add_object cfg obj_name);;
  a ← get_acs;
  let obj_list_to_add :=
    get_all_objects_to_add (desired_cfg a) (device_cfg a) in
  if nonempty obj_list_to_add
  then mret (mkAcsReadMsgResult true None)
  else mret (mkAcsReadMsgResult true (Some done_transition)).

Definition read_msg (done_transition : string)
    (added_param : option string) (message : Message)
  : M AcsReadMsgResult :=
  match message with
  | AddObjectResponse InstanceNumber Status =>
      if bool_decide (Status ≠ 0)
      then raise (Tr069Error
                    ("Received AddObjectResponse with Status="
                     +:+ str_Z Status))
      else after_response done_transition added_param InstanceNumber
  | Fault _ FaultString _ =>
      raise (Tr069Error
               ("Received Fault in response to AddObject (faultstring = "
                +:+ FaultString +:+ ")"))
  | _ => mret (mkAcsReadMsgResult false None)
  end.

End handlers.
End AddObjectsState.

Module SetParameterValuesState.
Section handlers.
Context `{PyBuiltins, DataModel.Schema, AcsStateUtils}.

(** One turn of the loop over [param_values.items()]: the
    [ParameterValueStruct] appended for [name], or the [Tr069Error] of an
    unsupported type tag. *)
Definition name_value (name : string) (value : value)
  : M ParameterValueStruct :=
  let type_ := DataModel.type (DataModel.get_parameter name) in
  let path := DataModel.path (DataModel.get_parameter name) in
  let enb_value := DataModel.transform_for_enb name value in
  if bool_decide (type_ = "int") || bool_decide (type_ = "unsignedInt")
  then mret {| Name := path;
               Value := {| type_ := "xsd:" +:+ type_;
                           Data := VStr (py_str enb_value) |} |}
  else if bool_decide (type_ = "boolean")
  then n ← py_int enb_value;
       mret {| Name := path;
               Value := {| type_ := "xsd:boolean";
                           Data := VStr (py_str (VInt n)) |} |}
  else if bool_decide (type_ = "string")
  then mret {| Name := path;
               Value := {| type_ := "xsd:string";
                           Data := VStr (py_str enb_value) |} |}
  else raise (Tr069Error
                ("Unsupported type for " +:+ name +:+ ": " +:+ type_)).

(** The body both [SetParameterValuesState.get_msg] and
    [SetParameterValuesNotAdminState.get_msg] spell out; they differ in
    the [exclude_admin] argument only. *)
Definition build_request (exclude_admin : bool) (done_transition : string)
  : M AcsMsgAndTransition :=
  a ← get_acs;
  let param_values :=
    get_all_param_values_to_set (desired_cfg a) (device_cfg a)
      (acs_data_model a) exclude_admin in
  let arrayType :=
    "cwmp:ParameterValueStruct["
    +:+ str_Z (Z.of_nat (length param_values)) +:+ "]" in
  structs ← mapM (λ '(name, value), name_value name value) param_values;
  mret (mkAcsMsgAndTransition (SetParameterValues arrayType structs)
          (Some done_transition)).

Definition get_msg (done_transition : string) : M AcsMsgAndTransition :=
  build_request false done_transition.

End handlers.
End SetParameterValuesState.

Module SetParameterValuesNotAdminState.
Section handlers.
Context `{PyBuiltins, DataModel.Schema, AcsStateUtils}.

Definition get_msg (done_transition : string) : M AcsMsgAndTransition :=
  SetParameterValuesState.build_request true done_transition.

End handlers.
End SetParameterValuesNotAdminState.

Module WaitSetParameterValuesState.
Section handlers.
Context `{DataModel.Schema, AcsStateUtils}.

Definition _mark_as_configured : M unit :=
  (* Values of parameters *)
  a ← get_acs;
  let name_to_val :=
    get_param_values_to_set (desired_cfg a) (device_cfg a)
      (acs_data_model a) in
  for_each name_to_val (λ '(name, val),
    let magma_val := DataModel.transform_for_magma name val in
    update_device_cfg
      (λ cfg, EnodebConfiguration.set_parameter cfg name magma_val));;
  (* Values of object parameters *)
  a ← get_acs;
  let obj_to_name_to_val :=
    get_obj_param_values_to_set (desired_cfg a) (device_cfg a)
      (acs_data_model a) in
  for_each obj_to_name_to_val (λ '(obj_name, name_to_val),
    for_each name_to_val (λ '(name, val),
      let magma_val := DataModel.transform_for_magma name val in
      update_device_cfg
        (λ cfg, EnodebConfiguration.set_parameter_for_object
                  cfg name magma_val obj_name))).

Definition read_msg (done_transition : string) (message : Message)
  : M AcsReadMsgResult :=
  match message with
  | SetParameterValuesResponse Status =>
      if bool_decide (Status ≠ 0)
      then raise (Tr069Error
                    ("Received SetParameterValuesResponse with Status="
                     +:+ str_Z Status))
      else
        _mark_as_configured;;
        mret (mkAcsReadMsgResult true (Some done_transition))
  | Fault _ FaultString _ =>
      raise (Tr069Error
               ("Received Fault in response to SetParameterValues "
                +:+ "(faultstring = " +:+ FaultString +:+ ")"))
  | _ => mret (mkAcsReadMsgResult false None)
  end.

End handlers.
End WaitSetParameterValuesState.

Module SendRebootState.

Definition read_msg (message : Message) : M AcsReadMsgResult :=
  mret (mkAcsReadMsgResult true None).

Definition get_msg (done_transition : string) : M AcsMsgAndTransition :=
  mret (mkAcsMsgAndTransition (Reboot "") (Some done_transition)).

End SendRebootState.

Module WaitRebootResponseState.

Definition read_msg (done_transition : string) (message : Message)
  : M AcsReadMsgResult :=
  match message with
  | RebootResponse =>
      mret (mkAcsReadMsgResult true (Some done_transition))
  | Fault _ FaultString _ =>
      raise (Tr069Error
               ("Received Fault in response to Reboot (faultstring = "
                +:+ FaultString +:+ ")"))
  | _ => mret (mkAcsReadMsgResult false None)
  end.

Definition get_msg (done_transition : string) : M AcsMsgAndTransition :=
  mret (mkAcsMsgAndTransition DummyInput (Some done_transition)).

End WaitRebootResponseState.

Module WaitInformMRebootState.
Section handlers.
Context `{AcsStateUtils}.

Definition REBOOT_TIMEOUT : Z := 300.
Definition INFORM_EVENT_CODE : string := "M Reboot".

(** [is_correct_event] after the loop over [message.Event.EventStruct]. *)
Definition is_correct_event (events : list EventStruct) : bool :=
  foldl (λ found event,
           if bool_decide (EventCode event = INFORM_EVENT_CODE)
           then true else found)
        false events.

Definition read_msg (done_transition timeout_transition : string)
    (message : Message) : M AcsReadMsgResult :=
  match message with
  | Inform _ events _ =>
      if negb (is_correct_event events)
      then raise (Tr069Error
                    "Did not receive M Reboot event code in Inform")
      else
        set_self (WaitInformMRebootState done_transition timeout_transition
                    true);;
        a ← get_acs;
        set_device_cfg
          (process_inform_message message (acs_data_model a)
             (device_cfg a));;
        mret (mkAcsReadMsgResult true None)
  | Fault _ _ _ => mret (mkAcsReadMsgResult true None)
  | _ => mret (mkAcsReadMsgResult false None)
  end.

Definition get_msg (done_transition : string) (received_inform : bool)
  : M AcsMsgAndTransition :=
  if received_inform
  then mret (mkAcsMsgAndTransition (InformResponse 1)
               (Some done_transition))
  else mret (mkAcsMsgAndTransition DummyInput None).

End handlers.
End WaitInformMRebootState.

Module WaitRebootDelayState.

Definition SHORT_CONFIG_DELAY : Z := 10.

Definition read_msg (message : Message) : M AcsReadMsgResult :=
  mret (mkAcsReadMsgResult true None).

Definition get_msg : M AcsMsgAndTransition :=
  mret (mkAcsMsgAndTransition DummyInput None).

End WaitRebootDelayState.

Module ErrorState.

Definition read_msg (message : Message) : M AcsReadMsgResult :=
  mret (mkAcsReadMsgResult true None).

Definition get_msg : M AcsMsgAndTransition :=
  mret (mkAcsMsgAndTransition DummyInput None).

End ErrorState.

(** ** Dispatch on the class of [self] *)

Section dispatch.
Context `{PyBuiltins, ParameterName.Names, DataModel.Schema, AcsStateUtils}.

(** [self.read_msg(message)]. *)
Definition read_msg (message : Message) : M AcsReadMsgResult := λ σ,
  match self σ with
  | DisconnectedState _ => DisconnectedState.read_msg message σ
  | UnexpectedInformState _ => UnexpectedInformState.read_msg message σ
  | BaicellsDisconnectedState _ =>
      BaicellsDisconnectedState.read_msg message σ
  | BaicellsRemWaitState _ => BaicellsRemWaitState.read_msg message σ
  | WaitEmptyMessageState done => WaitEmptyMessageState.read_msg done message σ
  | CheckOptionalParamsState done optional_param =>
      CheckOptionalParamsState.read_msg done optional_param message σ
  | SendGetTransientParametersState _ =>
      SendGetTransientParametersState.read_msg message σ
  | WaitGetTransientParametersState get get_obj rm add _ skip =>
      WaitGetTransientParametersState.read_msg get get_obj rm add skip
        message σ
  | GetParametersState _ => GetParametersState.read_msg message σ
  | WaitGetParametersState done =>
      WaitGetParametersState.read_msg done message σ
  | GetObjectParametersState _ => EnodebAcsState.read_msg (self σ) message σ
  | WaitGetObjectParametersState rm add set skip =>
      WaitGetObjectParametersState.read_msg rm add set skip message σ
  | DeleteObjectsState deleted_param add skip =>
      DeleteObjectsState.read_msg deleted_param add skip message σ
  | AddObjectsState done added_param =>
      AddObjectsState.read_msg done added_param message σ
  | SetParameterValuesState _ => EnodebAcsState.read_msg (self σ) message σ
  | SetParameterValuesNotAdminState _ =>
      EnodebAcsState.read_msg (self σ) message σ
  | WaitSetParameterValuesState done =>
      WaitSetParameterValuesState.read_msg done message σ
  | SendRebootState _ => SendRebootState.read_msg message σ
  | WaitRebootResponseState done =>
      WaitRebootResponseState.read_msg done message σ
  | WaitInformMRebootState done timeout _ =>
      WaitInformMRebootState.read_msg done timeout message σ
  | WaitRebootDelayState _ => WaitRebootDelayState.read_msg message σ
  | ErrorState => ErrorState.read_msg message σ
  end.

(** [self.get_msg()]. *)
Definition get_msg : M AcsMsgAndTransition := λ σ,
  match self σ with
  | DisconnectedState done => DisconnectedState.get_msg done σ
  | UnexpectedInformState done => UnexpectedInformState.get_msg done σ
  | BaicellsDisconnectedState done =>
      BaicellsDisconnectedState.get_msg done σ
  | BaicellsRemWaitState _ => BaicellsRemWaitState.get_msg σ
  | WaitEmptyMessageState _ => EnodebAcsState.get_msg (self σ) σ
  | CheckOptionalParamsState done _ => CheckOptionalParamsState.get_msg done σ
  | SendGetTransientParametersState done =>
      SendGetTransientParametersState.get_msg done σ
  | WaitGetTransientParametersState _ _ _ _ _ _ =>
      EnodebAcsState.get_msg (self σ) σ
  | GetParametersState done => GetParametersState.get_msg done σ
  | WaitGetParametersState _ => EnodebAcsState.get_msg (self σ) σ
  | GetObjectParametersState done => GetObjectParametersState.get_msg done σ
  | WaitGetObjectParametersState _ _ _ _ => EnodebAcsState.get_msg (self σ) σ
  | DeleteObjectsState _ add skip => DeleteObjectsState.get_msg add skip σ
  | AddObjectsState done _ => AddObjectsState.get_msg done σ
  | SetParameterValuesState done => SetParameterValuesState.get_msg done σ
  | SetParameterValuesNotAdminState done =>
      SetParameterValuesNotAdminState.get_msg done σ
  | WaitSetParameterValuesState _ => EnodebAcsState.get_msg (self σ) σ
  | SendRebootState done => SendRebootState.get_msg done σ
  | WaitRebootResponseState done => WaitRebootResponseState.get_msg done σ
  | WaitInformMRebootState done _ received_inform =>
      WaitInformMRebootState.get_msg done received_inform σ
  | WaitRebootDelayState _ => WaitRebootDelayState.get_msg σ
  | ErrorState => ErrorState.get_msg σ
  end.

(** One handler call made by the dispatcher on the current state. *)
Inductive handler_call : Type :=
| call_read_msg (message : Message)
| call_get_msg.

(** The machine after one handler call, whatever it returned or raised. *)
Definition after_call (c : handler_call) (σ : Machine) : Machine :=
  match c with
  | call_read_msg message => (read_msg message σ).2
  | call_get_msg => (get_msg σ).2
  end.

(** A stretch of the machine's life without an external reset: handler
    calls, between which the dispatcher may make any state instance
    current. *)
Fixpoint run (steps : list (state * handler_call)) (a : Acs) : Acs :=
  match steps with
  | [] => a
  | (s, c) :: rest => run rest (acs (after_call c (mkMachine s a)))
  end.

End dispatch.

(** ** Vocabulary of the statements *)

(** How often a collaborator was called. *)
Definition count_calls (c : call) (l : list call) : nat :=
  length (filter (λ c', c' = c) l).

(** What a handler may not touch once the desired configuration exists. *)
Definition desired_view (σ : Machine) : option config * nat :=
  (desired_cfg (acs σ),
   count_calls build_desired_config_call (calls (acs σ))).

(** A handler call builds the desired configuration at most once, and only
    from [None]; an existing one is kept as it is. *)
Definition builds_at_most_once (a a' : Acs) : Prop :=
  let n := count_calls build_desired_config_call (calls a) in
  let n' := count_calls build_desired_config_call (calls a') in
  match desired_cfg a with
  | Some d => desired_cfg a' = Some d ∧ n' = n
  | None =>
      (desired_cfg a' = None ∧ n' = n)
      ∨ (is_Some (desired_cfg a') ∧ n' = S n)
  end.

(** A computation that respects the build-once discipline from every
    machine, whether it returns or raises. *)
Definition respects_build_once {A : Type} (m : M A) : Prop :=
  ∀ σ, builds_at_most_once (acs σ) (acs (m σ).2).

(** A reading that, when it returns, reports the message handled. *)
Definition handled_if_returned (m : M AcsReadMsgResult) : Prop :=
  ∀ σ r σ', m σ = (Ok r, σ') → msg_handled r = true.

(** The machine with its device store replaced, everything else kept. *)
Definition with_device_cfg (σ : Machine) (cfg : config) : Machine :=
  mkMachine (self σ)
    (mkAcs cfg (desired_cfg (acs σ)) (acs_data_model (acs σ))
       (calls (acs σ))).

(** The machine with its data model replaced, everything else kept. *)
Definition with_data_model (σ : Machine) (dm : data_model) : Machine :=
  mkMachine (self σ)
    (mkAcs (device_cfg (acs σ)) (desired_cfg (acs σ)) dm (calls (acs σ))).

(** The machine with further collaborator calls recorded. *)
Definition with_calls (σ : Machine) (cs : list call) : Machine :=
  mkMachine (self σ)
    (mkAcs (device_cfg (acs σ)) (desired_cfg (acs σ))
       (acs_data_model (acs σ)) (calls (acs σ) ++ cs)).

Section vocabulary.
Context `{DataModel.Schema}.

(** The device store after the scalar loop of a get or set response. *)
Definition write_params (cfg : config) (name_to_val : list (string * value))
  : config :=
  foldl (λ cfg '(name, val),
           EnodebConfiguration.set_parameter cfg name
             (DataModel.transform_for_magma name val))
        cfg name_to_val.

(** The device store after the object loop of a set response. *)
Definition write_object_params (cfg : config)
    (obj_to_name_to_val : list (string * list (string * value))) : config :=
  foldl (λ cfg '(obj_name, name_to_val),
           foldl (λ cfg '(name, val),
                    EnodebConfiguration.set_parameter_for_object cfg name
                      (DataModel.transform_for_magma name val) obj_name)
                 cfg name_to_val)
        cfg obj_to_name_to_val.

(** The type tags [SetParameterValues] can put on the wire. *)
Definition supported_type (tag : string) : bool :=
  bool_decide (tag ∈ ["int"; "unsignedInt"; "boolean"; "string"]).

(** A native value of the scalar type its tag announces. *)
Definition has_type (tag : string) (v : value) : Prop :=
  match v with
  | VInt _ => tag = "int" ∨ tag = "unsignedInt"
  | VBool _ => tag = "boolean"
  | VStr _ => tag = "string"
  | VNone => False
  end.

(** The wire form of the type mapping table: tag to [xsd] type, value to
    wire data. *)
Definition wire_type (tag : string) : string := "xsd:" +:+ tag.

Definition wire_data (v : value) : string :=
  match v with
  | VInt z => str_Z z
  | VBool b => if b then "1" else "0"
  | VStr s => s
  | VNone => ""
  end.

Definition wire_struct (item : string * value) : ParameterValueStruct :=
  let '(name, value) := item in
  {| Name := DataModel.path (DataModel.get_parameter name);
     Value := {| type_ := wire_type
                            (DataModel.type (DataModel.get_parameter name));
                 Data := VStr (wire_data
                                 (DataModel.transform_for_enb name value))
              |} |}.

(** The first parameter to set whose type tag has no wire type. *)
Definition first_unsupported (items : list (string * value))
  : option (string * value) :=
  List.find (λ item, negb (supported_type
                             (DataModel.type
                                (DataModel.get_parameter item.1))))
            items.

End vocabulary.

Section next_state_vocabulary.
Context `{ParameterName.Names, DataModel.Schema, AcsStateUtils}.

(** The target [get_next_state] picks, read off the four lists. *)
Definition ladder (when_get when_get_obj_params when_delete when_add
                   when_skip : string) (a : Acs) : string :=
  match get_params_to_get (device_cfg a) (acs_data_model a),
        get_object_params_to_get (desired_cfg a) (device_cfg a)
          (acs_data_model a),
        get_all_objects_to_delete (desired_cfg a) (device_cfg a),
        get_all_objects_to_add (desired_cfg a) (device_cfg a) with
  | _ :: _, _, _, _ => when_get
  | [], _ :: _, _, _ => when_get_obj_params
  | [], [], _ :: _, _ => when_delete
  | [], [], [], _ :: _ => when_add
  | [], [], [], [] => when_skip
  end.

End next_state_vocabulary.

(** ** Vocabulary of the frame and exception properties *)

(** A computation that leaves a view of the machine as it found it,
    whether it returns or raises. *)
Definition keeps {X A : Type} (view : Machine → X) (m : M A) : Prop :=
  ∀ σ, view (m σ).2 = view σ.

(** A computation all of whose exceptions satisfy [P]. *)
Definition raises_only {A : Type} (P : exn → Prop) (m : M A) : Prop :=
  ∀ σ e σ', m σ = (Raise e, σ') → P e.

(** The classes that define [read_msg] themselves; the others inherit the
    one of [EnodebAcsState]. *)
Definition implements_read_msg (s : state) : bool :=
  match s with
  | GetObjectParametersState _
  | SetParameterValuesState _
  | SetParameterValuesNotAdminState _ => false
  | _ => true
  end.

(** The classes that define [get_msg] themselves. *)
Definition implements_get_msg (s : state) : bool :=
  match s with
  | WaitEmptyMessageState _
  | WaitGetTransientParametersState _ _ _ _ _ _
  | WaitGetParametersState _
  | WaitGetObjectParametersState _ _ _ _
  | WaitSetParameterValuesState _ => false
  | _ => true
  end.

Definition is_ConfigurationError (e : exn) : bool :=
  match e with ConfigurationError _ => true | _ => false end.

Definition is_Tr069Error (e : exn) : bool :=
  match e with Tr069Error _ => true | _ => false end.

Section object_ladder.
Context `{DataModel.Schema, AcsStateUtils}.

(** The target [WaitGetObjectParametersState.read_msg] ends with, read off
    the three lists it consults. *)
Definition object_ladder (when_delete when_add when_set when_skip : string)
    (a : Acs) : string :=
  match get_all_objects_to_delete (desired_cfg a) (device_cfg a),
        get_all_objects_to_add (desired_cfg a) (device_cfg a),
        get_all_param_values_to_set (desired_cfg a) (device_cfg a)
          (acs_data_model a) false with
  | _ :: _, _, _ => when_delete
  | [], _ :: _, _ => when_add
  | [], [], _ :: _ => when_set
  | [], [], [] => when_skip
  end.

(** Everything of the machine but the device store. *)
Definition beside_device_cfg (σ : Machine)
  : state * option config * data_model * list call :=
  (self σ, desired_cfg (acs σ), acs_data_model (acs σ), calls (acs σ)).

End object_ladder.

Section reading_in_a_row.
Context `{PyBuiltins, ParameterName.Names, DataModel.Schema, AcsStateUtils}.

(** The machine after the current state has read the messages one after
    the other, a raising read leaving the machine as it had made it. *)
Definition read_all (messages : list Message) (σ : Machine) : Machine :=
  foldl (λ σ message, (read_msg message σ).2) σ messages.

(** An [Inform] that reports the reboot the ACS asked for. *)
Definition is_m_reboot_inform (message : Message) : bool :=
  match message with
  | Inform _ events _ => WaitInformMRebootState.is_correct_event events
  | _ => false
  end.

End reading_in_a_row.

(** ** A concrete machine

    One data model and one set of helpers on which the handlers can be
    run. *)
Module Demo.

(** The built-ins on the strings the runs below meet: [int(s)] knows the
    numerals ["0"], ["1"] and ["2"]; [template % n] fills ['PLMN %d'],
    rejects the incomplete format ['%'] with [ValueError], and treats any
    other template as one with no place for the argument. *)
#[export] Instance builtins : PyBuiltins := {|
  int_of_str s :=
    if decide (s = "0") then Some 0
    else if decide (s = "1") then Some 1
    else if decide (s = "2") then Some 2
    else None;
  str_mod template n :=
    if decide (template = "PLMN %d") then Formatted ("PLMN " +:+ str_Z n)
    else if decide (template = "%") then FormatValueError
    else FormatTypeError;
|}.

#[export] Instance names : ParameterName.Names := {|
  ParameterName.OP_STATE := "Opstate";
  ParameterName.RF_TX_STATUS := "RF TX status";
  ParameterName.GPS_STATUS := "GPS status";
  ParameterName.PTP_STATUS := "PTP status";
  ParameterName.MME_STATUS := "MME status";
  ParameterName.GPS_LAT := "GPS lat";
  ParameterName.GPS_LONG := "GPS long";
  ParameterName.NUM_PLMNS := "Number of PLMNs";
  ParameterName.PLMN_N := "PLMN %d";
|}.

Definition type_of (name : string) : string :=
  if decide (name = "Admin state") then "boolean"
  else if decide (name = "Downlink EARFCN") then "unsignedInt"
  else if decide (name = "PLMN 1 enable") then "boolean"
  else if decide (name = "RF TX status") then "boolean"
  else if decide (name = "Perf mgmt upload url") then "string"
  else if decide (name = "GPS lat") then "float"
  else "int".

#[export] Instance schema : DataModel.Schema := {|
  DataModel.get_parameter name :=
    {| DataModel.path := "Device." +:+ name;
       DataModel.type := type_of name |};
  DataModel.transform_for_magma name v := v;
  DataModel.transform_for_enb name v := v;
  DataModel.get_numbered_param_names :=
    {[ "PLMN 1" := ["PLMN 1 enable"] ]};
|}.

Definition optional_params : list string := ["Optional A"; "Optional B"].

(** Device paths are ["Device." ++ name]; the helpers read a response by
    stripping that prefix. *)
Definition name_of_path (path : string) : string :=
  String.substring 7 (String.length path - 7) path.

#[export] Instance utils : AcsStateUtils := {|
  process_inform_message message dm cfg :=
    match message with
    | Inform _ _ structs =>
        foldl (λ cfg pvs,
                 EnodebConfiguration.set_parameter cfg
                   (name_of_path (Name pvs)) (Data (Value pvs)))
              cfg structs
    | _ => cfg
    end;
  get_all_objects_to_delete desired device := [];
  get_all_objects_to_add desired device :=
    match desired with
    | Some d =>
        if decide (is_Some (EnodebConfiguration.numbered_objects d
                              !! "PLMN 1")
                   ∧ EnodebConfiguration.numbered_objects device
                       !! "PLMN 1" = None)
        then ["PLMN %d"] else []
    | None => []
    end;
  parse_get_parameter_values_response dm message :=
    match message with
    | GetParameterValuesResponse structs =>
        (λ pvs, (name_of_path (Name pvs), Data (Value pvs))) <$> structs
    | _ => []
    end;
  get_object_params_to_get desired device dm := [];
  get_all_param_values_to_set desired device dm exclude_admin :=
    match desired with
    | Some d =>
        List.app
          (if exclude_admin then [] else [("Admin state", VBool true)])
          (List.app
             [("Downlink EARFCN", VInt 39150);
              ("Perf mgmt upload url", VStr "http://192.88.99.142/")]
             (match EnodebConfiguration.get_parameter d "GPS lat" with
              | Some v => [("GPS lat", v)]
              | None => []
              end))
    | None => []
    end;
  get_param_values_to_set desired device dm :=
    match desired with
    | Some d =>
        [("Admin state", VBool true); ("Downlink EARFCN", VInt 39150)]
    | None => []
    end;
  get_obj_param_values_to_set desired device dm :=
    match desired with
    | Some d => [("PLMN 1", [("PLMN 1 enable", VBool true)])]
    | None => []
    end;
  get_params_to_get device dm := [];
  get_optional_param_to_check dm :=
    List.find (λ name,
                 bool_decide (DataModel.presence_by_param dm !! Some name
                              = None))
              optional_params;
  build_desired_config device dm :=
    EnodebConfiguration.set_parameter device "Admin state" (VBool true);
|}.

Definition fresh_acs : Acs :=
  mkAcs EnodebConfiguration.empty None (DataModel.mk ∅) [].

(** A device that radiates, with a desired configuration in place. *)
Definition radiating_cfg : config :=
  EnodebConfiguration.set_parameter EnodebConfiguration.empty
    "RF TX status" (VBool true).

Definition provisioned_acs : Acs :=
  mkAcs radiating_cfg (Some radiating_cfg) (DataModel.mk ∅) [].

(** A device whose data model marks two of the status parameters present
    and says nothing of the others. *)
Definition partial_acs : Acs :=
  mkAcs EnodebConfiguration.empty None
    (DataModel.mk {[ Some "Opstate" := true; Some "GPS lat" := true ]}) [].

(** A desired configuration that also sets a parameter of a type the wire
    has no name for. *)
Definition located_acs : Acs :=
  mkAcs radiating_cfg
    (Some (EnodebConfiguration.set_parameter radiating_cfg "GPS lat"
             (VInt 37485)))
    (DataModel.mk ∅) [].

(** A device whose scalar parameters have been read: it reports one PLMN,
    as a string. *)
Definition discovered_acs : Acs :=
  mkAcs
    (EnodebConfiguration.set_parameter EnodebConfiguration.empty
       "Number of PLMNs" (VStr "1"))
    None (DataModel.mk ∅) [].

(** A device that reports no PLMN at all. *)
Definition no_plmn_acs : Acs :=
  mkAcs
    (EnodebConfiguration.set_parameter EnodebConfiguration.empty
       "Number of PLMNs" (VInt 0))
    None (DataModel.mk ∅) [].

Definition pvs (path : string) (v : value) : ParameterValueStruct :=
  {| Name := path; Value := {| type_ := "xsd:string"; Data := v |} |}.

End Demo.

(** ** A machine whose desired configuration is not checked against the
    data model

    The helpers of [Demo], except that the values to set are read from the
    desired configuration: every settable parameter whose desired value
    differs from the device's, with the value as it is stored. *)
Module Unchecked.

Definition settable : list string := ["Admin state"; "Downlink EARFCN"].

Definition utils : AcsStateUtils := {|
  process_inform_message := @process_inform_message Demo.utils;
  get_all_objects_to_delete := @get_all_objects_to_delete Demo.utils;
  get_all_objects_to_add := @get_all_objects_to_add Demo.utils;
  parse_get_parameter_values_response :=
    @parse_get_parameter_values_response Demo.utils;
  get_object_params_to_get := @get_object_params_to_get Demo.utils;
  get_all_param_values_to_set desired device dm exclude_admin :=
    match desired with
    | Some d =>
        omap (λ name,
                if exclude_admin && bool_decide (name = "Admin state")
                then None
                else
                  match EnodebConfiguration.get_parameter d name with
                  | Some v =>
                      if decide (EnodebConfiguration.get_parameter device name
                                 = Some v)
                      then None else Some (name, v)
                  | None => None
                  end)
             settable
    | None => []
    end;
  get_param_values_to_set := @get_param_values_to_set Demo.utils;
  get_obj_param_values_to_set := @get_obj_param_values_to_set Demo.utils;
  get_params_to_get := @get_params_to_get Demo.utils;
  get_optional_param_to_check := @get_optional_param_to_check Demo.utils;
  build_desired_config := @build_desired_config Demo.utils;
|}.

(** A desired configuration with a number where the data model announces a
    boolean, and a boolean where it announces an unsigned number. *)
Definition mistyped_acs : Acs :=
  mkAcs EnodebConfiguration.empty
    (Some (EnodebConfiguration.set_parameter
             (EnodebConfiguration.set_parameter EnodebConfiguration.empty
                "Admin state" (VInt 5))
             "Downlink EARFCN" (VBool true)))
    (DataModel.mk ∅) [].

End Unchecked.


(** * Properties *)

(** ** The monad and its loops *)

Ltac unfold_monad :=
  unfold mbind, M_bind, mret, M_ret, raise, get_acs, set_self, set_device_cfg,
    set_desired_cfg, set_data_model, record_call, update_device_cfg,
    update_data_model, subscript in *.

Lemma bind_Ok {A B : Type} (m : M A) (f : A → M B) σ a σ' :
  m σ = (Ok a, σ') → (m ≫= f) σ = f a σ'.
Proof. intros Hm. unfold mbind, M_bind. by rewrite Hm. Qed.

Lemma bind_Raise {A B : Type} (m : M A) (f : A → M B) σ e σ' :
  m σ = (Raise e, σ') → (m ≫= f) σ = (Raise e, σ').
Proof. intros Hm. unfold mbind, M_bind. by rewrite Hm. Qed.

Lemma bind_inv_Ok {A B : Type} (m : M A) (f : A → M B) σ b σ' :
  (m ≫= f) σ = (Ok b, σ') →
  ∃ a σ1, m σ = (Ok a, σ1) ∧ f a σ1 = (Ok b, σ').
Proof.
  unfold mbind, M_bind. destruct (m σ) as [[a|e] σ1]; [eauto | done].
Qed.

Lemma machine_eta σ : mkMachine (self σ) (acs σ) = σ.
Proof. by destruct σ. Qed.

Lemma acs_eta a :
  mkAcs (device_cfg a) (desired_cfg a) (acs_data_model a) (calls a) = a.
Proof. by destruct a. Qed.

Lemma with_device_cfg_id σ : with_device_cfg σ (device_cfg (acs σ)) = σ.
Proof. by destruct σ as [s []]. Qed.

Lemma with_calls_nil σ : with_calls σ [] = σ.
Proof.
  destruct σ as [s []]. unfold with_calls; simpl. by rewrite app_nil_r.
Qed.

Section loops.
Context `{DataModel.Schema}.

(** The scalar loop of the get and set responses writes [write_params] and
    cannot fail. *)
Lemma for_each_set_parameter (name_to_val : list (string * value)) σ :
  for_each name_to_val (λ '(name, val),
    let magma_val := DataModel.transform_for_magma name val in
    update_device_cfg
      (λ cfg, EnodebConfiguration.set_parameter cfg name magma_val)) σ
  = (Ok (),
     with_device_cfg σ (write_params (device_cfg (acs σ)) name_to_val)).
Proof.
  revert σ. induction name_to_val as [|[name val] rest IH]; intros σ.
  - simpl. by rewrite with_device_cfg_id.
  - simpl. erewrite bind_Ok; [|reflexivity]. by rewrite IH.
Qed.

Lemma for_each_set_parameter_for_object obj_name
    (name_to_val : list (string * value)) σ :
  for_each name_to_val (λ '(name, val),
    let magma_val := DataModel.transform_for_magma name val in
    update_device_cfg
      (λ cfg, EnodebConfiguration.set_parameter_for_object
                cfg name magma_val obj_name)) σ
  = (Ok (),
     with_device_cfg σ
       (foldl (λ cfg '(name, val),
                 EnodebConfiguration.set_parameter_for_object cfg name
                   (DataModel.transform_for_magma name val) obj_name)
              (device_cfg (acs σ)) name_to_val)).
Proof.
  revert σ. induction name_to_val as [|[name val] rest IH]; intros σ.
  - simpl. by rewrite with_device_cfg_id.
  - simpl. erewrite bind_Ok; [|reflexivity]. by rewrite IH.
Qed.

Lemma for_each_objects
    (obj_to_name_to_val : list (string * list (string * value))) σ :
  for_each obj_to_name_to_val (λ '(obj_name, name_to_val),
    for_each name_to_val (λ '(name, val),
      let magma_val := DataModel.transform_for_magma name val in
      update_device_cfg
        (λ cfg, EnodebConfiguration.set_parameter_for_object
                  cfg name magma_val obj_name))) σ
  = (Ok (),
     with_device_cfg σ
       (write_object_params (device_cfg (acs σ)) obj_to_name_to_val)).
Proof.
  revert σ. induction obj_to_name_to_val as [|[obj ntv] rest IH]; intros σ.
  - simpl. by rewrite with_device_cfg_id.
  - simpl. erewrite bind_Ok; [|apply for_each_set_parameter_for_object].
    by rewrite IH.
Qed.

(** ** Reading back what the loops wrote *)

Lemma write_params_lookup_notin cfg (d : list (string * value)) k :
  k ∉ dict_keys d →
  EnodebConfiguration.get_parameter (write_params cfg d) k
  = EnodebConfiguration.get_parameter cfg k.
Proof.
  revert cfg. induction d as [|[name val] rest IH]; intros cfg Hk; [done|].
  unfold dict_keys in *. simpl in Hk. apply not_elem_of_cons in Hk as [Hne Hk].
  simpl. rewrite IH by done.
  unfold EnodebConfiguration.get_parameter; simpl.
  by rewrite lookup_insert_ne.
Qed.

Lemma write_params_lookup cfg (d : list (string * value)) name val :
  NoDup (dict_keys d) → (name, val) ∈ d →
  EnodebConfiguration.get_parameter (write_params cfg d) name
  = Some (DataModel.transform_for_magma name val).
Proof.
  revert cfg. induction d as [|[n v] rest IH]; intros cfg Hnd Hin.
  - by apply elem_of_nil in Hin.
  - unfold dict_keys in *. simpl in Hnd. apply NoDup_cons in Hnd as [Hn Hnd].
    apply elem_of_cons in Hin as [Heq|Hin].
    + inversion Heq; subst. simpl.
      rewrite write_params_lookup_notin by done.
      unfold EnodebConfiguration.get_parameter; simpl.
      by rewrite lookup_insert_eq.
    + simpl. by apply IH.
Qed.

Lemma write_params_objects cfg (d : list (string * value)) :
  EnodebConfiguration.numbered_objects (write_params cfg d)
  = EnodebConfiguration.numbered_objects cfg.
Proof.
  revert cfg. induction d as [|[n v] rest IH]; intros cfg; [done|].
  simpl. by rewrite IH.
Qed.

End loops.

Section object_loops.
Context `{DataModel.Schema}.

Local Abbreviation write_object cfg obj_name name_to_val :=
  (foldl (λ cfg '(name, val),
            EnodebConfiguration.set_parameter_for_object cfg name
              (DataModel.transform_for_magma name val) obj_name)
         cfg name_to_val).

Lemma get_parameter_for_object_default cfg name obj_name :
  EnodebConfiguration.get_parameter_for_object cfg name obj_name
  = default ∅ (EnodebConfiguration.numbered_objects cfg !! obj_name) !! name.
Proof.
  unfold EnodebConfiguration.get_parameter_for_object.
  by destruct (EnodebConfiguration.numbered_objects cfg !! obj_name).
Qed.

Lemma write_object_params_of cfg obj_name (d : list (string * value)) :
  EnodebConfiguration.param_to_value (write_object cfg obj_name d)
  = EnodebConfiguration.param_to_value cfg.
Proof.
  revert cfg. induction d as [|[n v] rest IH]; intros cfg; [done|].
  simpl. by rewrite IH.
Qed.

Lemma write_object_other cfg obj_name (d : list (string * value)) o :
  o ≠ obj_name →
  EnodebConfiguration.numbered_objects (write_object cfg obj_name d) !! o
  = EnodebConfiguration.numbered_objects cfg !! o.
Proof.
  intros Hne. revert cfg. induction d as [|[n v] rest IH]; intros cfg; [done|].
  simpl. rewrite IH. simpl. by rewrite lookup_insert_ne.
Qed.

Lemma write_object_notin cfg obj_name (d : list (string * value)) k :
  k ∉ dict_keys d →
  EnodebConfiguration.get_parameter_for_object
    (write_object cfg obj_name d) k obj_name
  = EnodebConfiguration.get_parameter_for_object cfg k obj_name.
Proof.
  revert cfg. induction d as [|[n v] rest IH]; intros cfg Hk; [done|].
  unfold dict_keys in *. simpl in Hk. apply not_elem_of_cons in Hk as [Hne Hk].
  simpl. rewrite IH by done.
  rewrite !get_parameter_for_object_default. simpl.
  rewrite lookup_insert_eq. simpl. by rewrite lookup_insert_ne.
Qed.

Lemma write_object_lookup cfg obj_name (d : list (string * value)) name val :
  NoDup (dict_keys d) → (name, val) ∈ d →
  EnodebConfiguration.get_parameter_for_object
    (write_object cfg obj_name d) name obj_name
  = Some (DataModel.transform_for_magma name val).
Proof.
  revert cfg. induction d as [|[n v] rest IH]; intros cfg Hnd Hin.
  - by apply elem_of_nil in Hin.
  - unfold dict_keys in *. simpl in Hnd. apply NoDup_cons in Hnd as [Hn Hnd].
    apply elem_of_cons in Hin as [Heq|Hin].
    + inversion Heq; subst. simpl.
      rewrite write_object_notin by done.
      rewrite get_parameter_for_object_default. simpl.
      rewrite lookup_insert_eq. simpl. by rewrite lookup_insert_eq.
    + simpl. by apply IH.
Qed.

Lemma write_object_params_cons cfg o d
    (od : list (string * list (string * value))) :
  write_object_params cfg ((o, d) :: od)
  = write_object_params (write_object cfg o d) od.
Proof. reflexivity. Qed.

Lemma write_object_params_params cfg
    (od : list (string * list (string * value))) :
  EnodebConfiguration.param_to_value (write_object_params cfg od)
  = EnodebConfiguration.param_to_value cfg.
Proof.
  revert cfg. induction od as [|[o d] rest IH]; intros cfg; [done|].
  rewrite write_object_params_cons, IH. apply write_object_params_of.
Qed.

Lemma write_object_params_other cfg
    (od : list (string * list (string * value))) o :
  o ∉ dict_keys od →
  EnodebConfiguration.numbered_objects (write_object_params cfg od) !! o
  = EnodebConfiguration.numbered_objects cfg !! o.
Proof.
  revert cfg. induction od as [|[o' d] rest IH]; intros cfg Ho; [done|].
  unfold dict_keys in *. simpl in Ho. apply not_elem_of_cons in Ho as [Hne Ho].
  rewrite write_object_params_cons, IH by done.
  by apply write_object_other.
Qed.

Lemma write_object_params_lookup cfg
    (od : list (string * list (string * value))) obj_name d name val :
  NoDup (dict_keys od) →
  Forall (λ item, NoDup (dict_keys item.2)) od →
  (obj_name, d) ∈ od → (name, val) ∈ d →
  EnodebConfiguration.get_parameter_for_object
    (write_object_params cfg od) name obj_name
  = Some (DataModel.transform_for_magma name val).
Proof.
  revert cfg. induction od as [|[o' d'] rest IH]; intros cfg Hnd Hall Hin Hd.
  - by apply elem_of_nil in Hin.
  - unfold dict_keys in *. simpl in Hnd. apply NoDup_cons in Hnd as [Ho Hnd].
    apply Forall_cons in Hall as [Hd' Hall].
    apply elem_of_cons in Hin as [Heq|Hin].
    + inversion Heq; subst. rewrite write_object_params_cons.
      rewrite get_parameter_for_object_default.
      rewrite write_object_params_other by done.
      rewrite <- get_parameter_for_object_default.
      by apply write_object_lookup.
    + rewrite write_object_params_cons. by apply IH.
Qed.

End object_loops.

(** ** WaitSetParameterValues *)

Section wait_set_parameter_values.
Context `{PyBuiltins, ParameterName.Names, DataModel.Schema, AcsStateUtils}.

Lemma mark_as_configured_run σ :
  let a := acs σ in
  let configured :=
    write_params (device_cfg a)
      (get_param_values_to_set (desired_cfg a) (device_cfg a)
         (acs_data_model a)) in
  WaitSetParameterValuesState._mark_as_configured σ
  = (Ok (),
     with_device_cfg σ
       (write_object_params configured
          (get_obj_param_values_to_set (desired_cfg a) configured
             (acs_data_model a)))).
Proof.
  intros a configured. unfold WaitSetParameterValuesState._mark_as_configured.
  erewrite bind_Ok; [|reflexivity].
  erewrite bind_Ok; [|apply for_each_set_parameter].
  erewrite bind_Ok; [|reflexivity].
  rewrite for_each_objects. by destruct σ as [s []].
Qed.

End wait_set_parameter_values.

(** C1. [WaitSetParameterValuesState.read_msg]: a
    [SetParameterValuesResponse] with [Status] 0 writes every attempted
    scalar value and every attempted object sub-parameter value, through
    [transform_for_magma], into [device_cfg] (and nothing else of the
    machine changes) and returns handled with the done transition; a
    non-zero [Status] and a [Fault] raise [Tr069Error] and leave the machine,
    hence [device_cfg], as it was; any other message is not handled.  The
    two dicts of attempted values have pairwise distinct keys, as every dict
    has. *)
Theorem wait_set_parameter_values_read_msg
    `{PyBuiltins, ParameterName.Names, DataModel.Schema, AcsStateUtils}
    (done_transition : string) (a : Acs) (message : Message) :
  let σ := mkMachine (WaitSetParameterValuesState done_transition) a in
  let name_to_val :=
    get_param_values_to_set (desired_cfg a) (device_cfg a)
      (acs_data_model a) in
  let configured := write_params (device_cfg a) name_to_val in
  let obj_to_name_to_val :=
    get_obj_param_values_to_set (desired_cfg a) configured
      (acs_data_model a) in
  let device_cfg' := write_object_params configured obj_to_name_to_val in
  NoDup (dict_keys name_to_val) →
  NoDup (dict_keys obj_to_name_to_val) →
  Forall (λ item, NoDup (dict_keys item.2)) obj_to_name_to_val →
  match message with
  | SetParameterValuesResponse Status =>
      if decide (Status = 0)
      then
        read_msg message σ
        = (Ok (mkAcsReadMsgResult true (Some done_transition)),
           with_device_cfg σ device_cfg')
        ∧ (∀ name val, (name, val) ∈ name_to_val →
             EnodebConfiguration.get_parameter device_cfg' name
             = Some (DataModel.transform_for_magma name val))
        ∧ (∀ obj_name d name val,
             (obj_name, d) ∈ obj_to_name_to_val → (name, val) ∈ d →
             EnodebConfiguration.get_parameter_for_object
               device_cfg' name obj_name
             = Some (DataModel.transform_for_magma name val))
      else
        ∃ text, read_msg message σ = (Raise (Tr069Error text), σ)
  | Fault _ _ _ =>
      ∃ text, read_msg message σ = (Raise (Tr069Error text), σ)
  | _ => read_msg message σ = (Ok (mkAcsReadMsgResult false None), σ)
  end.
Proof.
  intros σ name_to_val configured obj_to_name_to_val device_cfg' Hd Hod Hall.
  destruct message; try reflexivity.
  - unfold read_msg; simpl. unfold WaitSetParameterValuesState.read_msg.
    destruct (decide (Status = 0)) as [->|Hne].
    + split; [|split].
      * rewrite bool_decide_eq_false_2 by (intros ?; done).
        erewrite bind_Ok; [reflexivity|]. apply (mark_as_configured_run σ).
      * intros name val Hin. unfold EnodebConfiguration.get_parameter.
        subst device_cfg'. rewrite write_object_params_params.
        by apply write_params_lookup.
      * intros obj_name d name val Ho Hin.
        by eapply write_object_params_lookup.
    + rewrite bool_decide_eq_true_2 by done. by eexists.
  - by eexists.
Qed.

(** ** The three Inform states *)

(** C10. [UnexpectedInformState] and [BaicellsDisconnectedState] behave as
    [DisconnectedState] does: on every message [read_msg] returns the same
    result (or raises the same) and leaves the same ACS context, so the same
    [device_cfg]; [get_msg] answers [InformResponse] with [MaxEnvelopes] 1
    and the done transition the constructor was given, changing nothing. *)
Theorem inform_states_identical_to_disconnected
    `{PyBuiltins, ParameterName.Names, DataModel.Schema, AcsStateUtils}
    (when_done : string) (a : Acs) (message : Message) :
  let disconnected := mkMachine (DisconnectedState when_done) a in
  let unexpected := mkMachine (UnexpectedInformState when_done) a in
  let baicells := mkMachine (BaicellsDisconnectedState when_done) a in
  let reply :=
    Ok (mkAcsMsgAndTransition (InformResponse 1) (Some when_done)) in
  (read_msg message unexpected).1 = (read_msg message disconnected).1
  ∧ acs (read_msg message unexpected).2
    = acs (read_msg message disconnected).2
  ∧ self (read_msg message unexpected).2 = UnexpectedInformState when_done
  ∧ (read_msg message baicells).1 = (read_msg message disconnected).1
  ∧ acs (read_msg message baicells).2 = acs (read_msg message disconnected).2
  ∧ self (read_msg message baicells).2 = BaicellsDisconnectedState when_done
  ∧ (read_msg message disconnected).1
    = Ok (mkAcsReadMsgResult
            (if message is Inform _ _ _ then true else false) None)
  ∧ device_cfg (acs (read_msg message disconnected).2)
    = (if message is Inform _ _ _
       then process_inform_message message (acs_data_model a) (device_cfg a)
       else device_cfg a)
  ∧ get_msg disconnected = (reply, disconnected)
  ∧ get_msg unexpected = (reply, unexpected)
  ∧ get_msg baicells = (reply, baicells).
Proof. destruct message; repeat split. Qed.

(** ** WaitGetTransientParameters: the next state *)

Section next_state.
Context `{ParameterName.Names, DataModel.Schema, AcsStateUtils}.

Lemma get_next_state_run
    (when_get when_get_obj_params when_delete when_add when_skip : string)
    (σ : Machine) :
  WaitGetTransientParametersState.get_next_state
    when_get when_get_obj_params when_delete when_add when_skip σ
  = (Ok (ladder when_get when_get_obj_params when_delete when_add when_skip
           (acs σ)), σ).
Proof.
  unfold WaitGetTransientParametersState.get_next_state, ladder.
  unfold_monad.
  destruct (get_params_to_get _ _); [|done].
  destruct (get_object_params_to_get _ _ _); [|done].
  destruct (get_all_objects_to_delete _ _); [|done].
  by destruct (get_all_objects_to_add _ _).
Qed.

End next_state.

(** C4. [WaitGetTransientParametersState.get_next_state] is a first-match
    ladder over four lists computed from the stores: parameters to get, then
    object parameters to get, then objects to delete, then objects to add;
    the first non-empty one selects its target and, when all four are empty,
    the skip target is selected.  The call changes nothing. *)
Theorem get_next_state_priority_ladder
    `{ParameterName.Names, DataModel.Schema, AcsStateUtils}
    (when_get when_get_obj_params when_delete when_add when_skip : string)
    (σ : Machine) :
  let a := acs σ in
  WaitGetTransientParametersState.get_next_state
    when_get when_get_obj_params when_delete when_add when_skip σ
  = (Ok match get_params_to_get (device_cfg a) (acs_data_model a),
              get_object_params_to_get (desired_cfg a) (device_cfg a)
                (acs_data_model a),
              get_all_objects_to_delete (desired_cfg a) (device_cfg a),
              get_all_objects_to_add (desired_cfg a) (device_cfg a) with
        | _ :: _, _, _, _ => when_get
        | [], _ :: _, _, _ => when_get_obj_params
        | [], [], _ :: _, _ => when_delete
        | [], [], [], _ :: _ => when_add
        | [], [], [], [] => when_skip
        end,
     σ).
Proof. intros a. apply get_next_state_run. Qed.

(** ** WaitGetTransientParameters: reading the response *)

Section wait_get_transient_parameters.
Context `{ParameterName.Names, DataModel.Schema, AcsStateUtils}.

Lemma dict_get_is_Some {V : Type} (d : list (string * V)) k :
  k ∈ dict_keys d → is_Some (dict_get d k).
Proof.
  induction d as [|[k' v] rest IH]; intros Hk.
  - by apply elem_of_nil in Hk.
  - simpl. destruct (decide (k' = k)); [by eexists|].
    unfold dict_keys in *. simpl in Hk.
    apply elem_of_cons in Hk as [->|Hk]; [done | by apply IH].
Qed.

(** The loop [for name in name_to_val] over any keys of the dict: no
    subscript fails, and only the device store changes. *)
Lemma for_each_key_set_parameter (d : list (string * value)) ks σ :
  Forall (λ k, k ∈ dict_keys d) ks →
  ∃ cfg',
    for_each ks (λ name,
      val ← subscript (dict_get d name) name;
      let magma_val := DataModel.transform_for_magma name val in
      update_device_cfg
        (λ cfg, EnodebConfiguration.set_parameter cfg name magma_val)) σ
    = (Ok (), with_device_cfg σ cfg').
Proof.
  revert σ. induction ks as [|k ks IH]; intros σ Hks.
  - exists (device_cfg (acs σ)). simpl. by rewrite with_device_cfg_id.
  - apply Forall_cons in Hks as [Hk Hks].
    destruct (dict_get_is_Some d k Hk) as [v Hv].
    destruct (IH (with_device_cfg σ
                    (EnodebConfiguration.set_parameter (device_cfg (acs σ)) k
                       (DataModel.transform_for_magma k v))) Hks)
      as [cfg' Hrun].
    exists cfg'. simpl. erewrite bind_Ok; [exact Hrun|].
    rewrite Hv. reflexivity.
Qed.

(** What a [GetParameterValuesResponse] does in this state: without a
    value for [RF_TX_STATUS] the subscript raises before anything is
    touched; with one, [clear_stats] is called on the edge from [True] to
    [False], the values are stored, the status metrics are updated and the
    message is handled with a next state. *)
Lemma wait_get_transient_read_msg_run
    (when_get when_get_obj when_delete when_add when_skip : string)
    (structs : list ParameterValueStruct) (σ : Machine) :
  let message := GetParameterValuesResponse structs in
  let name_to_val :=
    parse_get_parameter_values_response (acs_data_model (acs σ)) message in
  let prev_rf_tx :=
    default (VBool false)
      (EnodebConfiguration.get_parameter (device_cfg (acs σ))
         ParameterName.RF_TX_STATUS) in
  match dict_get name_to_val ParameterName.RF_TX_STATUS with
  | None =>
      WaitGetTransientParametersState.read_msg
        when_get when_get_obj when_delete when_add when_skip message σ
      = (Raise (KeyError ParameterName.RF_TX_STATUS), σ)
  | Some next_rf_tx =>
      ∃ cfg' next,
        WaitGetTransientParametersState.read_msg
          when_get when_get_obj when_delete when_add when_skip message σ
        = (Ok (mkAcsReadMsgResult true (Some next)),
           with_calls (with_device_cfg σ cfg')
             ((if is_True prev_rf_tx && is_False next_rf_tx
               then [clear_stats] else [])
              ++ [update_status_metrics]))
  end.
Proof.
  intros message name_to_val prev_rf_tx.
  unfold WaitGetTransientParametersState.read_msg. simpl.
  erewrite bind_Ok; [|reflexivity]. fold name_to_val.
  assert (Hprev :
    (if EnodebConfiguration.has_parameter (device_cfg (acs σ))
          ParameterName.RF_TX_STATUS
     then subscript
            (EnodebConfiguration.get_parameter (device_cfg (acs σ))
               ParameterName.RF_TX_STATUS) ParameterName.RF_TX_STATUS
     else mret (VBool false)) σ = (Ok prev_rf_tx, σ)).
  { subst prev_rf_tx.
    unfold EnodebConfiguration.has_parameter,
      EnodebConfiguration.get_parameter.
    destruct (EnodebConfiguration.param_to_value (device_cfg (acs σ))
                !! ParameterName.RF_TX_STATUS) as [v|] eqn:Hv.
    - rewrite bool_decide_eq_true_2 by by eexists. reflexivity.
    - rewrite bool_decide_eq_false_2 by (intros [? ?]; done). reflexivity. }
  erewrite bind_Ok; [|exact Hprev].
  destruct (dict_get name_to_val ParameterName.RF_TX_STATUS)
    as [next_rf_tx|] eqn:Hnext; [|reflexivity].
  erewrite bind_Ok; [|reflexivity].
  set (edge := is_True prev_rf_tx && is_False next_rf_tx).
  set (σ1 := with_calls σ (if edge then [clear_stats] else [])).
  assert (Hedge :
    (if edge then record_call clear_stats else mret ()) σ = (Ok (), σ1)).
  { subst σ1. destruct edge; [reflexivity|]. by rewrite with_calls_nil. }
  erewrite bind_Ok; [|exact Hedge].
  destruct (for_each_key_set_parameter name_to_val (dict_keys name_to_val) σ1)
    as [cfg' Hloop]; [by apply Forall_forall|].
  erewrite bind_Ok; [|exact Hloop].
  erewrite bind_Ok; [|reflexivity].
  set (σ3 := with_calls (with_device_cfg σ cfg')
               ((if edge then [clear_stats] else [])
                ++ [update_status_metrics])).
  pose proof (get_next_state_run
                when_get when_get_obj when_delete when_add when_skip σ3)
    as Hnext_state.
  eexists cfg', _.
  erewrite bind_Ok; [reflexivity|].
  replace (mkMachine _ _) with σ3; [exact Hnext_state|].
  subst σ3 σ1. unfold with_calls, with_device_cfg; simpl.
  by rewrite <- app_assoc.
Qed.

End wait_get_transient_parameters.

Lemma dict_get_None {V : Type} (d : list (string * V)) k :
  dict_get d k = None ↔ k ∉ dict_keys d.
Proof.
  unfold dict_keys. induction d as [|[k' v] rest IH]; simpl.
  - split; [intros _ Hk; by apply elem_of_nil in Hk | done].
  - rewrite not_elem_of_cons. destruct (decide (k' = k)) as [->|Hne].
    + split; [done | by intros [? _]].
    + rewrite IH. split; [intros ?; split; [congruence|done] | by intros [_ ?]].
Qed.

(** C2. [WaitGetTransientParametersState.read_msg] on a
    [GetParameterValuesResponse]: the calls it adds to those already made
    contain [clear_stats] exactly once when the value stored in [device_cfg]
    for [RF_TX_STATUS] is [True] and the value received for it is [False],
    and not at all in every other case; a store without a value for
    [RF_TX_STATUS] counts as [False]. *)
Theorem clear_stats_on_radio_stop_only
    `{PyBuiltins, ParameterName.Names, DataModel.Schema, AcsStateUtils}
    (when_get when_get_obj_params when_delete when_add when_set when_skip
       : string)
    (a : Acs) (structs : list ParameterValueStruct) :
  let σ :=
    mkMachine
      (WaitGetTransientParametersState when_get when_get_obj_params
         when_delete when_add when_set when_skip) a in
  let message := GetParameterValuesResponse structs in
  let stored :=
    default (VBool false)
      (EnodebConfiguration.get_parameter (device_cfg a)
         ParameterName.RF_TX_STATUS) in
  let received :=
    dict_get (parse_get_parameter_values_response (acs_data_model a) message)
      ParameterName.RF_TX_STATUS in
  ∃ new_calls,
    calls (acs (read_msg message σ).2) = (calls a ++ new_calls)%list
    ∧ count_calls clear_stats new_calls
      = if bool_decide (stored = VBool true ∧ received = Some (VBool false))
        then 1%nat else 0%nat.
Proof.
  intros σ message stored received.
  assert (Hdispatch :
    read_msg message σ
    = WaitGetTransientParametersState.read_msg when_get when_get_obj_params
        when_delete when_add when_skip message σ) by reflexivity.
  rewrite Hdispatch; clear Hdispatch.
  pose proof (wait_get_transient_read_msg_run when_get when_get_obj_params
                when_delete when_add when_skip structs σ) as Hrun.
  cbv zeta in Hrun. subst message received.
  destruct (dict_get _ ParameterName.RF_TX_STATUS) as [next|].
  - destruct Hrun as (cfg' & next_state & ->). simpl.
    eexists; split; [reflexivity|]. fold stored.
    destruct stored as [|[]| |], next as [|[]| |]; simpl;
      by (rewrite ?bool_decide_eq_true_2 by done;
          rewrite ?bool_decide_eq_false_2 by (intros [? ?]; congruence)).
  - rewrite Hrun. exists []. simpl. rewrite app_nil_r. split; [done|].
    by rewrite bool_decide_eq_false_2 by (intros [? ?]; congruence).
Qed.

Section send_get_transient_parameters.
Context `{ParameterName.Names, DataModel.Schema}.

Lemma requested_paths_absent dm absent (names : list string) :
  DataModel.is_parameter_present dm absent = false →
  SendGetTransientParametersState.requested_paths dm names
  = SendGetTransientParametersState.requested_paths dm
      (filter (λ name, name ≠ absent) names).
Proof.
  intros Habsent. induction names as [|name rest IH]; [done|].
  rewrite filter_cons. simpl. destruct (decide (name ≠ absent)) as [Hne|Heq].
  - simpl. by rewrite IH.
  - apply dec_stable in Heq as ->. by rewrite Habsent.
Qed.

End send_get_transient_parameters.

(** C9. [WaitGetTransientParametersState.read_msg] returns a result for a
    [GetParameterValuesResponse] only when the parsed values hold one for
    [RF_TX_STATUS]: without it the unguarded subscript raises [KeyError] and
    nothing has been touched; with it the message is handled.  Such a
    response is what the request calls for when the data model does not
    mark [RF_TX_STATUS] present: [SendGetTransientParametersState.get_msg]
    then asks exactly for what it would ask with [RF_TX_STATUS] struck from
    [PARAMETERS]. *)
Theorem wait_get_transient_needs_rf_tx_status
    `{PyBuiltins, ParameterName.Names, DataModel.Schema, AcsStateUtils}
    (when_get when_get_obj_params when_delete when_add when_set when_skip
       when_done : string)
    (a : Acs) (structs : list ParameterValueStruct) :
  let σ :=
    mkMachine
      (WaitGetTransientParametersState when_get when_get_obj_params
         when_delete when_add when_set when_skip) a in
  let sender := mkMachine (SendGetTransientParametersState when_done) a in
  let message := GetParameterValuesResponse structs in
  let name_to_val :=
    parse_get_parameter_values_response (acs_data_model a) message in
  (ParameterName.RF_TX_STATUS ∉ dict_keys name_to_val →
     read_msg message σ = (Raise (KeyError ParameterName.RF_TX_STATUS), σ))
  ∧ (ParameterName.RF_TX_STATUS ∈ dict_keys name_to_val →
       ∃ next σ',
         read_msg message σ
         = (Ok (mkAcsReadMsgResult true (Some next)), σ'))
  ∧ (DataModel.is_parameter_present (acs_data_model a)
       ParameterName.RF_TX_STATUS = false →
     get_msg sender
     = (Ok (mkAcsMsgAndTransition
              (GetParameterValues "xsd:string[7]"
                 (SendGetTransientParametersState.requested_paths
                    (acs_data_model a)
                    (filter (λ name, name ≠ ParameterName.RF_TX_STATUS)
                       SendGetTransientParametersState.PARAMETERS)))
              (Some when_done)),
        sender)).
Proof.
  intros σ sender message name_to_val.
  pose proof (wait_get_transient_read_msg_run when_get when_get_obj_params
                when_delete when_add when_skip structs σ) as Hrun.
  cbv zeta in Hrun.
  assert (Hdispatch :
    read_msg message σ
    = WaitGetTransientParametersState.read_msg when_get when_get_obj_params
        when_delete when_add when_skip message σ) by reflexivity.
  rewrite Hdispatch; clear Hdispatch.
  change (acs σ) with a in Hrun. subst message name_to_val.
  split; [|split].
  - intros Hnotin. apply dict_get_None in Hnotin. by rewrite Hnotin in Hrun.
  - intros Hin. apply dict_get_is_Some in Hin as [next Hnext].
    rewrite Hnext in Hrun. destruct Hrun as (cfg' & next_state & ->).
    by eexists _, _.
  - intros Habsent. unfold get_msg; simpl.
    unfold SendGetTransientParametersState.get_msg. unfold_monad. simpl.
    by rewrite <- requested_paths_absent.
Qed.

(** ** WaitInformMReboot *)

Lemma is_correct_event_Exists (events : list EventStruct) :
  WaitInformMRebootState.is_correct_event events = true
  ↔ Exists (λ event, EventCode event = "M Reboot") events.
Proof.
  unfold WaitInformMRebootState.is_correct_event.
  enough (∀ found,
    foldl (λ found event,
             if bool_decide
                  (EventCode event = WaitInformMRebootState.INFORM_EVENT_CODE)
             then true else found) found events = true
    ↔ found = true ∨ Exists (λ event, EventCode event = "M Reboot") events)
    as Hgen.
  { rewrite Hgen. split; [intros [?|?]; done | by right]. }
  induction events as [|event rest IH]; intros found; simpl.
  - rewrite Exists_nil. tauto.
  - rewrite IH, Exists_cons.
    unfold WaitInformMRebootState.INFORM_EVENT_CODE. case_bool_decide; tauto.
Qed.

(** C6. [WaitInformMRebootState]: an [Inform] none of whose events has the
    code ["M Reboot"] raises [Tr069Error] and changes nothing; an [Inform]
    with such an event sets [received_inform], processes the inform contents
    into [device_cfg] and is handled without a transition; a [Fault] is
    handled without a transition and changes nothing.  [get_msg] answers
    [InformResponse] with [MaxEnvelopes] 1 and the done transition once
    [received_inform] is set, and [DummyInput] without a transition before
    that. *)
Theorem wait_inform_m_reboot_handlers
    `{PyBuiltins, ParameterName.Names, DataModel.Schema, AcsStateUtils}
    (when_done when_timeout : string) (received_inform : bool)
    (a : Acs) (message : Message) :
  let σ :=
    mkMachine (WaitInformMRebootState when_done when_timeout received_inform)
      a in
  match message with
  | Inform _ events _ =>
      if decide (Exists (λ event, EventCode event = "M Reboot") events)
      then
        read_msg message σ
        = (Ok (mkAcsReadMsgResult true None),
           with_device_cfg
             (mkMachine (WaitInformMRebootState when_done when_timeout true)
                a)
             (process_inform_message message (acs_data_model a)
                (device_cfg a)))
      else
        read_msg message σ
        = (Raise (Tr069Error "Did not receive M Reboot event code in Inform"),
           σ)
  | Fault _ _ _ => read_msg message σ = (Ok (mkAcsReadMsgResult true None), σ)
  | _ => read_msg message σ = (Ok (mkAcsReadMsgResult false None), σ)
  end
  ∧ get_msg σ
    = (Ok (if received_inform
           then mkAcsMsgAndTransition (InformResponse 1) (Some when_done)
           else mkAcsMsgAndTransition DummyInput None),
       σ).
Proof.
  intros σ. split; [|by destruct received_inform].
  destruct message; try reflexivity.
  unfold read_msg; simpl. unfold WaitInformMRebootState.read_msg.
  destruct (decide (Exists _ Event)) as [Hex|Hnex].
  - apply is_correct_event_Exists in Hex. by rewrite Hex.
  - rewrite <- is_correct_event_Exists in Hnex.
    apply not_true_is_false in Hnex. by rewrite Hnex.
Qed.

(** ** CheckOptionalParams *)

Section check_optional_params.
Context `{DataModel.Schema}.

(** The loop over the parsed values: every turn marks the parameter under
    check present and stores one value, so an empty dict marks nothing. *)
Lemma for_each_mark_present optional_param
    (name_to_val : list (string * value)) σ :
  for_each name_to_val (λ '(name, val),
    update_data_model
      (λ dm, DataModel.set_parameter_presence dm optional_param true);;
    let magma_val := DataModel.transform_for_magma name val in
    update_device_cfg
      (λ cfg, EnodebConfiguration.set_parameter cfg name magma_val)) σ
  = (Ok (),
     with_device_cfg
       (with_data_model σ
          (match name_to_val with
           | [] => acs_data_model (acs σ)
           | _ :: _ =>
               DataModel.set_parameter_presence (acs_data_model (acs σ))
                 optional_param true
           end))
       (write_params (device_cfg (acs σ)) name_to_val)).
Proof.
  revert σ. induction name_to_val as [|[name val] rest IH]; intros σ.
  - by destruct σ as [s []].
  - simpl. erewrite bind_Ok; [|reflexivity]. rewrite IH.
    destruct σ as [s [cfg desired [presence] cs]].
    unfold with_device_cfg, with_data_model; simpl.
    destruct rest; [done|].
    unfold DataModel.set_parameter_presence; simpl.
    by rewrite insert_insert_eq.
Qed.

End check_optional_params.

(** X17. [CheckOptionalParamsState], handler by handler: [get_msg] raises
    [Tr069Error "Invalid State"] when no parameter with unknown presence
    remains, and otherwise asks for the path of the next one; a [Fault]
    marks the parameter under check absent; a [GetParameterValuesResponse]
    stores every parsed value, transformed, in [device_cfg] under its own
    name, and marks the parameter under check present when there is a
    parsed value and leaves the data model as it is when there is none;
    after either response the message is handled, without a transition
    while a parameter with unknown presence remains and with the done
    transition otherwise. *)
Theorem check_optional_params_handlers
    `{PyBuiltins, ParameterName.Names, DataModel.Schema, AcsStateUtils}
    (when_done : string) (optional_param : option string)
    (a : Acs) (message : Message) :
  let σ := mkMachine (CheckOptionalParamsState when_done optional_param) a in
  let dm := acs_data_model a in
  let handled dm' :=
    Ok (mkAcsReadMsgResult true
          (if get_optional_param_to_check dm' is Some _
           then None else Some when_done)) in
  match get_optional_param_to_check dm with
  | None =>
      get_msg σ
      = (Raise (Tr069Error "Invalid State"),
         mkMachine (CheckOptionalParamsState when_done None) a)
  | Some name =>
      get_msg σ
      = (Ok (mkAcsMsgAndTransition
               (GetParameterValues "xsd:string[1]"
                  [DataModel.path (DataModel.get_parameter name)])
               None),
         mkMachine (CheckOptionalParamsState when_done (Some name)) a)
  end
  ∧ match message with
    | Fault _ _ _ =>
        let dm' := DataModel.set_parameter_presence dm optional_param false in
        read_msg message σ = (handled dm', with_data_model σ dm')
        ∧ DataModel.presence_by_param dm' !! optional_param = Some false
    | GetParameterValuesResponse _ =>
        let name_to_val := parse_get_parameter_values_response dm message in
        let dm' :=
          if name_to_val is []
          then dm
          else DataModel.set_parameter_presence dm optional_param true in
        let device_cfg' := write_params (device_cfg a) name_to_val in
        NoDup (dict_keys name_to_val) →
        read_msg message σ
        = (handled dm', with_device_cfg (with_data_model σ dm') device_cfg')
        ∧ (name_to_val ≠ [] →
           DataModel.presence_by_param dm' !! optional_param = Some true)
        ∧ (name_to_val = [] → dm' = dm ∧ device_cfg' = device_cfg a)
        ∧ (∀ name val, (name, val) ∈ name_to_val →
             EnodebConfiguration.get_parameter device_cfg' name
             = Some (DataModel.transform_for_magma name val))
    | _ => read_msg message σ = (Ok (mkAcsReadMsgResult false None), σ)
    end.
Proof.
  intros σ dm handled. split.
  - unfold get_msg; simpl. unfold CheckOptionalParamsState.get_msg.
    unfold_monad; simpl. fold dm.
    by destruct (get_optional_param_to_check dm).
  - destruct message; try reflexivity.
    + intros name_to_val dm' device_cfg' Hnd. split; [|split; [|split]].
      * unfold read_msg; simpl. unfold CheckOptionalParamsState.read_msg.
        erewrite bind_Ok; [|reflexivity].
        erewrite bind_Ok; [|apply for_each_mark_present].
        simpl. fold dm name_to_val.
        unfold CheckOptionalParamsState.after_response. unfold_monad.
        subst handled dm' device_cfg'.
        destruct name_to_val as [|item rest]; simpl;
          match goal with
          | |- context [get_optional_param_to_check ?d] =>
              by destruct (get_optional_param_to_check d)
          end.
      * intros Hne. subst dm'.
        destruct name_to_val as [|item rest]; [done|].
        simpl. apply lookup_insert_eq.
      * intros Hempty. subst dm' device_cfg'. by rewrite Hempty.
      * intros name val Hin. by apply write_params_lookup.
    + intros dm'. split; [|simpl; apply lookup_insert_eq].
      unfold read_msg; simpl. unfold CheckOptionalParamsState.read_msg.
      unfold CheckOptionalParamsState.after_response. unfold_monad. simpl.
      fold dm dm'. subst handled. simpl.
      by destruct (get_optional_param_to_check dm').
Qed.

(** ** SetParameterValues *)

Section set_parameter_values.
Context `{PyBuiltins, DataModel.Schema, AcsStateUtils}.

Local Abbreviation tag name := (DataModel.type (DataModel.get_parameter name)).

Lemma supported_type_cases t :
  supported_type t = true
  ↔ t = "int" ∨ t = "unsignedInt" ∨ t = "boolean" ∨ t = "string".
Proof.
  unfold supported_type. rewrite bool_decide_eq_true.
  rewrite !elem_of_cons, elem_of_nil. tauto.
Qed.

Lemma name_value_typed name value σ :
  has_type (tag name) (DataModel.transform_for_enb name value) →
  SetParameterValuesState.name_value name value σ
  = (Ok (wire_struct (name, value)), σ).
Proof.
  unfold SetParameterValuesState.name_value, wire_struct, wire_type.
  destruct (DataModel.transform_for_enb name value) as [|b|z|s]; simpl;
    [done| intros -> | intros [-> | ->] | intros ->];
    try reflexivity.
  by destruct b.
Qed.

Lemma name_value_unsupported name value σ :
  supported_type (tag name) = false →
  SetParameterValuesState.name_value name value σ
  = (Raise (Tr069Error
              ("Unsupported type for " +:+ name +:+ ": " +:+ tag name)), σ).
Proof.
  intros Hno. unfold SetParameterValuesState.name_value.
  assert (Hnot : ¬ (tag name = "int" ∨ tag name = "unsignedInt"
                    ∨ tag name = "boolean" ∨ tag name = "string")).
  { rewrite <- supported_type_cases. by rewrite Hno. }
  rewrite !bool_decide_eq_false_2 by tauto. reflexivity.
Qed.

Lemma mapM_name_value (items : list (string * value)) σ :
  Forall (λ '(name, v),
            supported_type (tag name) = true →
            has_type (tag name) (DataModel.transform_for_enb name v)) items →
  mapM (λ '(name, value), SetParameterValuesState.name_value name value)
    items σ
  = match first_unsupported items with
    | Some (name, _) =>
        (Raise (Tr069Error
                  ("Unsupported type for " +:+ name +:+ ": " +:+ tag name)),
         σ)
    | None => (Ok (wire_struct <$> items), σ)
    end.
Proof.
  induction items as [|[name v] rest IH]; intros Hall; [done|].
  apply Forall_cons in Hall as [Hitem Hall]. specialize (IH Hall).
  unfold first_unsupported in *. simpl.
  destruct (supported_type (tag name)) eqn:Hsup; simpl.
  - erewrite bind_Ok; [|by apply name_value_typed, Hitem].
    destruct (List.find _ rest) as [[name' v']|].
    + by erewrite bind_Raise.
    + by erewrite bind_Ok.
  - by erewrite bind_Raise; [|by apply name_value_unsupported].
Qed.

Lemma build_request_next_state exclude_admin when_done σ r σ' :
  SetParameterValuesState.build_request exclude_admin when_done σ = (Ok r, σ')
  → msg_next_state r = Some when_done.
Proof.
  unfold SetParameterValuesState.build_request. intros Hrun.
  apply bind_inv_Ok in Hrun as (a & σ1 & _ & Hrun).
  apply bind_inv_Ok in Hrun as (structs & σ2 & _ & Hrun).
  by inversion Hrun.
Qed.

End set_parameter_values.

(** C5, amended.  When the transformed value of every parameter to set is
    of the type its tag names (an int for ['int'] and ['unsignedInt'], a
    bool for ['boolean'], a str for ['string']),
    [SetParameterValuesState.get_msg] builds one struct per parameter to
    set, by the parameter's type tag: ['int'] and ['unsignedInt'] give
    [xsd:int] and [xsd:unsignedInt] with the decimal numeral of the
    transformed value, ['boolean'] gives [xsd:boolean] with ["0"] or ["1"],
    ['string'] gives [xsd:string] with the string; the first parameter with
    any other tag makes it raise [Tr069Error]; and whenever a message is
    returned it carries the transition to the wait state. *)
Theorem set_parameter_values_get_msg_types
    `{PyBuiltins, ParameterName.Names, DataModel.Schema, AcsStateUtils}
    (when_done : string) (a : Acs) :
  let σ := mkMachine (SetParameterValuesState when_done) a in
  let param_values :=
    get_all_param_values_to_set (desired_cfg a) (device_cfg a)
      (acs_data_model a) false in
  let tag name := DataModel.type (DataModel.get_parameter name) in
  Forall (λ '(name, v),
            supported_type (tag name) = true →
            has_type (tag name) (DataModel.transform_for_enb name v))
         param_values →
  match first_unsupported param_values with
  | Some (name, _) =>
      get_msg σ
      = (Raise (Tr069Error
                  ("Unsupported type for " +:+ name +:+ ": " +:+ tag name)),
         σ)
  | None =>
      get_msg σ
      = (Ok (mkAcsMsgAndTransition
               (SetParameterValues
                  ("cwmp:ParameterValueStruct["
                   +:+ str_Z (Z.of_nat (length param_values)) +:+ "]")
                  (wire_struct <$> param_values))
               (Some when_done)),
         σ)
  end
  ∧ (∀ name v,
       wire_struct (name, v)
       = {| Name := DataModel.path (DataModel.get_parameter name);
            Value :=
              {| type_ := "xsd:" +:+ tag name;
                 Data :=
                   VStr match DataModel.transform_for_enb name v with
                        | VInt z => str_Z z
                        | VBool true => "1"
                        | VBool false => "0"
                        | VStr s => s
                        | VNone => ""
                        end |} |})
  ∧ (∀ r σ', get_msg σ = (Ok r, σ') → msg_next_state r = Some when_done).
Proof.
  intros σ param_values tag Htyped. split; [|split].
  - unfold get_msg; simpl.
    unfold SetParameterValuesState.get_msg,
      SetParameterValuesState.build_request.
    erewrite bind_Ok; [|reflexivity]. simpl. fold param_values.
    pose proof (mapM_name_value param_values σ Htyped) as Hmap.
    destruct (first_unsupported param_values) as [[name v]|].
    + by erewrite bind_Raise.
    + by erewrite bind_Ok.
  - intros name v. unfold wire_struct, wire_type, wire_data.
    by destruct (DataModel.transform_for_enb name v) as [|[]| |].
  - intros r σ' Hrun.
    exact (build_request_next_state false when_done σ r σ' Hrun).
Qed.

(** ** The desired configuration is built once *)

Lemma builds_at_most_once_refl a : builds_at_most_once a a.
Proof. unfold builds_at_most_once. destruct (desired_cfg a); auto. Qed.

Lemma builds_at_most_once_trans a1 a2 a3 :
  builds_at_most_once a1 a2 → builds_at_most_once a2 a3 →
  builds_at_most_once a1 a3.
Proof.
  unfold builds_at_most_once.
  destruct (desired_cfg a1) as [d1|].
  - intros [-> ->]. by intros [-> ->].
  - intros [[-> ->] | [[d2 ->] ->]]; [done|].
    intros [-> ->]. right. split; [by eexists | done].
Qed.

Lemma builds_at_most_once_view σ σ' :
  desired_view σ' = desired_view σ → builds_at_most_once (acs σ) (acs σ').
Proof.
  unfold desired_view, builds_at_most_once. intros [= -> ->].
  destruct (desired_cfg (acs σ)); auto.
Qed.

Section respects_build_once.
Context `{PyBuiltins, ParameterName.Names, DataModel.Schema, AcsStateUtils}.

Lemma respects_ret {A : Type} (x : A) : respects_build_once (mret x).
Proof. intros σ. apply builds_at_most_once_refl. Qed.

Lemma respects_raise {A : Type} e : respects_build_once (@raise A e).
Proof. intros σ. apply builds_at_most_once_refl. Qed.

Lemma respects_bind {A B : Type} (m : M A) (f : A → M B) :
  respects_build_once m → (∀ x, respects_build_once (f x)) →
  respects_build_once (m ≫= f).
Proof.
  intros Hm Hf σ. specialize (Hm σ). unfold mbind, M_bind.
  destruct (m σ) as [[x|e] σ1]; [|done].
  eapply builds_at_most_once_trans; [exact Hm | apply Hf].
Qed.

Lemma respects_for_each {A : Type} (xs : list A) (body : A → M unit) :
  (∀ x, respects_build_once (body x)) →
  respects_build_once (for_each xs body).
Proof.
  intros Hbody. induction xs as [|x xs IH]; simpl.
  - apply respects_ret.
  - apply respects_bind; [apply Hbody | by intros _].
Qed.

Lemma respects_mapM {A B : Type} (f : A → M B) (xs : list A) :
  (∀ x, respects_build_once (f x)) → respects_build_once (mapM f xs).
Proof.
  intros Hf. induction xs as [|x xs IH]; simpl.
  - apply respects_ret.
  - apply respects_bind; [apply Hf|]. intros y.
    apply respects_bind; [exact IH|]. intros ys. apply respects_ret.
Qed.

Lemma respects_get_acs : respects_build_once get_acs.
Proof. intros σ. apply builds_at_most_once_refl. Qed.

Lemma respects_set_self s : respects_build_once (set_self s).
Proof. intros σ. by apply builds_at_most_once_view. Qed.

Lemma respects_set_device_cfg cfg : respects_build_once (set_device_cfg cfg).
Proof. intros σ. by apply builds_at_most_once_view. Qed.

Lemma respects_set_data_model dm : respects_build_once (set_data_model dm).
Proof. intros σ. by apply builds_at_most_once_view. Qed.

Lemma respects_update_device_cfg f : respects_build_once (update_device_cfg f).
Proof. intros σ. by apply builds_at_most_once_view. Qed.

Lemma respects_update_data_model f : respects_build_once (update_data_model f).
Proof. intros σ. by apply builds_at_most_once_view. Qed.

Lemma count_calls_app c l1 l2 :
  count_calls c (l1 ++ l2) = (count_calls c l1 + count_calls c l2)%nat.
Proof. unfold count_calls. by rewrite filter_app, length_app. Qed.

Lemma respects_record_call c :
  c ≠ build_desired_config_call → respects_build_once (record_call c).
Proof.
  intros Hc σ. apply builds_at_most_once_view.
  unfold desired_view; simpl. f_equal. rewrite count_calls_app.
  unfold count_calls at 2. rewrite filter_cons_False by done. simpl. lia.
Qed.

Lemma respects_subscript {A : Type} (o : option A) k :
  respects_build_once (subscript o k).
Proof. destruct o; [apply respects_ret | apply respects_raise]. Qed.

Lemma respects_py_int v : respects_build_once (py_int v).
Proof.
  destruct v as [|b|z|s]; simpl;
    [apply respects_raise | apply respects_ret | apply respects_ret |].
  destruct (int_of_str s); [apply respects_ret | apply respects_raise].
Qed.

Lemma respects_py_mod template n : respects_build_once (py_mod template n).
Proof.
  unfold py_mod.
  destruct (str_mod template n);
    [apply respects_ret | apply respects_raise..].
Qed.

Lemma respects_build_desired_config_if_none :
  respects_build_once
    WaitGetObjectParametersState.build_desired_config_if_none.
Proof.
  intros [s [cfg desired dm cs]].
  unfold WaitGetObjectParametersState.build_desired_config_if_none.
  unfold builds_at_most_once. unfold_monad. simpl.
  destruct desired as [d|]; simpl; [done|].
  right. split; [by eexists|].
  rewrite count_calls_app. unfold count_calls at 2. simpl. lia.
Qed.

End respects_build_once.

Ltac respects_step :=
  first
    [ apply respects_ret
    | apply respects_raise
    | apply respects_get_acs
    | apply respects_set_self
    | apply respects_set_device_cfg
    | apply respects_set_data_model
    | apply respects_update_device_cfg
    | apply respects_update_data_model
    | apply respects_record_call; discriminate
    | apply respects_subscript
    | apply respects_py_int
    | apply respects_py_mod
    | apply respects_build_desired_config_if_none
    | apply respects_for_each; intros
    | apply respects_mapM; intros
    | apply respects_bind; [|intros]
    | match goal with
      | |- respects_build_once (match ?x with _ => _ end) => destruct x
      | |- respects_build_once (let _ := _ in _) => cbv zeta
      end ].

Ltac respects := repeat respects_step.

Section handlers_respect_build_once.
Context `{PyBuiltins, ParameterName.Names, DataModel.Schema, AcsStateUtils}.

Lemma read_msg_respects message σ :
  builds_at_most_once (acs σ) (acs (read_msg message σ).2).
Proof.
  destruct σ as [s a]. unfold read_msg; simpl.
  destruct s;
    match goal with
    | |- builds_at_most_once _ (acs (?m ?σ).2) =>
        enough (respects_build_once m) as Hm by apply (Hm σ)
    end.
  all: unfold DisconnectedState.read_msg, UnexpectedInformState.read_msg,
         BaicellsDisconnectedState.read_msg, BaicellsRemWaitState.read_msg,
         WaitEmptyMessageState.read_msg, CheckOptionalParamsState.read_msg,
         CheckOptionalParamsState.after_response,
         SendGetTransientParametersState.read_msg,
         WaitGetTransientParametersState.read_msg,
         WaitGetTransientParametersState.get_next_state,
         GetParametersState.read_msg, WaitGetParametersState.read_msg,
         EnodebAcsState.read_msg, WaitGetObjectParametersState.read_msg,
         DeleteObjectsState.read_msg, DeleteObjectsState.after_response,
         AddObjectsState.read_msg, AddObjectsState.after_response,
         WaitSetParameterValuesState.read_msg,
         WaitSetParameterValuesState._mark_as_configured,
         SendRebootState.read_msg, WaitRebootResponseState.read_msg,
         WaitInformMRebootState.read_msg, WaitRebootDelayState.read_msg,
         ErrorState.read_msg.
  all: respects.
Qed.

Lemma get_msg_respects σ :
  builds_at_most_once (acs σ) (acs (get_msg σ).2).
Proof.
  destruct σ as [s a]. unfold get_msg; simpl.
  destruct s;
    match goal with
    | |- builds_at_most_once _ (acs (?m ?σ).2) =>
        enough (respects_build_once m) as Hm by apply (Hm σ)
    end.
  all: unfold DisconnectedState.get_msg, UnexpectedInformState.get_msg,
         BaicellsDisconnectedState.get_msg, BaicellsRemWaitState.get_msg,
         CheckOptionalParamsState.get_msg,
         SendGetTransientParametersState.get_msg,
         GetParametersState.get_msg, GetObjectParametersState.get_msg,
         EnodebAcsState.get_msg, DeleteObjectsState.get_msg,
         AddObjectsState.get_msg, SetParameterValuesState.get_msg,
         SetParameterValuesNotAdminState.get_msg,
         SetParameterValuesState.build_request,
         SetParameterValuesState.name_value,
         SendRebootState.get_msg, WaitRebootResponseState.get_msg,
         WaitInformMRebootState.get_msg, WaitRebootDelayState.get_msg,
         ErrorState.get_msg.
  all: respects.
Qed.

End handlers_respect_build_once.

(** C3. [build_desired_config] is called at most once per provisioning
    cycle.  Over any sequence of [read_msg] and [get_msg] calls on any state
    instances, starting from any ACS context: a desired configuration that
    exists at the start is still the same at the end and the builder has
    not been called; starting without one, either none exists at the end and
    the builder has not been called, or one exists and the builder has been
    called exactly once.  So the builder only ever runs from
    [desired_cfg is None], and no handler rebuilds or replaces what it
    produced. *)
Theorem build_desired_config_at_most_once
    `{PyBuiltins, ParameterName.Names, DataModel.Schema, AcsStateUtils}
    (steps : list (state * handler_call)) (a : Acs) :
  let built a := count_calls build_desired_config_call (calls a) in
  let a' := run steps a in
  match desired_cfg a with
  | Some d => desired_cfg a' = Some d ∧ built a' = built a
  | None =>
      (desired_cfg a' = None ∧ built a' = built a)
      ∨ (is_Some (desired_cfg a') ∧ built a' = S (built a))
  end.
Proof.
  change (builds_at_most_once a (run steps a)).
  revert a. induction steps as [|[s c] rest IH]; intros a.
  - apply builds_at_most_once_refl.
  - simpl. eapply builds_at_most_once_trans; [|apply IH].
    destruct c as [message|]; simpl.
    + apply (read_msg_respects message (mkMachine s a)).
    + apply (get_msg_respects (mkMachine s a)).
Qed.

(** ** Messages that are not handled *)

Lemma handled_ret next :
  handled_if_returned (mret (mkAcsReadMsgResult true next)).
Proof. by intros σ r σ' [= <- _]. Qed.

Lemma handled_raise e : handled_if_returned (raise e).
Proof. by intros σ r σ' [=]. Qed.

Lemma handled_bind {A : Type} (m : M A) (f : A → M AcsReadMsgResult) :
  (∀ x, handled_if_returned (f x)) → handled_if_returned (m ≫= f).
Proof.
  intros Hf σ r σ' Hrun.
  apply bind_inv_Ok in Hrun as (x & σ1 & _ & Hrun). by eapply Hf.
Qed.

Ltac handled_step :=
  first
    [ apply handled_ret
    | apply handled_raise
    | apply handled_bind; intros
    | match goal with
      | |- handled_if_returned (match ?x with _ => _ end) => destruct x
      | |- handled_if_returned (let _ := _ in _) => cbv zeta
      end ].

Ltac handled := repeat handled_step.

(** Closes a case of [read_msg]: either the handler returned at once and
    the machine is the one it was given, or it can only return handled. *)
Ltac not_handled_case Hrun Hnot :=
  first
    [ by (injection Hrun as <- <-)
    | by (injection Hrun as <- <-; discriminate Hnot)
    | exfalso;
      match type of Hrun with
      | ?m ?σ = _ =>
          assert (handled_if_returned m) as Hm by handled;
          apply Hm in Hrun; congruence
      end ].

(** C8. Whenever a state's [read_msg] returns a result with [msg_handled]
    false, the call has changed nothing: the machine is the one it was
    given, so [device_cfg], [desired_cfg] and the data model with its
    presence flags are what they were. *)
Theorem not_handled_leaves_stores
    `{PyBuiltins, ParameterName.Names, DataModel.Schema, AcsStateUtils}
    (message : Message) (σ σ' : Machine) (r : AcsReadMsgResult) :
  read_msg message σ = (Ok r, σ') →
  msg_handled r = false →
  σ' = σ
  ∧ device_cfg (acs σ') = device_cfg (acs σ)
  ∧ desired_cfg (acs σ') = desired_cfg (acs σ)
  ∧ DataModel.presence_by_param (acs_data_model (acs σ'))
    = DataModel.presence_by_param (acs_data_model (acs σ)).
Proof.
  intros Hrun Hnot.
  enough (σ' = σ) as -> by done.
  destruct σ as [s a]. unfold read_msg in Hrun; simpl in Hrun.
  destruct s, message;
    unfold DisconnectedState.read_msg, UnexpectedInformState.read_msg,
      BaicellsDisconnectedState.read_msg, BaicellsRemWaitState.read_msg,
      WaitEmptyMessageState.read_msg, CheckOptionalParamsState.read_msg,
      CheckOptionalParamsState.after_response,
      SendGetTransientParametersState.read_msg,
      WaitGetTransientParametersState.read_msg,
      GetParametersState.read_msg, WaitGetParametersState.read_msg,
      EnodebAcsState.read_msg, WaitGetObjectParametersState.read_msg,
      DeleteObjectsState.read_msg, DeleteObjectsState.after_response,
      AddObjectsState.read_msg, AddObjectsState.after_response,
      WaitSetParameterValuesState.read_msg,
      SendRebootState.read_msg, WaitRebootResponseState.read_msg,
      WaitInformMRebootState.read_msg, WaitRebootDelayState.read_msg,
      ErrorState.read_msg in Hrun;
    not_handled_case Hrun Hnot.
Qed.

(** * Further properties of the handlers *)

(** ** Frames and exceptions, compositionally *)

Lemma bind_inv_Raise {A B : Type} (m : M A) (f : A → M B) σ e σ' :
  (m ≫= f) σ = (Raise e, σ') →
  m σ = (Raise e, σ') ∨ ∃ a σ1, m σ = (Ok a, σ1) ∧ f a σ1 = (Raise e, σ').
Proof.
  unfold mbind, M_bind. destruct (m σ) as [[a|e1] σ1]; [eauto|].
  intros [= <- <-]. by left.
Qed.

Section keeps.
Context `{PyBuiltins} {X : Type} (view : Machine → X).

Lemma keeps_ret {A : Type} (x : A) : keeps view (mret x).
Proof. by intros σ. Qed.

Lemma keeps_raise {A : Type} e : keeps view (@raise A e).
Proof. by intros σ. Qed.

Lemma keeps_get_acs : keeps view get_acs.
Proof. by intros σ. Qed.

Lemma keeps_bind {A B : Type} (m : M A) (f : A → M B) :
  keeps view m → (∀ x, keeps view (f x)) → keeps view (m ≫= f).
Proof.
  intros Hm Hf σ. specialize (Hm σ). unfold mbind, M_bind.
  destruct (m σ) as [[x|e] σ1]; [|done]. by rewrite Hf.
Qed.

Lemma keeps_for_each {A : Type} (xs : list A) (body : A → M unit) :
  (∀ x, keeps view (body x)) → keeps view (for_each xs body).
Proof.
  intros Hbody. induction xs as [|x xs IH]; simpl.
  - apply keeps_ret.
  - apply keeps_bind; [apply Hbody | by intros _].
Qed.

Lemma keeps_mapM {A B : Type} (f : A → M B) (xs : list A) :
  (∀ x, keeps view (f x)) → keeps view (mapM f xs).
Proof.
  intros Hf. induction xs as [|x xs IH]; simpl.
  - apply keeps_ret.
  - apply keeps_bind; [apply Hf|]. intros y.
    apply keeps_bind; [exact IH|]. intros ys. apply keeps_ret.
Qed.

Lemma keeps_subscript {A : Type} (o : option A) k :
  keeps view (subscript o k).
Proof. destruct o; [apply keeps_ret | apply keeps_raise]. Qed.

Lemma keeps_py_int v : keeps view (py_int v).
Proof.
  destruct v as [|b|z|s]; simpl;
    [apply keeps_raise | apply keeps_ret | apply keeps_ret |].
  destruct (int_of_str s); [apply keeps_ret | apply keeps_raise].
Qed.

Lemma keeps_py_mod template n : keeps view (py_mod template n).
Proof.
  unfold py_mod.
  destruct (str_mod template n);
    [apply keeps_ret | apply keeps_raise..].
Qed.

End keeps.

(** One step of a frame proof; a primitive that writes elsewhere than the
    view is closed by computation. *)
Ltac keeps_step :=
  first
    [ apply keeps_ret
    | apply keeps_raise
    | apply keeps_get_acs
    | apply keeps_subscript
    | apply keeps_py_int
    | apply keeps_py_mod
    | apply keeps_for_each; intros
    | apply keeps_mapM; intros
    | apply keeps_bind; [|intros]
    | match goal with
      | |- keeps _ (match ?x with _ => _ end) => destruct x
      | |- keeps _ (let _ := _ in _) => cbv zeta
      end
    | by intros ? ].

Ltac keeps_all := repeat keeps_step.

Section raises_only.
Context `{PyBuiltins} (P : exn → Prop).

Lemma raises_only_ret {A : Type} (x : A) : raises_only P (mret x).
Proof. by intros σ e σ' [=]. Qed.

Lemma raises_only_raise {A : Type} e : P e → raises_only P (@raise A e).
Proof. by intros He σ e' σ' [= <- _]. Qed.

Lemma raises_only_bind {A B : Type} (m : M A) (f : A → M B) :
  raises_only P m → (∀ x, raises_only P (f x)) → raises_only P (m ≫= f).
Proof.
  intros Hm Hf σ e σ' Hrun.
  apply bind_inv_Raise in Hrun as [Hrun | (x & σ1 & _ & Hrun)].
  - by eapply Hm.
  - by eapply Hf.
Qed.

Lemma raises_only_for_each {A : Type} (xs : list A) (body : A → M unit) :
  (∀ x, raises_only P (body x)) → raises_only P (for_each xs body).
Proof.
  intros Hbody. induction xs as [|x xs IH]; simpl.
  - apply raises_only_ret.
  - apply raises_only_bind; [apply Hbody | by intros _].
Qed.

Lemma raises_only_mapM {A B : Type} (f : A → M B) (xs : list A) :
  (∀ x, raises_only P (f x)) → raises_only P (mapM f xs).
Proof.
  intros Hf. induction xs as [|x xs IH]; simpl.
  - apply raises_only_ret.
  - apply raises_only_bind; [apply Hf|]. intros y.
    apply raises_only_bind; [exact IH|]. intros ys. apply raises_only_ret.
Qed.

Lemma raises_only_subscript {A : Type} (o : option A) k :
  P (KeyError k) → raises_only P (subscript o k).
Proof.
  destruct o; [intros _; apply raises_only_ret | apply raises_only_raise].
Qed.

Lemma raises_only_py_int v :
  P TypeError → P ValueError → raises_only P (py_int v).
Proof.
  intros HT HV. destruct v as [|b|z|s]; simpl;
    [by apply raises_only_raise | apply raises_only_ret
    | apply raises_only_ret |].
  destruct (int_of_str s);
    [apply raises_only_ret | by apply raises_only_raise].
Qed.

Lemma raises_only_py_mod template n :
  P TypeError → P ValueError → P OverflowError →
  raises_only P (py_mod template n).
Proof.
  intros HT HV HO. unfold py_mod.
  destruct (str_mod template n);
    [apply raises_only_ret | by apply raises_only_raise
    | by apply raises_only_raise | by apply raises_only_raise].
Qed.

End raises_only.

(** One step of an exception proof: the primitives that only write the
    machine never raise. *)
Ltac raises_only_step :=
  first
    [ apply raises_only_ret
    | apply raises_only_raise; done
    | apply raises_only_subscript; done
    | apply raises_only_py_int; done
    | apply raises_only_py_mod; done
    | apply raises_only_for_each; intros
    | apply raises_only_mapM; intros
    | apply raises_only_bind; [|intros]
    | match goal with
      | |- raises_only _ (match ?x with _ => _ end) => destruct x
      | |- raises_only _ (let _ := _ in _) => cbv zeta
      end
    | by intros ? ? ? [=] ].

Ltac raises_only_all := repeat raises_only_step.

(** The bodies of all handlers, for proofs that walk through them. *)
Ltac unfold_read_msg :=
  unfold DisconnectedState.read_msg, UnexpectedInformState.read_msg,
    BaicellsDisconnectedState.read_msg, BaicellsRemWaitState.read_msg,
    WaitEmptyMessageState.read_msg, CheckOptionalParamsState.read_msg,
    CheckOptionalParamsState.after_response,
    SendGetTransientParametersState.read_msg,
    WaitGetTransientParametersState.read_msg,
    WaitGetTransientParametersState.get_next_state,
    GetParametersState.read_msg, WaitGetParametersState.read_msg,
    EnodebAcsState.read_msg, WaitGetObjectParametersState.read_msg,
    WaitGetObjectParametersState.build_desired_config_if_none,
    DeleteObjectsState.read_msg, DeleteObjectsState.after_response,
    AddObjectsState.read_msg, AddObjectsState.after_response,
    WaitSetParameterValuesState.read_msg,
    WaitSetParameterValuesState._mark_as_configured,
    SendRebootState.read_msg, WaitRebootResponseState.read_msg,
    WaitInformMRebootState.read_msg, WaitRebootDelayState.read_msg,
    ErrorState.read_msg in *.

Ltac unfold_get_msg :=
  unfold DisconnectedState.get_msg, UnexpectedInformState.get_msg,
    BaicellsDisconnectedState.get_msg, BaicellsRemWaitState.get_msg,
    CheckOptionalParamsState.get_msg,
    SendGetTransientParametersState.get_msg,
    GetParametersState.get_msg, GetObjectParametersState.get_msg,
    EnodebAcsState.get_msg, DeleteObjectsState.get_msg,
    AddObjectsState.get_msg, SetParameterValuesState.get_msg,
    SetParameterValuesNotAdminState.get_msg,
    SetParameterValuesState.build_request,
    SetParameterValuesState.name_value,
    SendRebootState.get_msg, WaitRebootResponseState.get_msg,
    WaitInformMRebootState.get_msg, WaitRebootDelayState.get_msg,
    ErrorState.get_msg in *.

(** ** Sending never writes the stores *)

(** X1. [get_msg], in every state and whether it returns or raises, leaves the
    ACS context as it was: device and desired configuration, data model and
    the calls made so far.  All it can change is what the state stashes in
    itself: [optional_param] of [CheckOptionalParamsState], [deleted_param]
    of [DeleteObjectsState] and [added_param] of [AddObjectsState]; the
    class and the transition targets of these three stay, and every other
    state instance is left exactly as it was. *)
Theorem get_msg_keeps_acs
    `{PyBuiltins, ParameterName.Names, DataModel.Schema, AcsStateUtils}
    (σ : Machine) :
  let σ' := (get_msg σ).2 in
  acs σ' = acs σ
  ∧ match self σ with
    | CheckOptionalParamsState when_done _ =>
        ∃ optional_param,
          self σ' = CheckOptionalParamsState when_done optional_param
    | DeleteObjectsState _ when_add when_skip =>
        ∃ deleted_param,
          self σ' = DeleteObjectsState deleted_param when_add when_skip
    | AddObjectsState when_done _ =>
        ∃ added_param, self σ' = AddObjectsState when_done added_param
    | s => self σ' = s
    end.
Proof.
  destruct σ as [s a]. split.
  - unfold get_msg; simpl.
    destruct s;
      match goal with
      | |- acs (?m ?σ).2 = _ => enough (keeps acs m) as Hm by apply (Hm σ)
      end;
      unfold_get_msg; keeps_all.
  - unfold get_msg; simpl.
    destruct s; simpl;
      try solve
        [ reflexivity
        | match goal with
          | |- self (?m ?σ).2 = _ =>
              enough (keeps self m) as Hm by exact (Hm σ)
          end;
          unfold_get_msg; keeps_all ].
    + unfold CheckOptionalParamsState.get_msg. unfold_monad. simpl.
      destruct (get_optional_param_to_check (acs_data_model a));
        by eexists.
    + unfold DeleteObjectsState.get_msg. unfold_monad. simpl.
      destruct (get_all_objects_to_delete (desired_cfg a) (device_cfg a));
        by eexists.
    + unfold AddObjectsState.get_msg. unfold_monad. simpl.
      destruct (get_all_objects_to_add (desired_cfg a) (device_cfg a));
        by eexists.
Qed.

(** ** Which handler raises what *)

(** X2. [read_msg] raises [ConfigurationError] exactly in the three classes that
    do not define it ([GetObjectParametersState], [SetParameterValuesState],
    [SetParameterValuesNotAdminState]), for every message and with the
    machine untouched; the text names the class.  No other state's
    [read_msg] ever raises it, nor [IndexError]. *)
Theorem read_msg_configuration_error
    `{PyBuiltins, ParameterName.Names, DataModel.Schema, AcsStateUtils}
    (message : Message) (σ : Machine) :
  if implements_read_msg (self σ)
  then
    match (read_msg message σ).1 with
    | Raise e => is_ConfigurationError e = false ∧ e ≠ IndexError
    | Ok _ => True
    end
  else
    read_msg message σ
    = (Raise (ConfigurationError
                (class_name (self σ)
                 +:+ " should implement read_msg() if it "
                 +:+ "needs to handle message reading")), σ).
Proof.
  destruct σ as [s a]. unfold read_msg; simpl.
  destruct s; simpl; try reflexivity;
    match goal with
    | |- match (?m ?σ).1 with _ => _ end =>
        enough (raises_only
                  (λ e, is_ConfigurationError e = false ∧ e ≠ IndexError) m)
          as Hm
          by (specialize (Hm σ); destruct (m σ) as [[r|e] σ']; [done|];
              by eapply Hm)
    end;
    unfold_read_msg; raises_only_all.
Qed.

(** X3. [get_msg] raises [ConfigurationError] exactly in the five classes that
    do not define it (the states that only wait for a response), with the
    machine untouched; no other state's [get_msg] ever raises it, nor
    [KeyError]. *)
Theorem get_msg_configuration_error
    `{PyBuiltins, ParameterName.Names, DataModel.Schema, AcsStateUtils}
    (σ : Machine) :
  if implements_get_msg (self σ)
  then
    match (get_msg σ).1 with
    | Raise e => is_ConfigurationError e = false ∧ ∀ k, e ≠ KeyError k
    | Ok _ => True
    end
  else
    get_msg σ
    = (Raise (ConfigurationError
                (class_name (self σ)
                 +:+ " should implement get_msg() if it "
                 +:+ "needs to produce messages")), σ).
Proof.
  destruct σ as [s a]. unfold get_msg; simpl.
  destruct s; simpl; try reflexivity;
    match goal with
    | |- match (?m ?σ).1 with _ => _ end =>
        enough (raises_only
                  (λ e, is_ConfigurationError e = false ∧ ∀ k, e ≠ KeyError k)
                  m) as Hm
          by (specialize (Hm σ); destruct (m σ) as [[r|e] σ']; [done|];
              by eapply Hm)
    end;
    unfold_get_msg; raises_only_all.
Qed.

(** Closes a case of [read_msg] that ended in a [Tr069Error]: either no
    branch of the handler can raise one, or it was raised at once. *)
Ltac tr069_case Hrun :=
  repeat match type of Hrun with
         | (if ?b then _ else _) _ = _ => destruct b
         end;
  first
    [ exfalso;
      match type of Hrun with
      | ?m ?σ = _ =>
          assert (raises_only (λ e, is_Tr069Error e = false) m) as Hm
            by raises_only_all;
          apply Hm in Hrun; discriminate Hrun
      end
    | unfold raise, mret, M_ret in Hrun; by simplify_eq ].

(** X4. A [Tr069Error] out of [read_msg] is raised before the handler has
    written anything: the machine, and with it [device_cfg], [desired_cfg]
    and the data model, is the one the handler was given.  This holds in
    every state and for every message. *)
Theorem read_msg_tr069_error_writes_nothing
    `{PyBuiltins, ParameterName.Names, DataModel.Schema, AcsStateUtils}
    (message : Message) (σ σ' : Machine) (text : string) :
  read_msg message σ = (Raise (Tr069Error text), σ') → σ' = σ.
Proof.
  intros Hrun. destruct σ as [s a]. unfold read_msg in Hrun; simpl in Hrun.
  destruct s, message; unfold_read_msg; tr069_case Hrun.
Qed.

(** ** Which reading writes what *)

Ltac frame_case :=
  lazymatch goal with
  | |- True => exact I
  | |- self (?m ?σ).2 = _ =>
      let Hm := fresh "Hm" in
      enough (keeps self m) as Hm by exact (Hm σ);
      unfold_read_msg; keeps_all
  | |- ?view (acs (?m ?σ).2) = _ =>
      let Hm := fresh "Hm" in
      enough (keeps (λ τ, view (acs τ)) m) as Hm by exact (Hm σ);
      unfold_read_msg; keeps_all
  end.

(** X5. What [read_msg] can write, state by state, whether it returns or
    raises: the data model's presence flags change in
    [CheckOptionalParamsState] only; [desired_cfg] changes in
    [WaitGetObjectParametersState] only; the stats and metrics sinks and the
    builder are called in [WaitGetTransientParametersState] and
    [WaitGetObjectParametersState] only; and the state instance itself
    changes in [WaitInformMRebootState] only. *)
Theorem read_msg_frame
    `{PyBuiltins, ParameterName.Names, DataModel.Schema, AcsStateUtils}
    (message : Message) (σ : Machine) :
  let σ' := (read_msg message σ).2 in
  match self σ with
  | CheckOptionalParamsState _ _ => True
  | _ => acs_data_model (acs σ') = acs_data_model (acs σ)
  end
  ∧ match self σ with
    | WaitGetObjectParametersState _ _ _ _ => True
    | _ => desired_cfg (acs σ') = desired_cfg (acs σ)
    end
  ∧ match self σ with
    | WaitGetTransientParametersState _ _ _ _ _ _
    | WaitGetObjectParametersState _ _ _ _ => True
    | _ => calls (acs σ') = calls (acs σ)
    end
  ∧ match self σ with
    | WaitInformMRebootState _ _ _ => True
    | _ => self σ' = self σ
    end.
Proof.
  destruct σ as [s a]. unfold read_msg; simpl.
  destruct s; simpl; repeat split; frame_case.
Qed.

(** ** Storing what a get response returned *)

Section storing_responses.
Context `{ParameterName.Names, DataModel.Schema, AcsStateUtils}.

Lemma dict_get_elem_of {V : Type} (d : list (string * V)) k v :
  NoDup (dict_keys d) → (k, v) ∈ d → dict_get d k = Some v.
Proof.
  unfold dict_keys. induction d as [|[k' v'] rest IH]; intros Hnd Hin.
  - by apply elem_of_nil in Hin.
  - simpl in Hnd. apply NoDup_cons in Hnd as [Hk' Hnd]. simpl.
    apply elem_of_cons in Hin as [[= -> ->]|Hin].
    + by rewrite decide_True.
    + rewrite decide_False; [by apply IH|].
      intros ->. apply Hk'. apply list_elem_of_fmap. by exists (k, v).
Qed.

(** The loop [for name in name_to_val] over a part of the dict's items
    writes exactly these items. *)
Lemma for_each_key_write_params (d items : list (string * value)) σ :
  Forall (λ item, dict_get d item.1 = Some item.2) items →
  for_each (dict_keys items) (λ name,
    val ← subscript (dict_get d name) name;
    let magma_val := DataModel.transform_for_magma name val in
    update_device_cfg
      (λ cfg, EnodebConfiguration.set_parameter cfg name magma_val)) σ
  = (Ok (), with_device_cfg σ (write_params (device_cfg (acs σ)) items)).
Proof.
  revert σ. induction items as [|[k v] rest IH]; intros σ Hall.
  - simpl. by rewrite with_device_cfg_id.
  - apply Forall_cons in Hall as [Hk Hall]. simpl in Hk.
    unfold dict_keys. simpl. erewrite bind_Ok; [|by rewrite Hk].
    unfold dict_keys in IH. by rewrite IH.
Qed.

End storing_responses.

(** X6. [WaitGetParametersState.read_msg]: a [GetParameterValuesResponse] is
    handled with the done transition and only [device_cfg] changes: every
    parsed value is stored under its name through [transform_for_magma]
    (the parsed dict has distinct keys), every other parameter and every
    object keeps its value; an empty response stores nothing and still
    transitions.  Any other message is not handled. *)
Theorem wait_get_parameters_read_msg
    `{PyBuiltins, ParameterName.Names, DataModel.Schema, AcsStateUtils}
    (when_done : string) (a : Acs) (message : Message) :
  let σ := mkMachine (WaitGetParametersState when_done) a in
  match message with
  | GetParameterValuesResponse _ =>
      let name_to_val :=
        parse_get_parameter_values_response (acs_data_model a) message in
      let device_cfg' := write_params (device_cfg a) name_to_val in
      read_msg message σ
      = (Ok (mkAcsReadMsgResult true (Some when_done)),
         with_device_cfg σ device_cfg')
      ∧ (NoDup (dict_keys name_to_val) →
         ∀ name val, (name, val) ∈ name_to_val →
           EnodebConfiguration.get_parameter device_cfg' name
           = Some (DataModel.transform_for_magma name val))
      ∧ (∀ name, name ∉ dict_keys name_to_val →
           EnodebConfiguration.get_parameter device_cfg' name
           = EnodebConfiguration.get_parameter (device_cfg a) name)
      ∧ EnodebConfiguration.numbered_objects device_cfg'
        = EnodebConfiguration.numbered_objects (device_cfg a)
      ∧ (name_to_val = [] → device_cfg' = device_cfg a)
  | _ => read_msg message σ = (Ok (mkAcsReadMsgResult false None), σ)
  end.
Proof.
  intros σ. destruct message; try reflexivity.
  intros name_to_val device_cfg'. repeat split.
  - unfold read_msg; simpl. unfold WaitGetParametersState.read_msg.
    erewrite bind_Ok; [|reflexivity].
    erewrite bind_Ok; [reflexivity|]. apply for_each_set_parameter.
  - intros Hnd name val Hin. by apply write_params_lookup.
  - intros name Hname. by apply write_params_lookup_notin.
  - apply write_params_objects.
  - intros Hempty. subst device_cfg'. by rewrite Hempty.
Qed.

(** X7. [WaitGetTransientParametersState.read_msg] on a response that carries
    [RF_TX_STATUS]: the message is handled, every parsed value is stored
    under its name through [transform_for_magma], the status metrics are
    updated exactly once (after [clear_stats], if the radio stopped), and
    the next state is the one the priority ladder picks on the updated
    device store.  The state instance, [desired_cfg] and the data model are
    untouched. *)
Theorem wait_get_transient_read_msg_stores
    `{PyBuiltins, ParameterName.Names, DataModel.Schema, AcsStateUtils}
    (when_get when_get_obj_params when_delete when_add when_set when_skip
       : string)
    (a : Acs) (structs : list ParameterValueStruct) (next_rf_tx : value) :
  let s :=
    WaitGetTransientParametersState when_get when_get_obj_params
      when_delete when_add when_set when_skip in
  let message := GetParameterValuesResponse structs in
  let name_to_val :=
    parse_get_parameter_values_response (acs_data_model a) message in
  let prev_rf_tx :=
    default (VBool false)
      (EnodebConfiguration.get_parameter (device_cfg a)
         ParameterName.RF_TX_STATUS) in
  let a' :=
    mkAcs (write_params (device_cfg a) name_to_val) (desired_cfg a)
      (acs_data_model a)
      (calls a
       ++ (if is_True prev_rf_tx && is_False next_rf_tx
           then [clear_stats] else [])
       ++ [update_status_metrics]) in
  NoDup (dict_keys name_to_val) →
  dict_get name_to_val ParameterName.RF_TX_STATUS = Some next_rf_tx →
  read_msg message (mkMachine s a)
  = (Ok (mkAcsReadMsgResult true
           (Some (ladder when_get when_get_obj_params when_delete when_add
                    when_skip a'))),
     mkMachine s a')
  ∧ (∀ name val, (name, val) ∈ name_to_val →
       EnodebConfiguration.get_parameter (device_cfg a') name
       = Some (DataModel.transform_for_magma name val)).
Proof.
  intros s message name_to_val prev_rf_tx a' Hnd Hnext.
  split; [|intros name val Hin; by apply write_params_lookup].
  unfold read_msg; simpl.
  unfold WaitGetTransientParametersState.read_msg.
  erewrite bind_Ok; [|reflexivity]. simpl. fold message name_to_val.
  set (σ := mkMachine s a).
  assert (Hprev :
    (if EnodebConfiguration.has_parameter (device_cfg a)
          ParameterName.RF_TX_STATUS
     then subscript
            (EnodebConfiguration.get_parameter (device_cfg a)
               ParameterName.RF_TX_STATUS) ParameterName.RF_TX_STATUS
     else mret (VBool false)) σ = (Ok prev_rf_tx, σ)).
  { subst prev_rf_tx.
    unfold EnodebConfiguration.has_parameter,
      EnodebConfiguration.get_parameter.
    destruct (EnodebConfiguration.param_to_value (device_cfg a)
                !! ParameterName.RF_TX_STATUS) as [v|] eqn:Hv.
    - rewrite bool_decide_eq_true_2 by by eexists. reflexivity.
    - rewrite bool_decide_eq_false_2 by (intros [? ?]; done). reflexivity. }
  erewrite bind_Ok; [|exact Hprev].
  rewrite Hnext. erewrite bind_Ok; [|reflexivity].
  set (edge := is_True prev_rf_tx && is_False next_rf_tx) in *.
  set (σ1 := with_calls σ (if edge then [clear_stats] else [])).
  assert (Hedge :
    (if edge then record_call clear_stats else mret ()) σ = (Ok (), σ1)).
  { subst σ1. destruct edge; [reflexivity|]. by rewrite with_calls_nil. }
  erewrite bind_Ok; [|exact Hedge].
  erewrite bind_Ok;
    [|apply (for_each_key_write_params name_to_val name_to_val σ1);
      apply Forall_forall; intros [k v] Hin; by apply dict_get_elem_of].
  erewrite bind_Ok; [|reflexivity].
  erewrite bind_Ok; [|apply get_next_state_run].
  subst a' σ1 σ. unfold with_calls, with_device_cfg. simpl.
  by rewrite <- !app_assoc.
Qed.

(** ** WaitGetObjectParameters *)

Section wait_get_object_parameters.
Context `{PyBuiltins, ParameterName.Names, DataModel.Schema, AcsStateUtils}.

Lemma subscript_inv_Ok {A : Type} (o : option A) k σ x σ' :
  subscript o k σ = (Ok x, σ') → o = Some x ∧ σ' = σ.
Proof. destruct o; unfold_monad; intros [=]; by subst. Qed.

Lemma py_int_inv_Ok v σ n σ' : py_int v σ = (Ok n, σ') → σ' = σ.
Proof.
  intros Hrun. pose proof (keeps_py_int id v σ) as Hk.
  rewrite Hrun in Hk. exact Hk.
Qed.

Lemma object_ladder_run (when_delete when_add when_set when_skip : string) σ :
  (a ← get_acs;
   if nonempty (get_all_objects_to_delete (desired_cfg a) (device_cfg a))
   then mret (mkAcsReadMsgResult true (Some when_delete))
   else if nonempty (get_all_objects_to_add (desired_cfg a) (device_cfg a))
   then mret (mkAcsReadMsgResult true (Some when_add))
   else if nonempty (get_all_param_values_to_set (desired_cfg a)
                       (device_cfg a) (acs_data_model a) false)
   then mret (mkAcsReadMsgResult true (Some when_set))
   else mret (mkAcsReadMsgResult true (Some when_skip))) σ
  = (Ok (mkAcsReadMsgResult true
           (Some (object_ladder when_delete when_add when_set when_skip
                    (acs σ)))), σ).
Proof.
  unfold object_ladder. unfold_monad.
  destruct (get_all_objects_to_delete _ _); [|done].
  destruct (get_all_objects_to_add _ _); [|done].
  by destruct (get_all_param_values_to_set _ _ _ _).
Qed.

Lemma build_desired_config_if_none_run σ :
  WaitGetObjectParametersState.build_desired_config_if_none σ
  = (Ok (),
     match desired_cfg (acs σ) with
     | Some _ => σ
     | None =>
         mkMachine (self σ)
           (mkAcs (device_cfg (acs σ))
              (Some (build_desired_config (device_cfg (acs σ))
                       (acs_data_model (acs σ))))
              (acs_data_model (acs σ))
              (calls (acs σ) ++ [build_desired_config_call]))
     end).
Proof.
  unfold WaitGetObjectParametersState.build_desired_config_if_none.
  destruct σ as [s [cfg [d|] dm cs]]; reflexivity.
Qed.

End wait_get_object_parameters.

(** X8. [WaitGetObjectParametersState.read_msg] when it returns: the message is
    handled; a desired configuration exists afterwards, the one that
    existed before or else the one built from the device store as the
    object loop left it, with the builder called exactly then; the next
    state is the first match among objects to delete, objects to add and
    values to set, else the skip target, computed on the stores as they are
    afterwards; the state instance and the data model are untouched. *)
Theorem wait_get_object_parameters_read_msg_returns
    `{PyBuiltins, ParameterName.Names, DataModel.Schema, AcsStateUtils}
    (when_delete when_add when_set when_skip : string)
    (a : Acs) (structs : list ParameterValueStruct)
    (r : AcsReadMsgResult) (σ' : Machine) :
  let s :=
    WaitGetObjectParametersState when_delete when_add when_set when_skip in
  read_msg (GetParameterValuesResponse structs) (mkMachine s a) = (Ok r, σ') →
  r = mkAcsReadMsgResult true
        (Some (object_ladder when_delete when_add when_set when_skip
                 (acs σ')))
  ∧ desired_cfg (acs σ')
    = Some (default (build_desired_config (device_cfg (acs σ'))
                       (acs_data_model a))
              (desired_cfg a))
  ∧ calls (acs σ')
    = (calls a
       ++ if desired_cfg a is None then [build_desired_config_call] else [])%list
  ∧ acs_data_model (acs σ') = acs_data_model a
  ∧ self σ' = s.
Proof.
  intros s Hrun. unfold read_msg in Hrun; simpl in Hrun.
  unfold WaitGetObjectParametersState.read_msg in Hrun.
  apply bind_inv_Ok in Hrun as (a0 & σ0 & [= <- <-] & Hrun).
  apply bind_inv_Ok in Hrun as (v & σ1 & Hv & Hrun).
  apply subscript_inv_Ok in Hv as [_ ->].
  apply bind_inv_Ok in Hrun as (n & σ1 & Hn & Hrun).
  apply py_int_inv_Ok in Hn as ->.
  apply bind_inv_Ok in Hrun as ([] & σ1 & Hloop & Hrun).
  assert (Hframe : beside_device_cfg σ1
                   = beside_device_cfg (mkMachine s a)).
  { match type of Hloop with
    | ?m ?σ = _ =>
        assert (keeps beside_device_cfg m) as Hk by keeps_all;
        specialize (Hk σ); by rewrite Hloop in Hk
    end. }
  apply bind_inv_Ok in Hrun as ([] & σ2 & Hbuild & Hrun).
  rewrite build_desired_config_if_none_run in Hbuild.
  injection Hbuild as <-.
  rewrite object_ladder_run in Hrun.
  destruct σ1 as [s1 [cfg1 desired1 dm1 cs1]].
  injection Hframe as -> -> -> ->.
  injection Hrun as <- <-. simpl.
  destruct (desired_cfg a) as [d|]; simpl; repeat split.
  by rewrite app_nil_r.
Qed.

(** X9. [WaitGetObjectParametersState.read_msg] at its edges.  Without a
    stored [NUM_PLMNS] the subscript raises [KeyError] and nothing has been
    touched.  Whatever it raises, it raises before the desired configuration
    is looked at: [desired_cfg], the data model, the recorded calls and the
    state instance are as before, only object sub-parameters written before
    the failure remain.  With a stored count of zero or less the object loop
    does not run: the message is handled and the device store is
    unchanged. *)
Theorem wait_get_object_parameters_read_msg_edges
    `{PyBuiltins, ParameterName.Names, DataModel.Schema, AcsStateUtils}
    (when_delete when_add when_set when_skip : string)
    (a : Acs) (structs : list ParameterValueStruct) :
  let σ :=
    mkMachine
      (WaitGetObjectParametersState when_delete when_add when_set when_skip)
      a in
  let message := GetParameterValuesResponse structs in
  (EnodebConfiguration.get_parameter (device_cfg a) ParameterName.NUM_PLMNS
   = None →
   read_msg message σ = (Raise (KeyError ParameterName.NUM_PLMNS), σ))
  ∧ (∀ e σ', read_msg message σ = (Raise e, σ') →
       beside_device_cfg σ' = beside_device_cfg σ)
  ∧ (∀ n, EnodebConfiguration.get_parameter (device_cfg a)
            ParameterName.NUM_PLMNS = Some (VInt n) →
          (n ≤ 0)%Z →
          ∃ r σ', read_msg message σ = (Ok r, σ')
                  ∧ msg_handled r = true
                  ∧ device_cfg (acs σ') = device_cfg a).
Proof.
  intros σ message. split; [|split].
  - intros Hnone. unfold read_msg; simpl.
    unfold WaitGetObjectParametersState.read_msg.
    erewrite bind_Ok; [|reflexivity]. simpl. by rewrite Hnone.
  - intros e σ' Hrun. unfold read_msg in Hrun; simpl in Hrun.
    unfold WaitGetObjectParametersState.read_msg in Hrun.
    apply bind_inv_Raise in Hrun as [[=] | (a0 & σ0 & [= <- <-] & Hrun)].
    apply bind_inv_Raise in Hrun as [Hrun | (v & σ1 & Hv & Hrun)].
    { pose proof (keeps_subscript id
                    (EnodebConfiguration.get_parameter (device_cfg a)
                       ParameterName.NUM_PLMNS)
                    ParameterName.NUM_PLMNS σ) as Hk.
      rewrite Hrun in Hk. simpl in Hk. by rewrite Hk. }
    apply subscript_inv_Ok in Hv as [_ ->].
    apply bind_inv_Raise in Hrun as [Hrun | (n & σ1 & Hn & Hrun)].
    { pose proof (keeps_py_int id v σ) as Hk.
      rewrite Hrun in Hk. simpl in Hk. by rewrite Hk. }
    apply py_int_inv_Ok in Hn as ->.
    assert (Hloop : ∀ o σ1,
      for_each (seqZ 1 n) (λ i,
        obj_name ← py_mod ParameterName.PLMN_N i;
        let obj_to_params := DataModel.get_numbered_param_names in
        param_name_list ← subscript (obj_to_params !! obj_name) obj_name;
        for_each param_name_list (λ name,
          let path := DataModel.path (DataModel.get_parameter name) in
          value ←
            subscript
              (WaitGetObjectParametersState.path_to_val structs !! path)
              path;
          let magma_val := DataModel.transform_for_magma name value in
          update_device_cfg
            (λ cfg, EnodebConfiguration.set_parameter_for_object
                      cfg name magma_val obj_name))) σ = (o, σ1) →
      beside_device_cfg σ1 = beside_device_cfg σ).
    { intros o σ1 Hl.
      match type of Hl with
      | ?m ?τ = _ =>
          assert (keeps beside_device_cfg m) as Hk by keeps_all;
          specialize (Hk τ); by rewrite Hl in Hk
      end. }
    apply bind_inv_Raise in Hrun as [Hrun | ([] & σ1 & Hl & Hrun)].
    { by eapply Hloop. }
    apply Hloop in Hl.
    apply bind_inv_Raise in Hrun as [Hrun | ([] & σ2 & Hbuild & Hrun)].
    { by rewrite build_desired_config_if_none_run in Hrun. }
    by rewrite object_ladder_run in Hrun.
  - intros n Hn Hle. unfold read_msg; simpl.
    unfold WaitGetObjectParametersState.read_msg.
    erewrite bind_Ok; [|reflexivity]. simpl. rewrite Hn.
    erewrite bind_Ok; [|reflexivity].
    erewrite bind_Ok; [|reflexivity].
    rewrite seqZ_nil by done. simpl.
    erewrite bind_Ok; [|reflexivity].
    erewrite bind_Ok; [|apply build_desired_config_if_none_run].
    rewrite object_ladder_run. eexists _, _. split; [reflexivity|].
    split; [done|]. simpl. by destruct (desired_cfg a).
Qed.

(** X10. In the response of [WaitGetObjectParametersState.read_msg], a path that
    is listed more than once counts with its last value, and a path that is
    not listed has none. *)
Theorem path_to_val_last_wins (structs : list ParameterValueStruct)
    (path : string) :
  WaitGetObjectParametersState.path_to_val structs !! path
  = (λ pvs, Data (Value pvs)) <$> last (filter (λ pvs, Name pvs = path) structs).
Proof.
  unfold WaitGetObjectParametersState.path_to_val.
  induction structs as [|pvs structs IH] using rev_ind; [done|].
  rewrite foldl_snoc, filter_app, filter_cons, filter_nil.
  destruct (decide (Name pvs = path)) as [<-|Hne].
  - by rewrite lookup_insert_eq, last_snoc.
  - by rewrite lookup_insert_ne, app_nil_r.
Qed.

(** ** DeleteObjects and AddObjects *)

(** X11. One exchange of [DeleteObjectsState].  With nothing to delete,
    [get_msg] fails with [IndexError] and changes nothing.  Otherwise it
    asks to delete the first object of the list and remembers its name; a
    [DeleteObjectResponse] with [Status] 0 then removes exactly that object
    from the device store and the state loops while objects to delete
    remain, else goes on to the skip target when nothing is to add and to
    the add target otherwise; a non-zero [Status] and a [Fault] raise
    [Tr069Error] and change nothing. *)
Theorem delete_objects_exchange
    `{PyBuiltins, ParameterName.Names, DataModel.Schema, AcsStateUtils}
    (deleted_param : option string) (when_add when_skip : string) (a : Acs) :
  let σ := mkMachine (DeleteObjectsState deleted_param when_add when_skip) a in
  match get_all_objects_to_delete (desired_cfg a) (device_cfg a) with
  | [] => get_msg σ = (Raise IndexError, σ)
  | name :: _ =>
      let σ1 := mkMachine (DeleteObjectsState (Some name) when_add when_skip)
                  a in
      let cfg' := EnodebConfiguration.delete_object (device_cfg a) (Some name) in
      let σ2 := with_device_cfg σ1 cfg' in
      get_msg σ
      = (Ok (mkAcsMsgAndTransition
               (DeleteObject (DataModel.path (DataModel.get_parameter name)))
               None), σ1)
      ∧ (∀ Status,
           read_msg (DeleteObjectResponse Status) σ1
           = if decide (Status = 0)
             then
               (Ok (mkAcsReadMsgResult true
                      match get_all_objects_to_delete (desired_cfg a) cfg',
                            get_all_objects_to_add (desired_cfg a) cfg' with
                      | _ :: _, _ => None
                      | [], [] => Some when_skip
                      | [], _ :: _ => Some when_add
                      end), σ2)
             else
               (Raise (Tr069Error
                         ("Received DeleteObjectResponse with Status="
                          +:+ str_Z Status)), σ1))
      ∧ (∀ code text detail,
           read_msg (Fault code text detail) σ1
           = (Raise (Tr069Error
                       ("Received Fault in response to DeleteObject "
                        +:+ "(faultstring = " +:+ text +:+ ")")), σ1))
      ∧ (∀ obj_name,
           EnodebConfiguration.numbered_objects cfg' !! obj_name
           = if decide (obj_name = name) then None
             else EnodebConfiguration.numbered_objects (device_cfg a)
                    !! obj_name)
      ∧ EnodebConfiguration.param_to_value cfg'
        = EnodebConfiguration.param_to_value (device_cfg a)
  end.
Proof.
  intros σ. unfold get_msg; simpl. unfold DeleteObjectsState.get_msg.
  unfold_monad; simpl.
  destruct (get_all_objects_to_delete (desired_cfg a) (device_cfg a))
    as [|name rest]; [done|].
  split; [reflexivity|]. split; [|split; [done|split; [|done]]].
  - intros Status. unfold read_msg; simpl.
    unfold DeleteObjectsState.read_msg.
    destruct (decide (Status = 0)) as [->|Hne].
    + rewrite bool_decide_eq_false_2 by (intros ?; done).
      unfold DeleteObjectsState.after_response. unfold_monad. simpl.
      unfold nonempty.
      destruct (get_all_objects_to_delete (desired_cfg a) _); [|done].
      by destruct (get_all_objects_to_add (desired_cfg a) _).
    + by rewrite bool_decide_eq_true_2.
  - intros obj_name. rewrite lookup_delete.
    destruct (decide (name = obj_name)), (decide (obj_name = name));
      congruence.
Qed.

(** X12. One exchange of [AddObjectsState].  With nothing to add, [get_msg]
    fails with [IndexError] and changes nothing.  Otherwise it asks to add
    the first template of the list and remembers it; an
    [AddObjectResponse] with [Status] 0 then records the object named by the
    template filled with the response's [InstanceNumber] in the device
    store, touching no scalar parameter and no other object, and the state
    loops while objects to add remain, else takes the done transition; a
    template that cannot be filled raises the [TypeError], [ValueError] or
    [OverflowError] the formatting operator raises for it, a non-zero
    [Status] and a [Fault] raise [Tr069Error], none of them changing
    anything.  A
    response read before any request was sent finds [None] in place of a
    template, and [None % n] raises [TypeError]. *)
Theorem add_objects_exchange
    `{PyBuiltins, ParameterName.Names, DataModel.Schema, AcsStateUtils}
    (when_done : string) (added_param : option string) (a : Acs) :
  let σ := mkMachine (AddObjectsState when_done added_param) a in
  match get_all_objects_to_add (desired_cfg a) (device_cfg a) with
  | [] => get_msg σ = (Raise IndexError, σ)
  | template :: _ =>
      let σ1 := mkMachine (AddObjectsState when_done (Some template)) a in
      get_msg σ
      = (Ok (mkAcsMsgAndTransition
               (AddObject (DataModel.path (DataModel.get_parameter template)))
               None), σ1)
      ∧ (∀ InstanceNumber Status,
           read_msg (AddObjectResponse InstanceNumber Status) σ1
           = if decide (Status = 0)
             then
               match str_mod template InstanceNumber with
               | Formatted obj_name =>
                   let cfg' :=
                     EnodebConfiguration.add_object (device_cfg a) obj_name in
                   (Ok (mkAcsReadMsgResult true
                          match get_all_objects_to_add (desired_cfg a) cfg'
                          with
                          | _ :: _ => None
                          | [] => Some when_done
                          end), with_device_cfg σ1 cfg')
               | FormatTypeError => (Raise TypeError, σ1)
               | FormatValueError => (Raise ValueError, σ1)
               | FormatOverflowError => (Raise OverflowError, σ1)
               end
             else
               (Raise (Tr069Error
                         ("Received AddObjectResponse with Status="
                          +:+ str_Z Status)), σ1))
      ∧ (∀ code text detail,
           read_msg (Fault code text detail) σ1
           = (Raise (Tr069Error
                       ("Received Fault in response to AddObject "
                        +:+ "(faultstring = " +:+ text +:+ ")")), σ1))
  end
  ∧ (∀ InstanceNumber,
       read_msg (AddObjectResponse InstanceNumber 0)
         (mkMachine (AddObjectsState when_done None) a)
       = (Raise TypeError, mkMachine (AddObjectsState when_done None) a))
  ∧ (∀ obj_name other,
       let cfg' := EnodebConfiguration.add_object (device_cfg a) obj_name in
       is_Some (EnodebConfiguration.numbered_objects cfg' !! obj_name)
       ∧ EnodebConfiguration.param_to_value cfg'
         = EnodebConfiguration.param_to_value (device_cfg a)
       ∧ (if decide (other = obj_name) then True
          else EnodebConfiguration.numbered_objects cfg' !! other
               = EnodebConfiguration.numbered_objects (device_cfg a)
                   !! other)).
Proof.
  intros σ. split; [|split].
  - unfold get_msg; simpl. unfold AddObjectsState.get_msg.
    unfold_monad; simpl.
    destruct (get_all_objects_to_add (desired_cfg a) (device_cfg a))
      as [|template rest]; [done|].
    split; [reflexivity|]. split; [|done].
    intros InstanceNumber Status. unfold read_msg; simpl.
    unfold AddObjectsState.read_msg.
    destruct (decide (Status = 0)) as [->|Hne].
    + rewrite bool_decide_eq_false_2 by (intros ?; done).
      unfold AddObjectsState.after_response, py_mod.
      destruct (str_mod template InstanceNumber) as [obj_name| | |];
        [|done..].
      unfold_monad. simpl. unfold nonempty.
      by destruct (get_all_objects_to_add (desired_cfg a) _).
    + by rewrite bool_decide_eq_true_2.
  - done.
  - intros obj_name other cfg'. subst cfg'. simpl. split; [|split; [done|]].
    + rewrite lookup_insert_eq. by eexists.
    + destruct (decide (other = obj_name)); [done|].
      by rewrite lookup_insert_ne.
Qed.

(** ** The requests for parameter values *)

Section requested_paths.
Context `{ParameterName.Names, DataModel.Schema}.

Lemma requested_paths_filter dm (names : list string) :
  SendGetTransientParametersState.requested_paths dm names
  = (λ name, DataModel.path (DataModel.get_parameter name))
      <$> List.filter (DataModel.is_parameter_present dm) names.
Proof.
  induction names as [|name rest IH]; [done|]. simpl.
  destruct (DataModel.is_parameter_present dm name); simpl; by rewrite IH.
Qed.

Lemma filter_length_all {A : Type} (p : A → bool) (l : list A) :
  length (List.filter p l) = length l ↔ Forall (λ x, p x = true) l.
Proof.
  induction l as [|x l IH]; simpl.
  - split; [constructor | done].
  - pose proof (List.filter_length_le p l) as Hle.
    destruct (p x) eqn:Hx; simpl.
    + rewrite Forall_cons. split.
      * intros [= Hlen]. split; [done | by apply IH].
      * intros [_ Hall]. f_equal. by apply IH.
    + rewrite Forall_cons. split; [lia | intros [? _]; congruence].
Qed.

End requested_paths.

(** X13. The array size a [GetParameterValues] request declares against the
    names it lists.  [SendGetTransientParametersState.get_msg] always
    declares [xsd:string[7]], the length of [PARAMETERS], and lists one path
    for every parameter the data model marks present: at most seven, and
    seven only when all are present.  [GetParametersState.get_msg] and
    [GetObjectParametersState.get_msg] declare the number of names they
    list, one per name the helper returned and in its order.  None of the
    three changes the machine, and each carries its done transition. *)
Theorem get_parameter_values_array_sizes
    `{PyBuiltins, ParameterName.Names, DataModel.Schema, AcsStateUtils}
    (when_done : string) (a : Acs) :
  let path name := DataModel.path (DataModel.get_parameter name) in
  let request names :=
    GetParameterValues
      ("xsd:string[" +:+ str_Z (Z.of_nat (length names)) +:+ "]")
      (path <$> names) in
  let present :=
    List.filter (DataModel.is_parameter_present (acs_data_model a))
      SendGetTransientParametersState.PARAMETERS in
  let transient := mkMachine (SendGetTransientParametersState when_done) a in
  let params := mkMachine (GetParametersState when_done) a in
  let objects := mkMachine (GetObjectParametersState when_done) a in
  get_msg transient
  = (Ok (mkAcsMsgAndTransition
           (GetParameterValues "xsd:string[7]" (path <$> present))
           (Some when_done)), transient)
  ∧ (length present ≤ 7)%nat
  ∧ (length present = 7%nat
     ↔ Forall (λ name,
                 DataModel.is_parameter_present (acs_data_model a) name = true)
              SendGetTransientParametersState.PARAMETERS)
  ∧ get_msg params
    = (Ok (mkAcsMsgAndTransition
             (request (get_params_to_get (device_cfg a) (acs_data_model a)))
             (Some when_done)), params)
  ∧ get_msg objects
    = (Ok (mkAcsMsgAndTransition
             (request (get_object_params_to_get (desired_cfg a)
                         (device_cfg a) (acs_data_model a)))
             (Some when_done)), objects).
Proof.
  intros path request present transient params objects.
  split; [|split; [|split; [|split; reflexivity]]].
  - assert (Hdispatch :
      get_msg transient
      = SendGetTransientParametersState.get_msg when_done transient)
      by reflexivity.
    rewrite Hdispatch. unfold SendGetTransientParametersState.get_msg.
    erewrite bind_Ok; [|reflexivity].
    cbv zeta. rewrite requested_paths_filter. reflexivity.
  - apply (List.filter_length_le _ SendGetTransientParametersState.PARAMETERS).
  - apply (filter_length_all _ SendGetTransientParametersState.PARAMETERS).
Qed.

(** ** The shape of a SetParameterValues request *)

Section set_parameter_values_shape.
Context `{PyBuiltins, DataModel.Schema, AcsStateUtils}.

Local Abbreviation tag name := (DataModel.type (DataModel.get_parameter name)).
Local Abbreviation path name := (DataModel.path (DataModel.get_parameter name)).

Lemma name_value_inv_Ok name value σ y σ' :
  SetParameterValuesState.name_value name value σ = (Ok y, σ') →
  σ' = σ ∧ Name y = path name.
Proof.
  unfold SetParameterValuesState.name_value.
  repeat case_bool_decide; simpl; intros Hrun;
    first
      [ by injection Hrun as <- <-
      | discriminate Hrun
      | apply bind_inv_Ok in Hrun as (n & σ1 & Hn & [= <- <-]);
        by apply py_int_inv_Ok in Hn ].
Qed.

Lemma mapM_name_value_inv_Ok (items : list (string * value)) σ ys σ' :
  mapM (λ '(name, value), SetParameterValuesState.name_value name value)
    items σ = (Ok ys, σ') →
  σ' = σ ∧ Name <$> ys = (λ item, path item.1) <$> items.
Proof.
  revert σ ys σ'. induction items as [|[name v] rest IH]; intros σ ys σ'.
  - by intros [= <- <-].
  - simpl. intros Hrun.
    apply bind_inv_Ok in Hrun as (y & σ1 & Hy & Hrun).
    apply bind_inv_Ok in Hrun as (ys' & σ2 & Hys & [= <- <-]).
    apply name_value_inv_Ok in Hy as [-> Hname].
    apply IH in Hys as [-> Hnames]. split; [done|].
    rewrite !fmap_cons. by rewrite Hname, Hnames.
Qed.

Lemma name_value_str name value σ :
  tag name ∈ ["int"; "unsignedInt"; "string"] →
  SetParameterValuesState.name_value name value σ
  = (Ok {| Name := path name;
           Value := {| type_ := "xsd:" +:+ tag name;
                       Data := VStr (py_str
                                       (DataModel.transform_for_enb name
                                          value)) |} |}, σ).
Proof.
  unfold SetParameterValuesState.name_value.
  rewrite !elem_of_cons, elem_of_nil.
  intros [-> | [-> | [-> | []]]]; reflexivity.
Qed.

Lemma mapM_name_value_str (items : list (string * value)) σ :
  Forall (λ item, tag item.1 ∈ ["int"; "unsignedInt"; "string"]) items →
  mapM (λ '(name, value), SetParameterValuesState.name_value name value)
    items σ
  = (Ok ((λ item,
            {| Name := path item.1;
               Value := {| type_ := "xsd:" +:+ tag item.1;
                           Data := VStr (py_str
                                           (DataModel.transform_for_enb
                                              item.1 item.2)) |} |})
           <$> items), σ).
Proof.
  induction items as [|[name v] rest IH]; intros Hall; [done|].
  apply Forall_cons in Hall as [Hitem Hall]. simpl.
  erewrite bind_Ok; [|by apply name_value_str].
  erewrite bind_Ok; [|by apply IH]. reflexivity.
Qed.

Lemma build_request_raises exclude_admin when_done :
  raises_only (λ e, is_Tr069Error e = true ∨ e = TypeError ∨ e = ValueError)
    (SetParameterValuesState.build_request exclude_admin when_done).
Proof.
  unfold SetParameterValuesState.build_request,
    SetParameterValuesState.name_value.
  repeat first
    [ apply raises_only_ret
    | apply raises_only_raise; by auto
    | apply raises_only_py_int; by auto
    | apply raises_only_mapM; intros
    | apply raises_only_bind; [|intros]
    | match goal with
      | |- raises_only _ (match ?x with _ => _ end) => destruct x
      | |- raises_only _ (let _ := _ in _) => cbv zeta
      end
    | by intros ? ? ? [=] ].
Qed.

Lemma build_request_keeps exclude_admin when_done σ :
  (SetParameterValuesState.build_request exclude_admin when_done σ).2 = σ.
Proof.
  enough (keeps id
            (SetParameterValuesState.build_request exclude_admin when_done))
    as Hk by apply (Hk σ).
  unfold SetParameterValuesState.build_request,
    SetParameterValuesState.name_value.
  keeps_all.
Qed.

End set_parameter_values_shape.

(** X14. [get_msg] of [SetParameterValuesState] and of
    [SetParameterValuesNotAdminState] (the same with the administrative
    parameter excluded): the machine is never changed; a returned request
    lists one struct per parameter to set, named by the parameter's path and
    in the dict's order, declares that number as its array size and carries
    the done transition; the only exceptions are [Tr069Error] and the
    [TypeError] and [ValueError] of [int()].  When every parameter is tagged
    [int], [unsignedInt] or [string] the request is always built, each
    value, whatever it is, being sent as [str] prints it. *)
Theorem set_parameter_values_request_shape
    `{PyBuiltins, ParameterName.Names, DataModel.Schema, AcsStateUtils}
    (exclude_admin : bool) (when_done : string) (a : Acs) :
  let σ :=
    mkMachine
      (if exclude_admin then SetParameterValuesNotAdminState when_done
       else SetParameterValuesState when_done) a in
  let param_values :=
    get_all_param_values_to_set (desired_cfg a) (device_cfg a)
      (acs_data_model a) exclude_admin in
  let tag name := DataModel.type (DataModel.get_parameter name) in
  let path name := DataModel.path (DataModel.get_parameter name) in
  let request structs :=
    mkAcsMsgAndTransition
      (SetParameterValues
         ("cwmp:ParameterValueStruct["
          +:+ str_Z (Z.of_nat (length structs)) +:+ "]") structs)
      (Some when_done) in
  (get_msg σ).2 = σ
  ∧ match (get_msg σ).1 with
    | Ok r =>
        ∃ structs,
          r = request structs
          ∧ Name <$> structs = (λ item, path item.1) <$> param_values
    | Raise e => is_Tr069Error e = true ∨ e = TypeError ∨ e = ValueError
    end
  ∧ (Forall (λ item, tag item.1 ∈ ["int"; "unsignedInt"; "string"])
       param_values →
     get_msg σ
     = (Ok (request
              ((λ item,
                  {| Name := path item.1;
                     Value :=
                       {| type_ := "xsd:" +:+ tag item.1;
                          Data := VStr (py_str
                                          (DataModel.transform_for_enb
                                             item.1 item.2)) |} |})
                 <$> param_values)), σ)).
Proof.
  intros σ param_values tag path request.
  assert (Hdispatch :
    get_msg σ = SetParameterValuesState.build_request exclude_admin when_done σ)
    by by destruct exclude_admin.
  rewrite Hdispatch. split; [apply build_request_keeps|]. split.
  - destruct (SetParameterValuesState.build_request exclude_admin when_done σ)
      as [[r|e] σ'] eqn:Hrun; simpl.
    + unfold SetParameterValuesState.build_request in Hrun.
      apply bind_inv_Ok in Hrun as (a0 & σ0 & [= <- <-] & Hrun).
      apply bind_inv_Ok in Hrun as (structs & σ1 & Hmap & [= <- <-]).
      apply mapM_name_value_inv_Ok in Hmap as [_ Hnames].
      exists structs. split; [|exact Hnames].
      subst request. simpl. do 3 f_equal.
      apply (f_equal length) in Hnames. rewrite !length_fmap in Hnames.
      by rewrite Hnames.
    + by eapply build_request_raises.
  - intros Hall. unfold SetParameterValuesState.build_request.
    erewrite bind_Ok; [|reflexivity].
    erewrite bind_Ok; [|by apply mapM_name_value_str].
    subst request. simpl. by rewrite length_fmap.
Qed.

(** ** Exchanges of CheckOptionalParams and WaitInformMReboot *)

(** X15. One exchange of [CheckOptionalParamsState] about the parameter [name]
    that [get_optional_param_to_check] proposes: [get_msg] asks for the
    path of [name] alone; if a [Fault] comes back, [name] is known absent
    afterwards, and if a response with at least one parsed value comes
    back, [name] is known present; either way no other presence flag is
    touched, and a [Fault] leaves [device_cfg] alone. *)
Theorem check_optional_params_exchange
    `{PyBuiltins, ParameterName.Names, DataModel.Schema, AcsStateUtils}
    (when_done : string) (optional_param : option string) (a : Acs)
    (name : string) (message : Message) :
  let σ := mkMachine (CheckOptionalParamsState when_done optional_param) a in
  let dm := acs_data_model a in
  let σ' := (read_msg message (get_msg σ).2).2 in
  let dm' := acs_data_model (acs σ') in
  get_optional_param_to_check dm = Some name →
  (get_msg σ).1
  = Ok (mkAcsMsgAndTransition
          (GetParameterValues "xsd:string[1]"
             [DataModel.path (DataModel.get_parameter name)]) None)
  ∧ match message with
    | Fault _ _ _ =>
        DataModel.is_parameter_present dm' name = false
        ∧ DataModel.presence_by_param dm' !! Some name = Some false
        ∧ device_cfg (acs σ') = device_cfg a
    | GetParameterValuesResponse _ =>
        parse_get_parameter_values_response dm message ≠ [] →
        DataModel.is_parameter_present dm' name = true
    | _ => dm' = dm
    end
  ∧ (∀ other, other ≠ Some name →
       DataModel.presence_by_param dm' !! other
       = DataModel.presence_by_param dm !! other).
Proof.
  intros σ dm σ' dm' Hname.
  assert (Hget :
    get_msg σ
    = (Ok (mkAcsMsgAndTransition
             (GetParameterValues "xsd:string[1]"
                [DataModel.path (DataModel.get_parameter name)]) None),
       mkMachine (CheckOptionalParamsState when_done (Some name)) a)).
  { unfold get_msg; simpl. unfold CheckOptionalParamsState.get_msg.
    unfold_monad; simpl. fold dm. by rewrite Hname. }
  subst dm' σ'. rewrite Hget. simpl. split; [done|].
  set (σ1 := mkMachine (CheckOptionalParamsState when_done (Some name)) a).
  assert (Hkeep : ∀ τ : Machine,
    acs_data_model
      (acs (CheckOptionalParamsState.after_response when_done τ).2)
    = acs_data_model (acs τ)
    ∧ device_cfg
        (acs (CheckOptionalParamsState.after_response when_done τ).2)
      = device_cfg (acs τ)).
  { intros τ. unfold CheckOptionalParamsState.after_response. unfold_monad.
    destruct (get_optional_param_to_check (acs_data_model (acs τ)));
      split; reflexivity. }
  destruct message; try (split; [reflexivity | by intros]).
  - assert (Hrun :
      (read_msg (GetParameterValuesResponse ParameterList) σ1).2
      = (CheckOptionalParamsState.after_response when_done
           (with_device_cfg
              (with_data_model σ1
                 match parse_get_parameter_values_response dm
                         (GetParameterValuesResponse ParameterList) with
                 | [] => dm
                 | _ :: _ =>
                     DataModel.set_parameter_presence dm (Some name) true
                 end)
              (write_params (device_cfg a)
                 (parse_get_parameter_values_response dm
                    (GetParameterValuesResponse ParameterList))))).2).
    { unfold read_msg; simpl. unfold CheckOptionalParamsState.read_msg.
      erewrite bind_Ok; [|reflexivity].
      erewrite bind_Ok; [|apply for_each_mark_present]. reflexivity. }
    rewrite Hrun.
    match goal with
    | |- context [CheckOptionalParamsState.after_response _ ?τ] =>
        destruct (Hkeep τ) as (-> & _)
    end.
    simpl. split.
    + intros Hne.
      destruct (parse_get_parameter_values_response dm _); [done|].
      unfold DataModel.is_parameter_present. simpl.
      by rewrite lookup_insert_eq.
    + intros other Hother.
      destruct (parse_get_parameter_values_response dm _); [done|].
      simpl. by rewrite lookup_insert_ne.
  - assert (Hrun :
      (read_msg (Fault FaultCode0 FaultString0 SetParameterValuesFault0) σ1).2
      = (CheckOptionalParamsState.after_response when_done
           (with_data_model σ1
              (DataModel.set_parameter_presence dm (Some name) false))).2)
      by reflexivity.
    rewrite Hrun.
    match goal with
    | |- context [CheckOptionalParamsState.after_response _ ?τ] =>
        destruct (Hkeep τ) as (-> & ->)
    end.
    simpl. split; [|intros other Hother; by rewrite lookup_insert_ne].
    unfold DataModel.is_parameter_present. simpl.
    by rewrite lookup_insert_eq.
Qed.

Section received_inform.
Context `{PyBuiltins, ParameterName.Names, DataModel.Schema, AcsStateUtils}.

Lemma wait_inform_m_reboot_read_step when_done when_timeout
    (received_inform : bool) (a : Acs) (message : Message) :
  ∃ a',
    (read_msg message
       (mkMachine
          (WaitInformMRebootState when_done when_timeout received_inform) a)).2
    = mkMachine
        (WaitInformMRebootState when_done when_timeout
           (received_inform || is_m_reboot_inform message)) a'.
Proof.
  destruct message; simpl;
    try (exists a; unfold read_msg; simpl; by rewrite orb_false_r).
  unfold read_msg; simpl. unfold WaitInformMRebootState.read_msg.
  destruct (WaitInformMRebootState.is_correct_event Event); simpl.
  - eexists. unfold_monad. simpl. by rewrite orb_true_r.
  - exists a. by rewrite orb_false_r.
Qed.

End received_inform.

(** X16. [WaitInformMRebootState] never forgets the reboot inform.  After the
    state has read any messages in a row, whatever each read returned or
    raised, its [received_inform] is set exactly when it was set before or
    one of the messages was an [Inform] with an ["M Reboot"] event; and
    [get_msg] then answers [InformResponse] with [MaxEnvelopes] 1 and the
    done transition in that case, [DummyInput] without a transition
    otherwise. *)
Theorem received_inform_is_sticky
    `{PyBuiltins, ParameterName.Names, DataModel.Schema, AcsStateUtils}
    (when_done when_timeout : string) (received_inform : bool)
    (a : Acs) (messages : list Message) :
  let σ' :=
    read_all messages
      (mkMachine
         (WaitInformMRebootState when_done when_timeout received_inform) a) in
  let received := received_inform || existsb is_m_reboot_inform messages in
  self σ' = WaitInformMRebootState when_done when_timeout received
  ∧ get_msg σ'
    = (Ok (if received
           then mkAcsMsgAndTransition (InformResponse 1) (Some when_done)
           else mkAcsMsgAndTransition DummyInput None), σ').
Proof.
  intros σ' received.
  assert (Hself :
    self σ' = WaitInformMRebootState when_done when_timeout received).
  { subst σ' received. unfold read_all.
    revert received_inform a.
    induction messages as [|message rest IH]; intros received_inform a.
    - simpl. by rewrite orb_false_r.
    - simpl.
      destruct (wait_inform_m_reboot_read_step when_done when_timeout
                  received_inform a message) as [a' ->].
      rewrite IH. by rewrite orb_assoc. }
  split; [exact Hself|].
  destruct σ' as [s' a']. simpl in Hself. subst s'.
  unfold get_msg; simpl. by destruct received.
Qed.

(** * Runs on the concrete machine *)

Import Demo.

Lemma wait_set_parameter_values_read_msg_witness :
  let a := Demo.provisioned_acs in
  let σ := mkMachine (WaitSetParameterValuesState "end") a in
  NoDup (dict_keys
           (get_param_values_to_set (desired_cfg a) (device_cfg a)
              (acs_data_model a)))
  ∧ (read_msg (SetParameterValuesResponse 0) σ).1
    = Ok (mkAcsReadMsgResult true (Some "end"))
  ∧ EnodebConfiguration.get_parameter
      (device_cfg (acs (read_msg (SetParameterValuesResponse 0) σ).2))
      "Downlink EARFCN" = Some (VInt 39150)
  ∧ EnodebConfiguration.get_parameter_for_object
      (device_cfg (acs (read_msg (SetParameterValuesResponse 0) σ).2))
      "PLMN 1 enable" "PLMN 1" = Some (VBool true).
Proof.
  intros a σ.
  assert (Hd : NoDup (dict_keys
                        (get_param_values_to_set (desired_cfg a)
                           (device_cfg a) (acs_data_model a)))).
  { apply (bool_decide_unpack _). vm_compute. exact I. }
  split; [exact Hd|].
  destruct (wait_set_parameter_values_read_msg "end" a
              (SetParameterValuesResponse 0)) as (Hrun & Hparams & Hobjs).
  - exact Hd.
  - apply (bool_decide_unpack _). vm_compute. exact I.
  - repeat constructor; apply (bool_decide_unpack _); vm_compute; exact I.
  - fold σ in Hrun. rewrite Hrun. split; [reflexivity|]. split.
    + apply (Hparams "Downlink EARFCN" (VInt 39150)).
      apply (bool_decide_unpack _). vm_compute. exact I.
    + apply (Hobjs "PLMN 1" [("PLMN 1 enable", VBool true)]
               "PLMN 1 enable" (VBool true));
        apply (bool_decide_unpack _); vm_compute; exact I.
Defined.

Lemma set_parameter_values_get_msg_types_witness :
  let σ := mkMachine (SetParameterValuesState "wait_set") provisioned_acs in
  let σ_gps := mkMachine (SetParameterValuesState "wait_set") located_acs in
  Forall (λ '(name, v),
            supported_type (DataModel.type (DataModel.get_parameter name))
            = true →
            has_type (DataModel.type (DataModel.get_parameter name))
              (DataModel.transform_for_enb name v))
         (get_all_param_values_to_set (desired_cfg provisioned_acs)
            (device_cfg provisioned_acs) (acs_data_model provisioned_acs)
            false)
  ∧ get_msg σ
    = (Ok (mkAcsMsgAndTransition
             (SetParameterValues "cwmp:ParameterValueStruct[3]"
                [ {| Name := "Device.Admin state";
                     Value := {| type_ := "xsd:boolean"; Data := VStr "1" |} |};
                  {| Name := "Device.Downlink EARFCN";
                     Value := {| type_ := "xsd:unsignedInt";
                                 Data := VStr "39150" |} |};
                  {| Name := "Device.Perf mgmt upload url";
                     Value := {| type_ := "xsd:string";
                                 Data := VStr "http://192.88.99.142/" |} |} ])
             (Some "wait_set")),
       σ)
  ∧ get_msg σ_gps
    = (Raise (Tr069Error "Unsupported type for GPS lat: float"), σ_gps).
Proof.
  intros σ σ_gps.
  assert (Htyped :
    Forall (λ '(name, v),
              supported_type (DataModel.type (DataModel.get_parameter name))
              = true →
              has_type (DataModel.type (DataModel.get_parameter name))
                (DataModel.transform_for_enb name v))
           (get_all_param_values_to_set (desired_cfg provisioned_acs)
              (device_cfg provisioned_acs) (acs_data_model provisioned_acs)
              false)).
  { match goal with
    | |- Forall ?P ?items =>
        let items' := eval vm_compute in items in change (Forall P items')
    end.
    repeat (apply Forall_cons; split;
              [intros _; vm_compute;
               first [reflexivity | left; reflexivity | right; reflexivity]|]).
    constructor. }
  split; [exact Htyped|]. split.
  - destruct (set_parameter_values_get_msg_types "wait_set" provisioned_acs
                Htyped) as [Hmsg _].
    exact Hmsg.
  - destruct (set_parameter_values_get_msg_types "wait_set" located_acs)
      as [Hmsg _]; [|exact Hmsg].
    match goal with
    | |- Forall ?P ?items =>
        let items' := eval vm_compute in items in change (Forall P items')
    end.
    repeat (apply Forall_cons; split;
              [first [ intros _; vm_compute;
                       first [reflexivity | left; reflexivity
                             | right; reflexivity]
                     | intros Hsupported; vm_compute in Hsupported;
                       discriminate Hsupported ]|]).
    constructor.
Defined.

(** C5 as the claim words it fails when a value to set is not of the type
    its tag names: the value is not checked against the tag, so the number
    [5] under a ['boolean'] tag is sent as [xsd:boolean] with the data
    ["5"], which is neither ["0"] nor ["1"], and [True] under an
    ['unsignedInt'] tag is sent as [xsd:unsignedInt] with the data
    ["True"], which is not a decimal numeral. *)
Lemma set_parameter_values_sends_values_unchecked :
  let σ :=
    mkMachine (SetParameterValuesState "wait_set") Unchecked.mistyped_acs in
  let sent := @get_msg builtins names schema Unchecked.utils σ in
  DataModel.type (DataModel.get_parameter "Admin state") = "boolean"
  ∧ DataModel.type (DataModel.get_parameter "Downlink EARFCN") = "unsignedInt"
  ∧ @get_all_param_values_to_set Unchecked.utils
      (desired_cfg Unchecked.mistyped_acs) (device_cfg Unchecked.mistyped_acs)
      (acs_data_model Unchecked.mistyped_acs) false
    = [("Admin state", VInt 5); ("Downlink EARFCN", VBool true)]
  ∧ sent
    = (Ok (mkAcsMsgAndTransition
             (SetParameterValues "cwmp:ParameterValueStruct[2]"
                [ {| Name := "Device.Admin state";
                     Value := {| type_ := "xsd:boolean"; Data := VStr "5" |} |};
                  {| Name := "Device.Downlink EARFCN";
                     Value := {| type_ := "xsd:unsignedInt";
                                 Data := VStr "True" |} |} ])
             (Some "wait_set")),
       σ)
  ∧ ¬ (∃ structs next,
         sent.1 = Ok (mkAcsMsgAndTransition
                        (SetParameterValues "cwmp:ParameterValueStruct[2]"
                           structs) next)
         ∧ Forall (λ s, type_ (Value s) = "xsd:boolean" →
                        Data (Value s) = VStr "0" ∨ Data (Value s) = VStr "1")
                  structs).
Proof.
  intros σ sent.
  assert (Hsent : sent
    = (Ok (mkAcsMsgAndTransition
             (SetParameterValues "cwmp:ParameterValueStruct[2]"
                [ {| Name := "Device.Admin state";
                     Value := {| type_ := "xsd:boolean"; Data := VStr "5" |} |};
                  {| Name := "Device.Downlink EARFCN";
                     Value := {| type_ := "xsd:unsignedInt";
                                 Data := VStr "True" |} |} ])
             (Some "wait_set")),
       σ)) by (vm_compute; reflexivity).
  split; [reflexivity|]. split; [reflexivity|].
  split; [vm_compute; reflexivity|]. split; [exact Hsent|].
  intros (structs & next & Hrun & Hdata).
  rewrite Hsent in Hrun. simpl in Hrun.
  injection Hrun as <- _.
  apply Forall_cons in Hdata as [Hadmin _].
  destruct (Hadmin eq_refl) as [H05 | H15]; discriminate.
Qed.

Lemma check_optional_params_handlers_witness :
  let σ :=
    mkMachine (CheckOptionalParamsState "get_transient" (Some "Optional A"))
      fresh_acs in
  let message :=
    GetParameterValuesResponse [pvs "Device.Optional A" (VInt 7)] in
  parse_get_parameter_values_response (acs_data_model fresh_acs) message ≠ []
  ∧ NoDup (dict_keys
             (parse_get_parameter_values_response (acs_data_model fresh_acs)
                message))
  ∧ (read_msg message σ).1 = Ok (mkAcsReadMsgResult true None)
  ∧ DataModel.presence_by_param (acs_data_model (acs (read_msg message σ).2))
      !! Some "Optional A" = Some true
  ∧ EnodebConfiguration.get_parameter
      (device_cfg (acs (read_msg message σ).2)) "Optional A" = Some (VInt 7).
Proof.
  intros σ message.
  assert (Hne : parse_get_parameter_values_response
                  (acs_data_model fresh_acs) message ≠ []) by done.
  assert (Hnd : NoDup (dict_keys
                         (parse_get_parameter_values_response
                            (acs_data_model fresh_acs) message))).
  { apply (bool_decide_unpack _). vm_compute. exact I. }
  split; [exact Hne|]. split; [exact Hnd|].
  destruct (check_optional_params_handlers "get_transient"
              (Some "Optional A") fresh_acs message) as [_ Hread].
  destruct (Hread Hnd) as (Hrun & Hpresent & _ & Hstored).
  fold σ in Hrun. rewrite Hrun. split; [reflexivity|]. split.
  - exact (Hpresent Hne).
  - apply (Hstored "Optional A" (VInt 7)).
    apply (bool_decide_unpack _). vm_compute. exact I.
Defined.

(** C7. A defect of [CheckOptionalParamsState.read_msg]: the call that
    marks the parameter under check present does not depend on the loop
    variable, yet it sits inside the loop over the parsed values.  On a
    [GetParameterValuesResponse] that carries no value the data model
    knows the loop body never runs: the parameter is not marked present,
    nothing is stored, the response is handled without a transition and
    the machine is as it was, so [get_msg] sends the request of before
    again.  A [Fault] on the same machine marks the parameter absent
    whatever it carries. *)
Lemma check_optional_params_empty_response_not_marked :
  let σ :=
    mkMachine (CheckOptionalParamsState "get_transient" (Some "Optional A"))
      fresh_acs in
  let message := GetParameterValuesResponse [] in
  let σ' := (read_msg message σ).2 in
  read_msg message σ = (Ok (mkAcsReadMsgResult true None), σ)
  ∧ ¬ (DataModel.presence_by_param (acs_data_model (acs σ'))
         !! Some "Optional A" = Some true)
  ∧ get_optional_param_to_check (acs_data_model (acs σ')) = Some "Optional A"
  ∧ get_msg σ
    = (Ok (mkAcsMsgAndTransition
             (GetParameterValues "xsd:string[1]" ["Device.Optional A"]) None),
       σ)
  ∧ get_msg σ' = get_msg σ
  ∧ DataModel.presence_by_param
      (acs_data_model
         (acs (read_msg (Fault "9005" "Invalid parameter name" None) σ).2))
      !! Some "Optional A" = Some false.
Proof.
  intros σ message σ'.
  split; [reflexivity|]. split; [vm_compute; discriminate|].
  split; [reflexivity|]. split; [reflexivity|]. split; [reflexivity|].
  vm_compute. reflexivity.
Qed.

Lemma not_handled_leaves_stores_witness :
  let σ := mkMachine (WaitSetParameterValuesState "end") provisioned_acs in
  let r := mkAcsReadMsgResult false None in
  let σ' := (read_msg DummyInput σ).2 in
  read_msg DummyInput σ = (Ok r, σ')
  ∧ msg_handled r = false
  ∧ device_cfg (acs σ') = device_cfg (acs σ)
  ∧ desired_cfg (acs σ') = desired_cfg (acs σ).
Proof.
  intros σ r σ'.
  assert (Hrun : read_msg DummyInput σ = (Ok r, σ')) by reflexivity.
  assert (Hnot : msg_handled r = false) by reflexivity.
  split; [exact Hrun|]. split; [exact Hnot|].
  destruct (not_handled_leaves_stores DummyInput σ σ' r Hrun Hnot)
    as (_ & Hdevice & Hdesired & _).
  split; [exact Hdevice | exact Hdesired].
Defined.

Lemma wait_get_transient_needs_rf_tx_status_witness :
  let σ :=
    mkMachine
      (WaitGetTransientParametersState "get_params" "get_obj_params"
         "delete_objs" "add_objs" "set_params" "end_session") partial_acs in
  let sender :=
    mkMachine (SendGetTransientParametersState "wait_get_transient")
      partial_acs in
  let without :=
    GetParameterValuesResponse [pvs "Device.Opstate" (VBool true)] in
  let with_rf :=
    GetParameterValuesResponse
      [pvs "Device.Opstate" (VBool true);
       pvs "Device.RF TX status" (VBool false)] in
  DataModel.is_parameter_present (acs_data_model partial_acs) "RF TX status"
  = false
  ∧ get_msg sender
    = (Ok (mkAcsMsgAndTransition
             (GetParameterValues "xsd:string[7]"
                ["Device.Opstate"; "Device.GPS lat"])
             (Some "wait_get_transient")),
       sender)
  ∧ read_msg without σ = (Raise (KeyError "RF TX status"), σ)
  ∧ (read_msg with_rf σ).1
    = Ok (mkAcsReadMsgResult true (Some "end_session")).
Proof.
  intros σ sender without with_rf.
  assert (Habsent :
    DataModel.is_parameter_present (acs_data_model partial_acs)
      "RF TX status" = false) by reflexivity.
  split; [exact Habsent|].
  destruct (wait_get_transient_needs_rf_tx_status
              "get_params" "get_obj_params" "delete_objs" "add_objs"
              "set_params" "end_session" "wait_get_transient" partial_acs
              [pvs "Device.Opstate" (VBool true)])
    as (Hraise & _ & Hrequest).
  destruct (wait_get_transient_needs_rf_tx_status
              "get_params" "get_obj_params" "delete_objs" "add_objs"
              "set_params" "end_session" "wait_get_transient" partial_acs
              [pvs "Device.Opstate" (VBool true);
               pvs "Device.RF TX status" (VBool false)])
    as (_ & Hhandled & _).
  split; [|split].
  - exact (Hrequest Habsent).
  - apply Hraise. apply (bool_decide_unpack _). vm_compute. exact I.
  - destruct Hhandled as (next & σ' & Hrun).
    { apply (bool_decide_unpack _). vm_compute. exact I. }
    assert (Hnext : (read_msg with_rf σ).1
                    = Ok (mkAcsReadMsgResult true (Some "end_session")))
      by reflexivity.
    exact Hnext.
Defined.

(** Scenario "Radio-stop metric": the stored [RF_TX_STATUS] is [True], the
    response carries [False]; [clear_stats] is called once, then the status
    metrics are updated. *)
Example radio_stop_clears_stats_once :
  let σ :=
    mkMachine
      (WaitGetTransientParametersState "get_params" "get_obj_params"
         "delete_objs" "add_objs" "set_params" "end_session")
      provisioned_acs in
  let message :=
    GetParameterValuesResponse [pvs "Device.RF TX status" (VBool false)] in
  calls (acs (read_msg message σ).2) = [clear_stats; update_status_metrics]
  ∧ calls (acs (read_msg message (read_msg message σ).2).2)
    = [clear_stats; update_status_metrics; update_status_metrics].
Proof. split; reflexivity. Qed.

(** Two object-parameter responses in a row: the first builds the desired
    configuration, the second finds it and leaves it alone. *)
Example desired_config_built_by_first_response_only :
  let s :=
    WaitGetObjectParametersState "delete_objs" "add_objs" "set_params"
      "end_session" in
  let message :=
    GetParameterValuesResponse [pvs "Device.PLMN 1 enable" (VBool true)] in
  let once := run [(s, call_read_msg message)] discovered_acs in
  let twice :=
    run [(s, call_read_msg message); (s, call_read_msg message)]
      discovered_acs in
  calls once = [build_desired_config_call]
  ∧ calls twice = [build_desired_config_call]
  ∧ is_Some (desired_cfg once)
  ∧ desired_cfg twice = desired_cfg once.
Proof. vm_compute. repeat split. by eexists. Qed.

(** ** Runs for the further properties *)

Lemma read_msg_tr069_error_writes_nothing_witness :
  let σ := mkMachine (WaitSetParameterValuesState "end") provisioned_acs in
  let message := SetParameterValuesResponse 1 in
  let text := "Received SetParameterValuesResponse with Status=1" in
  read_msg message σ = (Raise (Tr069Error text), (read_msg message σ).2)
  ∧ (read_msg message σ).2 = σ.
Proof.
  intros σ message text.
  assert (Hrun : read_msg message σ
                 = (Raise (Tr069Error text), (read_msg message σ).2))
    by reflexivity.
  split; [exact Hrun|].
  pose proof (read_msg_tr069_error_writes_nothing message σ
                (read_msg message σ).2 text) as Hclean.
  exact (Hclean Hrun).
Defined.

Lemma wait_get_parameters_read_msg_witness :
  let σ := mkMachine (WaitGetParametersState "get_obj_params") provisioned_acs in
  let message :=
    GetParameterValuesResponse
      [pvs "Device.Opstate" (VBool true);
       pvs "Device.Downlink EARFCN" (VInt 39150)] in
  let device_cfg' := device_cfg (acs (read_msg message σ).2) in
  NoDup ["Opstate"; "Downlink EARFCN"]
  ∧ ("RF TX status" ∉ ["Opstate"; "Downlink EARFCN"])
  ∧ (read_msg message σ).1
    = Ok (mkAcsReadMsgResult true (Some "get_obj_params"))
  ∧ EnodebConfiguration.get_parameter device_cfg' "Downlink EARFCN"
    = Some (VInt 39150)
  ∧ EnodebConfiguration.get_parameter device_cfg' "RF TX status"
    = Some (VBool true).
Proof.
  intros σ message device_cfg'.
  assert (Hnd : NoDup ["Opstate"; "Downlink EARFCN"]).
  { apply (bool_decide_unpack _). vm_compute. exact I. }
  assert (Hother : "RF TX status" ∉ ["Opstate"; "Downlink EARFCN"]).
  { apply (bool_decide_unpack _). vm_compute. exact I. }
  split; [exact Hnd|]. split; [exact Hother|].
  destruct (wait_get_parameters_read_msg "get_obj_params" provisioned_acs
              message) as (Hrun & Hstored & Hkept & _).
  subst device_cfg'. fold σ in Hrun. rewrite Hrun.
  split; [reflexivity|]. split.
  - apply (Hstored Hnd "Downlink EARFCN" (VInt 39150)).
    apply (bool_decide_unpack _). vm_compute. exact I.
  - etrans; [exact (Hkept "RF TX status" Hother) | reflexivity].
Defined.

Lemma wait_get_transient_read_msg_stores_witness :
  let s :=
    WaitGetTransientParametersState "get_params" "get_obj_params"
      "delete_objs" "add_objs" "set_params" "end_session" in
  let message :=
    GetParameterValuesResponse
      [pvs "Device.Opstate" (VBool true);
       pvs "Device.RF TX status" (VBool false)] in
  let σ' := (read_msg message (mkMachine s provisioned_acs)).2 in
  NoDup (dict_keys
           (parse_get_parameter_values_response
              (acs_data_model provisioned_acs) message))
  ∧ (read_msg message (mkMachine s provisioned_acs)).1
    = Ok (mkAcsReadMsgResult true (Some "end_session"))
  ∧ calls (acs σ') = [clear_stats; update_status_metrics]
  ∧ EnodebConfiguration.get_parameter (device_cfg (acs σ')) "RF TX status"
    = Some (VBool false).
Proof.
  intros s message σ'.
  assert (Hnd : NoDup (dict_keys
                         (parse_get_parameter_values_response
                            (acs_data_model provisioned_acs) message))).
  { apply (bool_decide_unpack _). vm_compute. exact I. }
  split; [exact Hnd|].
  pose proof (wait_get_transient_read_msg_stores
                "get_params" "get_obj_params" "delete_objs" "add_objs"
                "set_params" "end_session" provisioned_acs
                [pvs "Device.Opstate" (VBool true);
                 pvs "Device.RF TX status" (VBool false)]
                (VBool false)) as Hstores.
  destruct (Hstores Hnd eq_refl) as [Hrun Hstored].
  subst σ'. fold s message in Hrun. rewrite Hrun.
  split; [reflexivity|]. split; [reflexivity|].
  apply (Hstored "RF TX status" (VBool false)).
  apply (bool_decide_unpack _). vm_compute. exact I.
Defined.

Lemma wait_get_object_parameters_read_msg_returns_witness :
  let s :=
    WaitGetObjectParametersState "delete_objs" "add_objs" "set_params"
      "end_session" in
  let message :=
    GetParameterValuesResponse [pvs "Device.PLMN 1 enable" (VBool true)] in
  let σ' := (read_msg message (mkMachine s discovered_acs)).2 in
  read_msg message (mkMachine s discovered_acs)
  = (Ok (mkAcsReadMsgResult true (Some "set_params")), σ')
  ∧ desired_cfg (acs σ')
    = Some (build_desired_config (device_cfg (acs σ')) (DataModel.mk ∅))
  ∧ calls (acs σ') = [build_desired_config_call]
  ∧ EnodebConfiguration.get_parameter_for_object (device_cfg (acs σ'))
      "PLMN 1 enable" "PLMN 1" = Some (VBool true).
Proof.
  intros s message σ'.
  assert (Hrun : read_msg message (mkMachine s discovered_acs)
                 = (Ok (mkAcsReadMsgResult true (Some "set_params")), σ'))
    by reflexivity.
  split; [exact Hrun|].
  pose proof (wait_get_object_parameters_read_msg_returns
                "delete_objs" "add_objs" "set_params" "end_session"
                discovered_acs
                [pvs "Device.PLMN 1 enable" (VBool true)]
                (mkAcsReadMsgResult true (Some "set_params")) σ')
    as Hreturns.
  destruct (Hreturns Hrun) as (_ & Hdesired & Hcalls & _).
  split; [exact Hdesired|]. split; [exact Hcalls|]. reflexivity.
Defined.

Lemma wait_get_object_parameters_read_msg_edges_witness :
  let s :=
    WaitGetObjectParametersState "delete_objs" "add_objs" "set_params"
      "end_session" in
  let empty := GetParameterValuesResponse [] in
  read_msg empty (mkMachine s fresh_acs)
  = (Raise (KeyError "Number of PLMNs"), mkMachine s fresh_acs)
  ∧ (read_msg empty (mkMachine s discovered_acs)).1
    = Raise (KeyError "Device.PLMN 1 enable")
  ∧ desired_cfg (acs (read_msg empty (mkMachine s discovered_acs)).2) = None
  ∧ calls (acs (read_msg empty (mkMachine s discovered_acs)).2) = []
  ∧ (read_msg empty (mkMachine s no_plmn_acs)).1
    = Ok (mkAcsReadMsgResult true (Some "set_params"))
  ∧ device_cfg (acs (read_msg empty (mkMachine s no_plmn_acs)).2)
    = device_cfg no_plmn_acs.
Proof.
  intros s empty.
  destruct (wait_get_object_parameters_read_msg_edges
              "delete_objs" "add_objs" "set_params" "end_session"
              fresh_acs []) as (Hmissing & _ & _).
  destruct (wait_get_object_parameters_read_msg_edges
              "delete_objs" "add_objs" "set_params" "end_session"
              discovered_acs []) as (_ & Hraise & _).
  destruct (wait_get_object_parameters_read_msg_edges
              "delete_objs" "add_objs" "set_params" "end_session"
              no_plmn_acs []) as (_ & _ & Hzero).
  split; [exact (Hmissing eq_refl)|].
  assert (Hrun : read_msg empty (mkMachine s discovered_acs)
                 = (Raise (KeyError "Device.PLMN 1 enable"),
                    (read_msg empty (mkMachine s discovered_acs)).2))
    by reflexivity.
  split; [by rewrite Hrun|].
  pose proof (Hraise _ _ Hrun) as Hbeside.
  split; [exact (f_equal (λ view, view.1.1.2) Hbeside)|].
  split; [exact (f_equal (λ view, view.2) Hbeside)|].
  destruct (Hzero 0 eq_refl) as (r & σ' & Hok & Hhandled & Hdevice);
    [done|].
  fold s empty in Hok. rewrite Hok. simpl. split; [|exact Hdevice].
  assert (Hr : (read_msg empty (mkMachine s no_plmn_acs)).1
               = Ok (mkAcsReadMsgResult true (Some "set_params")))
    by reflexivity.
  rewrite Hok in Hr. exact Hr.
Defined.

Lemma set_parameter_values_request_shape_witness :
  let σ :=
    mkMachine (SetParameterValuesNotAdminState "wait_set") provisioned_acs in
  Forall (λ item,
            DataModel.type (DataModel.get_parameter item.1)
            ∈ ["int"; "unsignedInt"; "string"])
         (get_all_param_values_to_set (desired_cfg provisioned_acs)
            (device_cfg provisioned_acs) (acs_data_model provisioned_acs)
            true)
  ∧ get_msg σ
    = (Ok (mkAcsMsgAndTransition
             (SetParameterValues "cwmp:ParameterValueStruct[2]"
                [ {| Name := "Device.Downlink EARFCN";
                     Value := {| type_ := "xsd:unsignedInt";
                                 Data := VStr "39150" |} |};
                  {| Name := "Device.Perf mgmt upload url";
                     Value := {| type_ := "xsd:string";
                                 Data := VStr "http://192.88.99.142/" |} |} ])
             (Some "wait_set")),
       σ).
Proof.
  intros σ.
  assert (Hall :
    Forall (λ item,
              DataModel.type (DataModel.get_parameter item.1)
              ∈ ["int"; "unsignedInt"; "string"])
           (get_all_param_values_to_set (desired_cfg provisioned_acs)
              (device_cfg provisioned_acs) (acs_data_model provisioned_acs)
              true)).
  { match goal with
    | |- Forall ?P ?items =>
        let items' := eval vm_compute in items in change (Forall P items')
    end.
    repeat (apply Forall_cons; split;
              [apply (bool_decide_unpack _); vm_compute; exact I|]).
    constructor. }
  split; [exact Hall|].
  destruct (set_parameter_values_request_shape true "wait_set"
              provisioned_acs) as (_ & _ & Hbuilt).
  exact (Hbuilt Hall).
Defined.

Lemma check_optional_params_exchange_witness :
  let σ := mkMachine (CheckOptionalParamsState "get_transient" None) fresh_acs in
  let message := Fault "9005" "Invalid parameter name" None in
  let dm' := acs_data_model (acs (read_msg message (get_msg σ).2).2) in
  get_optional_param_to_check (acs_data_model fresh_acs) = Some "Optional A"
  ∧ (get_msg σ).1
    = Ok (mkAcsMsgAndTransition
            (GetParameterValues "xsd:string[1]" ["Device.Optional A"]) None)
  ∧ DataModel.presence_by_param dm' !! Some "Optional A" = Some false
  ∧ DataModel.presence_by_param dm' !! Some "Optional B" = None
  ∧ get_optional_param_to_check dm' = Some "Optional B".
Proof.
  intros σ message dm'.
  assert (Hname : get_optional_param_to_check (acs_data_model fresh_acs)
                  = Some "Optional A") by reflexivity.
  split; [exact Hname|].
  pose proof (check_optional_params_exchange "get_transient" None fresh_acs
                "Optional A" message) as Hexchange.
  destruct (Hexchange Hname) as (Hrequest & (_ & Habsent & _) & Hothers).
  split; [exact Hrequest|]. split; [exact Habsent|]. split.
  - etrans; [apply (Hothers (Some "Optional B")); discriminate|].
    reflexivity.
  - reflexivity.
Defined.
